(** * MetaPhlAn profile utilities: [fix_relab_mpa4] and [sgb_to_gtdb_profile]

    A shallow embedding of the two profile-rewriting scripts of
    [metaphlan/utils]:

    - [fix_relab_mpa4.py]: repairs taxonomic labels of a profile and
      renormalises the relative abundances of every rank;
    - [sgb_to_gtdb_profile.py]: rewrites an SGB profile into GTDB
      nomenclature and renormalises every rank.

    Conventions of the embedding.

    - A Python [str] is a [string] (a sequence of 8-bit characters; the
      profiles are ASCII text).  A text file is the list of its lines, each
      line with its terminator, as iteration over a Python file object
      yields them.  What the script writes is the list of the strings passed
      to [wf.write], in order.
    - A Python [float] is an IEEE 754 binary64 number, [spec_float] at
      precision 53 and maximal exponent 1024, with the operations of the
      standard library's [SpecFloat] (round to nearest, ties to even).
    - A Python [dict] is an association list in insertion order without
      duplicate keys: assignment to an existing key updates it in place,
      assignment to a new key appends.
    - Exceptions and [error(..., exit=True)] end a run; a run yields the
      lines written so far and how it ended.
    - The tables read from [oct22_fix_tax.tsv] and [<database>_SGB2GTDB.tsv]
      are parameters of the runs.  Command line handling, [openrt] and the
      messages printed to the standard output are not modelled.
    - The built-ins follow CPython 3.11: [float], [str] and [round] are
      correctly rounded, and [sum] adds from left to right.  The parts of
      numpy that the merged profiles use ([np.add], [round] of a
      [float64]) are modelled next to the code that calls them. *)

From Stdlib Require Import ZArith QArith Qabs List String Ascii Bool Lia.
From Stdlib Require Import Floats.SpecFloat.
From Stdlib Require Import Numbers.DecimalString.
Import ListNotations.

Local Close Scope Q_scope.
Local Open Scope list_scope.
Local Open Scope string_scope.

(* ===================================================================== *)
(** * Python string primitives *)
(* ===================================================================== *)

Module Py.

(** The separators and white space characters of the scripts. *)
Definition TAB : ascii := ascii_of_nat 9.
Definition NL : ascii := ascii_of_nat 10.
Definition tab : string := String TAB EmptyString.
Definition nl : string := String NL EmptyString.

(** [s.startswith(p)] *)
Definition startswith (s p : string) : bool := String.prefix p s.

(** [p in s] for strings *)
Fixpoint contains (p s : string) : bool :=
  if String.prefix p s then true
  else match s with
       | EmptyString => false
       | String _ s' => contains p s'
       end.

(** [s.split(sep)] for a one-character separator: never empty. *)
Fixpoint split (sep : ascii) (s : string) : list string :=
  match s with
  | EmptyString => [EmptyString]
  | String c s' =>
      if Ascii.eqb c sep then EmptyString :: split sep s'
      else match split sep s' with
           | [] => [String c EmptyString]
           | w :: ws => String c w :: ws
           end
  end.

(** [sep.join(l)] *)
Fixpoint join (sep : string) (l : list string) : string :=
  match l with
  | [] => EmptyString
  | [x] => x
  | x :: r => x ++ sep ++ join sep r
  end.

(** [s.replace(old, new)] for a non-empty [old]: every occurrence, found
    left to right without overlap.  [skip] counts the characters of the
    occurrence being removed that are still to be dropped. *)
Fixpoint replace_go (old new : string) (skip : nat) (s : string) : string :=
  match s with
  | EmptyString => EmptyString
  | String c s' =>
      match skip with
      | S k => replace_go old new k s'
      | O =>
          if String.prefix old s
          then new ++ replace_go old new (String.length old - 1) s'
          else String c (replace_go old new 0 s')
      end
  end.

Definition replace (s old new : string) : string := replace_go old new 0 s.

(** White space of [str.strip()] in the ASCII range. *)
Definition isspace (c : ascii) : bool :=
  let n := nat_of_ascii c in
  ((9 <=? n) && (n <=? 13) || (28 <=? n) && (n <=? 32))%nat.

Fixpoint lstrip (s : string) : string :=
  match s with
  | String c s' => if isspace c then lstrip s' else s
  | EmptyString => EmptyString
  end.

Fixpoint rstrip (s : string) : string :=
  match s with
  | EmptyString => EmptyString
  | String c s' =>
      match rstrip s' with
      | EmptyString => if isspace c then EmptyString else String c EmptyString
      | r => String c r
      end
  end.

(** [s.strip()] *)
Definition strip (s : string) : string := rstrip (lstrip s).

(** [s[n:]] *)
Fixpoint drop (n : nat) (s : string) : string :=
  match n, s with
  | O, _ => s
  | S k, String _ s' => drop k s'
  | S _, EmptyString => EmptyString
  end.

(** [l[:-1]] and [l[-1]] on lists ([l[-1]] of a [split] never fails). *)
Definition butlast {A} (l : list A) : list A := removelast l.
Definition last_str (l : list string) : string := List.last l EmptyString.

End Py.

(* ===================================================================== *)
(** * Python floats: IEEE 754 binary64 *)
(* ===================================================================== *)

Module PyFloat.

Definition prec : Z := 53.
Definition emax : Z := 1024.

Definition float : Type := spec_float.

Definition zero : float := S754_zero false.

Definition add : float -> float -> float := SFadd prec emax.
Definition mul : float -> float -> float := SFmul prec emax.
Definition eqb : float -> float -> bool := SFeqb.

(** The nearest binary64 number to the ratio [n / d] of two integers,
    [0 <= n] and [0 < d], with sign [s]: what the correctly rounded
    decimal-to-binary conversion of CPython ([_Py_dg_strtod]) returns. *)
Definition of_ratio (s : bool) (n d : Z) : float :=
  match n with
  | Z0 => S754_zero s
  | _ =>
      let '(q, e, l) := SFdiv_core_binary prec emax n 0 d 0 in
      binary_round_aux prec emax s q e l
  end.

(** [float(n)] for an integer literal [n] of the scripts. *)
Definition of_Z (n : Z) : float := binary_normalize prec emax n 0 false.

Definition hundred : float := of_Z 100.

(** The exact value of a finite float as a ratio of integers. *)
Definition to_ratio (m : positive) (e : Z) : Z * Z :=
  match e with
  | Zneg p => (Zpos m, Z.pow 2 (Zpos p))
  | _ => (Zpos m * Z.pow 2 e, 1)%Z
  end.

(** Nearest integer to [n / d], ties to even ([0 <= n], [0 < d]). *)
Definition div_half_even (n d : Z) : Z :=
  let q := (n / d)%Z in
  let r := (n mod d)%Z in
  match (2 * r ?= d)%Z with
  | Lt => q
  | Gt => (q + 1)%Z
  | Eq => if Z.even q then q else (q + 1)%Z
  end.

(** [round(x, 5)]: CPython rounds the exact value of [x] to five decimal
    places, ties to even, and converts that decimal back to the nearest
    float; infinities and NaN round to themselves. *)
Definition round5 (x : float) : float :=
  match x with
  | S754_finite s m e =>
      let '(n, d) := to_ratio m e in
      of_ratio s (div_half_even (n * 100000) d) 100000
  | _ => x
  end.

(** ** [float(s)]: decimal text to float *)

Definition is_digit (c : ascii) : bool :=
  let n := nat_of_ascii c in ((48 <=? n) && (n <=? 57))%nat.

Definition digit_val (c : ascii) : Z := Z.of_nat (nat_of_ascii c - 48).

Definition starts_with_digit (s : string) : bool :=
  match s with
  | String c _ => is_digit c
  | EmptyString => false
  end.

(** A run of decimal digits; one underscore is allowed between two
    digits.  Returns the value, the number of digits and the rest. *)
Fixpoint digits_go (acc : Z) (cnt : nat) (after_digit : bool) (s : string)
  : Z * nat * string :=
  match s with
  | String c s' =>
      if is_digit c then digits_go (10 * acc + digit_val c)%Z (S cnt) true s'
      else if Ascii.eqb c "_"%char && after_digit && starts_with_digit s'
           then digits_go acc cnt false s'
           else (acc, cnt, s)
  | EmptyString => (acc, cnt, s)
  end.

Definition lower (c : ascii) : ascii :=
  let n := nat_of_ascii c in
  if ((65 <=? n) && (n <=? 90))%nat then ascii_of_nat (n + 32) else c.

Fixpoint lower_str (s : string) : string :=
  match s with
  | EmptyString => EmptyString
  | String c s' => String (lower c) (lower_str s')
  end.

Definition parse_sign (s : string) : bool * string :=
  match s with
  | String c s' =>
      if Ascii.eqb c "-"%char then (true, s')
      else if Ascii.eqb c "+"%char then (false, s')
           else (false, s)
  | EmptyString => (false, s)
  end.

(** The optional exponent part; [None] when it is malformed. *)
Definition parse_exponent (s : string) : option Z :=
  match s with
  | EmptyString => Some 0%Z
  | String c s' =>
      if Ascii.eqb (lower c) "e"%char then
        let '(neg, s1) := parse_sign s' in
        let '(v, cnt, rest) := digits_go 0 0 false s1 in
        match cnt, rest with
        | S _, EmptyString => Some (if neg then (- v)%Z else v)
        | _, _ => None
        end
      else None
  end.

(** The white space [float] skips around an ASCII string: the characters
    0x09 to 0x0D and the space, a narrower set than that of
    [str.strip]. *)
Definition is_space (c : ascii) : bool :=
  let n := nat_of_ascii c in
  ((9 <=? n) && (n <=? 13) || (n =? 32))%nat.

Fixpoint skip_left (s : string) : string :=
  match s with
  | String c s' => if is_space c then skip_left s' else s
  | EmptyString => EmptyString
  end.

Fixpoint skip_right (s : string) : string :=
  match s with
  | EmptyString => EmptyString
  | String c s' =>
      match skip_right s' with
      | EmptyString => if is_space c then EmptyString else String c EmptyString
      | r => String c r
      end
  end.

(** [float(s)]; [None] stands for [ValueError].  Surrounding white space
    is ignored; the accepted literals are [inf], [infinity], [nan] and
    decimal numbers with optional fraction and exponent. *)
Definition of_string (s : string) : option float :=
  let '(neg, body) := parse_sign (skip_right (skip_left s)) in
  let low := lower_str body in
  if String.eqb low "inf" || String.eqb low "infinity" then Some (S754_infinity neg)
  else if String.eqb low "nan" then Some S754_nan
  else
    let '(ip, c1, r1) := digits_go 0 0 false body in
    let '(fp, c2, r2) :=
      match r1 with
      | String c r => if Ascii.eqb c "."%char then digits_go ip 0 false r
                      else (ip, O, r1)
      | EmptyString => (ip, O, r1)
      end in
    match (c1 + c2)%nat with
    | O => None
    | S _ =>
        match parse_exponent r2 with
        | None => None
        | Some ex =>
            let x := (ex - Z.of_nat c2)%Z in
            Some (match x with
                  | Zneg p => of_ratio neg fp (Z.pow 10 (Zpos p))
                  | _ => of_ratio neg (fp * Z.pow 10 x) 1
                  end)
        end
    end.

(** ** [str(x)] and [repr(x)]: shortest decimal text that reads back *)

(** [10^k <= n / d], for [0 < n] and [0 < d]. *)
Definition pow10_le (k n d : Z) : bool :=
  match k with
  | Zneg p => (d <=? n * Z.pow 10 (Zpos p))%Z
  | _ => (Z.pow 10 k * d <=? n)%Z
  end.

(** The decimal exponent [k] of [n / d]: [10^k <= n/d < 10^(k+1)],
    searched upwards from a lower estimate. *)
Fixpoint dec_exponent_go (fuel : nat) (k n d : Z) : Z :=
  match fuel with
  | O => k
  | S f => if pow10_le (k + 1) n d then dec_exponent_go f (k + 1)%Z n d else k
  end.

Definition dec_exponent (n d : Z) : Z :=
  let est := ((Z.log2 n - Z.log2 d - 1) * 30102 / 100000 - 1)%Z in
  dec_exponent_go 8 est n d.

(** The float denoted by the decimal [D * 10^k]. *)
Definition of_decimal (D k : Z) : float :=
  match k with
  | Zneg p => of_ratio false D (Z.pow 10 (Zpos p))
  | _ => of_ratio false (D * Z.pow 10 k) 1
  end.

(** With [p] significant digits: the decimal nearest to [n/d] among those
    that read back as [x], if there is one. *)
Definition shortest_at (x : float) (n d k0 : Z) (p : Z) : option (Z * Z) :=
  let k := (k0 - p + 1)%Z in
  let '(sn, sd) := match k with
                   | Zneg q => (n * Z.pow 10 (Zpos q), d)%Z
                   | _ => (n, d * Z.pow 10 k)%Z
                   end in
  let lo := (sn / sd)%Z in
  let hi := (lo + 1)%Z in
  let r := (sn mod sd)%Z in
  let ok_lo := SFeqb (of_decimal lo k) x in
  let ok_hi := SFeqb (of_decimal hi k) x in
  match ok_lo, ok_hi with
  | true, false => Some (lo, k)
  | false, true => Some (hi, k)
  | true, true =>
      match (2 * r ?= sd)%Z with
      | Lt => Some (lo, k)
      | Gt => Some (hi, k)
      | Eq => Some (if Z.even lo then lo else hi, k)
      end
  | false, false => None
  end.

Fixpoint shortest_go (fuel : nat) (x : float) (n d k0 p : Z) : Z * Z :=
  match fuel with
  | O => (div_half_even (n * Z.pow 10 (17 - 1 - k0)) d, (k0 - 16)%Z)
  | S f =>
      match shortest_at x n d k0 p with
      | Some r => r
      | None => shortest_go f x n d k0 (p + 1)%Z
      end
  end.

(** Drop the trailing zeros of a positive digit sequence. *)
Fixpoint strip_zeros (fuel : nat) (D k : Z) : Z * Z :=
  match fuel with
  | O => (D, k)
  | S f => if (0 <? D)%Z && (D mod 10 =? 0)%Z then strip_zeros f (D / 10)%Z (k + 1)%Z
           else (D, k)
  end.

Definition digits_of (D : Z) : string :=
  NilZero.string_of_uint (N.to_uint (Z.to_N D)).

Fixpoint zeros (n : nat) : string :=
  match n with
  | O => EmptyString
  | S k => String "0"%char (zeros k)
  end.

Fixpoint take (n : nat) (s : string) : string :=
  match n, s with
  | S k, String c s' => String c (take k s')
  | _, _ => EmptyString
  end.

(** The layout of CPython's [repr]: digits [ds], decimal point position
    [decpt] (the value is [0.ds * 10^decpt]). *)
Definition layout (ds : string) (decpt : Z) : string :=
  let nd := Z.of_nat (String.length ds) in
  if (decpt <=? -4)%Z || (16 <? decpt)%Z then
    let ex := (decpt - 1)%Z in
    let mant := match ds with
                | String c EmptyString => ds
                | String c r => String c ("." ++ r)
                | EmptyString => ds
                end in
    let exs := digits_of (Z.abs ex) in
    let exs := if (String.length exs <? 2)%nat then "0" ++ exs else exs in
    mant ++ "e" ++ (if (ex <? 0)%Z then "-" else "+") ++ exs
  else if (decpt <=? 0)%Z then "0." ++ zeros (Z.to_nat (- decpt)) ++ ds
  else if (nd <=? decpt)%Z then ds ++ zeros (Z.to_nat (decpt - nd)) ++ ".0"
  else take (Z.to_nat decpt) ds ++ "." ++ Py.drop (Z.to_nat decpt) ds.

(** [str(x)] (the same text as [repr(x)], and as ['{}'.format(x)]). *)
Definition str (x : float) : string :=
  match x with
  | S754_nan => "nan"
  | S754_infinity s => if s then "-inf" else "inf"
  | S754_zero s => if s then "-0.0" else "0.0"
  | S754_finite s m e =>
      let '(n, d) := to_ratio m e in
      let k0 := dec_exponent n d in
      let '(D, k) := shortest_go 17 (S754_finite false m e) n d k0 1 in
      let '(D, k) := strip_zeros 20 D k in
      let ds := digits_of D in
      (if s then "-" else "") ++ layout ds (k + Z.of_nat (String.length ds))
  end.

End PyFloat.

(* ===================================================================== *)
(** * Python dictionaries and exceptions *)
(* ===================================================================== *)

(** A [dict] with [str] keys, in insertion order. *)
Definition dict (V : Type) : Type := list (string * V).

Fixpoint dict_get {V} (d : dict V) (k : string) : option V :=
  match d with
  | [] => None
  | (k', v) :: r => if String.eqb k' k then Some v else dict_get r k
  end.

(** [d[k] = v] *)
Fixpoint dict_set {V} (d : dict V) (k : string) (v : V) : dict V :=
  match d with
  | [] => [(k, v)]
  | (k', v') :: r =>
      if String.eqb k' k then (k', v) :: r else (k', v') :: dict_set r k v
  end.

Definition dict_keys {V} (d : dict V) : list string := map fst d.

(** How a run can end early. *)
Inductive error : Type :=
| SystemExit (message : string)
| IndexError
| ValueError
| KeyError (key : string)
| ZeroDivisionError
| UnboundLocalError (name : string).

(** Modelled from the spec: [util_fun.error(message, exit=True)], whose
    source is not part of the two scripts.  It reports [message] and
    terminates the process ("fatal, operation aborts with a descriptive
    message"). *)
Definition error_exit (message : string) : error := SystemExit message.

Definition result (A : Type) : Type := (A + error)%type.

Definition Ok {A} (a : A) : result A := inl a.
Definition Raise {A} (e : error) : result A := inr e.

Definition bind {A B} (m : result A) (f : A -> result B) : result B :=
  match m with
  | inl a => f a
  | inr e => inr e
  end.

Notation "x <- m ;; k" := (bind m (fun x => k))
  (at level 61, m at next level, right associativity).

(** [l[i]] on a list *)
Definition index {A} (l : list A) (i : nat) : result A :=
  match nth_error l i with
  | Some a => Ok a
  | None => Raise IndexError
  end.

(** [float(s)] *)
Definition float_ (s : string) : result PyFloat.float :=
  match PyFloat.of_string s with
  | Some x => Ok x
  | None => Raise ValueError
  end.

(** [a / b] on floats *)
Definition truediv (a b : PyFloat.float) : result PyFloat.float :=
  if PyFloat.eqb b PyFloat.zero then Raise ZeroDivisionError
  else Ok (SFdiv PyFloat.prec PyFloat.emax a b).

(** What a run leaves behind: the strings written to the output file, in
    order, and [None] when the function returned, [Some e] when it was
    ended by [e]. *)
Record run : Type := { output : list string; status : option error }.

(** The parent of a lineage: [sep.join(s.split(sep)[:-1])]. *)
Definition drop_last_segment (sep : ascii) (s : string) : string :=
  Py.join (String sep EmptyString) (Py.butlast (Py.split sep s)).

(** The ranks of a table list, Python style: [taxa_levs[-i]] for
    [1 <= i <= len(taxa_levs)]. *)
Definition neg_index {A} (l : list A) (i : nat) : nat := List.length l - i.

Fixpoint list_set {A} (l : list A) (i : nat) (a : A) : list A :=
  match l, i with
  | [], _ => []
  | _ :: r, O => a :: r
  | x :: r, S k => x :: list_set r k a
  end.

(* ===================================================================== *)
(** * [fix_relab_mpa4.py] *)
(* ===================================================================== *)

Definition JUN23 : string := "mpa_vJun23_CHOCOPhlAnSGB_202307".
Definition OCT22 : string := "mpa_vOct22_CHOCOPhlAnSGB_202212".

Definition RELEASE_MESSAGE : string :=
  "The release is not specified in the header or does not correspond to mpa_vJun23_CHOCOPhlAnSGB_202307 or mpa_vOct22_CHOCOPhlAnSGB_202212".

(** [release == name], where [release] starts as [None]. *)
Definition release_is (release : option string) (name : string) : bool :=
  match release with
  | Some r => String.eqb r name
  | None => false
  end.

(** The fixed renames applied to a raw line of the Jun23 release. *)
Definition jun23_fix (line : string) : string :=
  if Py.contains "p__Bacillota" line
  then Py.replace line "p__Bacillota" "p__Firmicutes"
  else if Py.contains "f__Saccharomycetales_unclassified" line
       then Py.replace line "f__Saccharomycetales_unclassified" "f__Debaryomycetaceae"
       else line.

(** The table of [oct22_fix_tax.tsv], as [read_oct22_fixes] builds it:
    old lineage to (new lineage, new identifier). *)
Definition fix_table : Type := dict (string * string).

(** One iteration of the loop of [read_oct22_fixes] (lines 45-46): the
    line is split on tabs without being stripped and must unpack into
    exactly three fields ([ValueError] otherwise); only the identifier is
    stripped. *)
Definition oct22_fix_line (acc : result fix_table) (l : string) : result fix_table :=
  oct_fixes <- acc ;;
  match Py.split Py.TAB l with
  | [old_tax; new_tax; new_tax_id] =>
      Ok (dict_set oct_fixes old_tax (new_tax, Py.strip new_tax_id))
  | _ => Raise ValueError
  end.

(** [read_oct22_fixes(file)], on the lines [inf.readlines()] of the file:
    the first line is skipped ([[1:]]). *)
Definition read_oct22_fixes (file : list string) : result fix_table :=
  fold_left oct22_fix_line (tl file) (Ok []).

(** ** Profiles with one abundance column ([merged] is false) *)

(** A row of a rank table: the list [[name, value, extra]]. *)
Record entry : Type := Entry { e_name : string; e_value : PyFloat.float; e_extra : string }.

Definition levels : Type := list (dict entry).

Record state : Type := State {
  taxa_levs : levels;
  release : option string;
  unclassified_fraction : PyFloat.float;
  wf : list string
}.

Definition init_levels : levels := [[]; []; []; []; []; []; []; []].

Definition init_state : state :=
  State init_levels None PyFloat.zero [].

(** [wf.write(s)] *)
Definition emit (out : list string) (s : string) : list string := List.app out [s].

Definition write (st : state) (s : string) : state :=
  State (taxa_levs st) (release st) (unclassified_fraction st) (emit (wf st) s).

(** The fields of a data line after the release-specific repair
    (lines 120-134). *)
Definition fix_fields (oct_fixes : fix_table) (merged : bool)
    (release : option string) (line : string) : result (list string) :=
  if release_is release JUN23 then
    Ok (Py.split Py.TAB (Py.strip (jun23_fix line)))
  else if release_is release OCT22 then
    let fields := Py.split Py.TAB (Py.strip line) in
    match fields with
    | [] => Raise IndexError   (* a [split] is never empty *)
    | f0 :: rest =>
        match dict_get oct_fixes f0 with
        | None => Ok fields
        | Some (new_tax, new_tax_id) =>
            if merged then Ok (new_tax :: rest)
            else match rest with
                 | [] => Raise IndexError
                 | _ :: rest' => Ok (new_tax :: new_tax_id :: rest')
                 end
        end
    end
  else Raise (error_exit RELEASE_MESSAGE).

(** The list stored for a data line (line 137). *)
Definition entry_of_fields (fields : list string) : result entry :=
  name <- index fields 1 ;;
  text <- index fields 2 ;;
  value <- float_ text ;;
  Ok (Entry name value
        (if (List.length fields =? 4)%nat then nth 3 fields EmptyString
         else EmptyString)).

(** Assignment to the deepest table, [taxa_levs[-1][k] = e]. *)
Definition set_leaf (st : state) (k : string) (e : entry) : state :=
  let i := neg_index (taxa_levs st) 1 in
  State (list_set (taxa_levs st) i (dict_set (nth i (taxa_levs st) []) k e))
        (release st) (unclassified_fraction st) (wf st).

(** What a data line assigns (lines 120-137): the key [line[0]] and the
    stored list. *)
Definition leaf_assignment (oct_fixes : fix_table) (release : option string)
    (line : string) : result (string * entry) :=
  fields <- fix_fields oct_fixes false release line ;;
  e <- entry_of_fields fields ;;
  Ok (nth 0 fields EmptyString, e).

(** One iteration of the reading loop (lines 105-139).  An exception keeps
    what was written before it. *)
Definition read_line (oct_fixes : fix_table) (st : state) (line : string)
  : state + (list string * error) :=
  if Py.startswith line "#mpa_v" then
    let release := Py.drop 1 (Py.strip line) in
    let line := drop_last_segment "_" line in
    inl (write (State (taxa_levs st) (Some release) (unclassified_fraction st) (wf st))
               (Py.strip line ++ "_202403" ++ Py.nl))
  else if Py.startswith line "#" || Py.startswith line "clade_name" then
    inl (write st line)
  else if Py.startswith line "UNCLASSIFIED" then
    let st := write st line in
    match (text <- index (Py.split Py.TAB line) 2 ;; float_ text) with
    | inl u => inl (State (taxa_levs st) (release st) u (wf st))
    | inr e => inr (wf st, e)
    end
  else if Py.contains "t__" line then
    match leaf_assignment oct_fixes (release st) line with
    | inl (k, e) => inl (set_leaf st k e)
    | inr e => inr (wf st, e)
    end
  else inl st.

Fixpoint read_lines (oct_fixes : fix_table) (st : state) (input : list string)
  : state + (list string * error) :=
  match input with
  | [] => inl st
  | line :: rest =>
      match read_line oct_fixes st line with
      | inl st' => read_lines oct_fixes st' rest
      | inr e => inr e
      end
  end.

(** One iteration of the inner loop of [assign_higher_taxonomic_levels]
    (lines 67-80): the child [ss] of rank [-i] is added to its parent
    [gg] in the table [parent] of rank [-j]. *)
Definition raise_child (parent : dict entry) (child : string * entry) : dict entry :=
  let '(ss, e) := child in
  let gg := drop_last_segment "|" ss in
  let gg_n := drop_last_segment "|" (e_name e) in
  match dict_get parent gg with
  | None => dict_set parent gg (Entry gg_n (e_value e) EmptyString)
  | Some p =>
      dict_set parent gg
        (Entry (e_name p) (PyFloat.add (e_value p) (e_value e)) (e_extra p))
  end.

(** One iteration of the outer loop on a list that has the ranks [-i]
    and [-j], [j = i + 1] (at least [j] tables): rank [-i] is rolled up
    into rank [-j].  On a shorter list the code raises [IndexError], which
    [assign_higher_taxonomic_levels] below accounts for. *)
Definition assign_rank (t : levels) (i : nat) : levels :=
  let j := i + 1 in
  let child := nth (neg_index t i) t [] in
  let parent := nth (neg_index t j) t [] in
  list_set t (neg_index t j) (fold_left raise_child child parent).

(** [for i in range(1, 8)], on a list of at least eight tables. *)
Definition assign_levels (t : levels) : levels :=
  fold_left assign_rank (seq 1 7) t.

(** [sum_level[level]] (lines 148-150) *)
Definition sum_level (d : dict entry) : PyFloat.float :=
  fold_left (fun acc kv => PyFloat.add acc (e_value (snd kv))) d PyFloat.zero.

(** The renormalised value of line 156. *)
Definition renormalise (value total_sum : PyFloat.float) : result PyFloat.float :=
  q <- truediv (PyFloat.mul PyFloat.hundred value) total_sum ;;
  Ok (PyFloat.round5 q).

(** The text of an output row (line 157). *)
Definition row_text (tax : string) (e : entry) : string :=
  tax ++ Py.tab
      ++ Py.join Py.tab [e_name e; PyFloat.str (e_value e); e_extra e]
      ++ Py.nl.

(** The inner loop of lines 155-157 over one rank table. *)
Fixpoint write_level (total_sum : PyFloat.float) (d : dict entry) (out : list string)
  : list string + (list string * error) :=
  match d with
  | [] => inl out
  | (tax, e) :: rest =>
      match renormalise (e_value e) total_sum with
      | inr err => inr (out, err)
      | inl v =>
          write_level total_sum rest
            (emit out (row_text tax (Entry (e_name e) v (e_extra e))))
      end
  end.

(** The loop of lines 153-157 over the ranks, shallowest first. *)
Fixpoint write_levels (unclassified : PyFloat.float) (t : levels) (out : list string)
  : list string + (list string * error) :=
  match t with
  | [] => inl out
  | d :: rest =>
      let total_sum := PyFloat.add (sum_level d) unclassified in
      match write_level total_sum d out with
      | inl out' => write_levels unclassified rest out'
      | inr e => inr e
      end
  end.

Definition finish (r : list string + (list string * error)) : run :=
  match r with
  | inl out => {| output := out; status := None |}
  | inr (out, e) => {| output := out; status := Some e |}
  end.

(** [fix_relab_mpa4(input, output, merged=False)].  [taxa_levs] holds
    the eight tables of line 99 throughout, so the call of line 142 is
    [assign_levels]. *)
Definition fix_relab_single (oct_fixes : fix_table) (input : list string) : run :=
  match read_lines oct_fixes init_state input with
  | inr e => finish (inr e)
  | inl st =>
      finish (write_levels (unclassified_fraction st)
                (assign_levels (taxa_levs st)) (wf st))
  end.

(** ** Profiles with one column per sample ([merged] is true)

    A row of a rank table is a Python list of floats or, once [np.add] has
    produced it, a numpy array.  The same object can be the row of a child
    and of its parent (line 90 stores the child's object itself), and the
    renormalisation updates rows in place (line 176), so the rows live in
    an object store and the tables hold addresses. *)

Definition vector : Type := list PyFloat.float.
Definition heap : Type := list vector.

Definition load (h : heap) (a : nat) : vector := nth a h [].

(** numpy's elementwise [np.add] on one-dimensional operands: equal
    lengths, or one operand of length one is broadcast; otherwise the
    shapes do not match ([ValueError]). *)
Fixpoint add_elementwise (a b : vector) : vector :=
  match a, b with
  | x :: a', y :: b' => PyFloat.add x y :: add_elementwise a' b'
  | _, _ => []
  end.

Definition np_add (a b : vector) : result vector :=
  if (List.length a =? List.length b)%nat then Ok (add_elementwise a b)
  else match a, b with
       | [x], _ => Ok (map (PyFloat.add x) b)
       | _, [y] => Ok (map (fun x => PyFloat.add x y) a)
       | _, _ => Raise ValueError
       end.

(** [np.rint]: the nearest integer, ties to even, keeping the sign. *)
Definition rint (x : PyFloat.float) : PyFloat.float :=
  match x with
  | S754_finite s m (Zneg p) =>
      match PyFloat.div_half_even (Zpos m) (Z.pow 2 (Zpos p)) with
      | Z0 => S754_zero s
      | n => binary_normalize PyFloat.prec PyFloat.emax (if s then (- n)%Z else n) 0 s
      end
  | _ => x
  end.

Definition e5 : PyFloat.float := PyFloat.of_Z 100000.

(** [round(x, 5)] on a numpy [float64]: numpy scales by [10**5], rounds
    to the nearest integer and scales back. *)
Definition np_round5 (x : PyFloat.float) : PyFloat.float :=
  SFdiv PyFloat.prec PyFloat.emax (rint (PyFloat.mul x e5)) e5.

(** [[float(l) for l in fields]] *)
Fixpoint floats (fields : list string) : result vector :=
  match fields with
  | [] => Ok []
  | f :: rest =>
      x <- float_ f ;;
      xs <- floats rest ;;
      Ok (x :: xs)
  end.

Record mstate : Type := MState {
  m_heap : heap;
  m_levs : list (dict nat);
  m_release : option string;
  m_unclassified : option vector;   (* [None] is the initial integer [0] *)
  m_ncols : option nat;             (* [None]: [ncols] not yet bound *)
  m_wf : list string
}.

Definition init_mstate : mstate :=
  MState [] [[]; []; []; []; []; []; []; []] None None None [].

(** What a data line of a merged profile assigns (lines 120-139): the
    fields, whose first is the key, and the row of floats. *)
Definition leaf_assignment_merged (oct_fixes : fix_table) (release : option string)
    (line : string) : result (list string * vector) :=
  fields <- fix_fields oct_fixes true release line ;;
  v <- floats (tl fields) ;;
  Ok (fields, v).

(** One iteration of the reading loop for a merged profile. *)
Definition read_line_merged (oct_fixes : fix_table) (st : mstate) (line : string)
  : mstate + (list string * error) :=
  let '(MState h t rel u nc out) := st in
  if Py.startswith line "#mpa_v" then
    let release := Py.drop 1 (Py.strip line) in
    let line := drop_last_segment "_" line in
    inl (MState h t (Some release) u nc
           (emit out (Py.strip line ++ "_202403" ++ Py.nl)))
  else if Py.startswith line "#" || Py.startswith line "clade_name" then
    inl (MState h t rel u nc (emit out line))
  else if Py.startswith line "UNCLASSIFIED" then
    match floats (tl (Py.split Py.TAB line)) with
    | inl v => inl (MState h t rel (Some v) nc (emit out line))
    | inr e => inr (emit out line, e)
    end
  else if Py.contains "t__" line then
    match leaf_assignment_merged oct_fixes rel line with
    | inl (fields, v) =>
        let i := neg_index t 1 in
        inl (MState (List.app h [v])
               (list_set t i (dict_set (nth i t []) (nth 0 fields EmptyString) (List.length h)))
               rel u (Some (List.length fields - 1)) out)
    | inr e => inr (out, e)
    end
  else inl st.

Fixpoint read_lines_merged (oct_fixes : fix_table) (st : mstate) (input : list string)
  : mstate + (list string * error) :=
  match input with
  | [] => inl st
  | line :: rest =>
      match read_line_merged oct_fixes st line with
      | inl st' => read_lines_merged oct_fixes st' rest
      | inr e => inr e
      end
  end.

(** Lines 85-93: a new parent refers to the child's own object; an
    existing parent is rebound to the fresh array [np.add] returns. *)
Definition raise_child_merged (acc : result (heap * dict nat)) (child : string * nat)
  : result (heap * dict nat) :=
  hp <- acc ;;
  let '(h, parent) := hp in
  let '(ss, a) := child in
  let gg := drop_last_segment "|" ss in
  match dict_get parent gg with
  | None => Ok (h, dict_set parent gg a)
  | Some p =>
      v <- np_add (load h p) (load h a) ;;
      Ok (List.app h [v], dict_set parent gg (List.length h))
  end.

(** One iteration of the outer loop, [1 <= i].  [taxa_levs[-i]] raises
    [IndexError] on fewer than [i] tables; [taxa_levs[-j]] is first read
    inside the loop over the children, so on fewer than [j] tables it
    raises only when rank [-i] has a row. *)
Definition assign_rank_merged (acc : result (heap * list (dict nat))) (i : nat)
  : result (heap * list (dict nat)) :=
  ht <- acc ;;
  let '(h, t) := ht in
  let j := i + 1 in
  if (List.length t <? i)%nat then Raise IndexError
  else
    let child := nth (neg_index t i) t [] in
    if (List.length t <? j)%nat then
      match child with
      | [] => Ok (h, t)
      | _ :: _ => Raise IndexError
      end
    else
      let parent := nth (neg_index t j) t [] in
      hp <- fold_left raise_child_merged child (Ok (h, parent)) ;;
      Ok (fst hp, list_set t (neg_index t j) (snd hp)).

Definition assign_levels_merged (ht : heap * list (dict nat))
  : result (heap * list (dict nat)) :=
  fold_left assign_rank_merged (seq 1 7) (Ok ht).

(** The rank tables of a run, by mode. *)
Definition tables (merged : bool) : Type :=
  if merged then (heap * list (dict nat))%type else levels.

(** [assign_higher_taxonomic_levels(taxa_levs, merged)].  For a
    single-column profile nothing but the table accesses can raise, and on
    fewer than eight tables one of them does: [taxa_levs[-j]] when the
    first table has a row, [taxa_levs[-i]] of the next iteration
    otherwise. *)
Definition assign_higher_taxonomic_levels (merged : bool)
  : tables merged -> result (tables merged) :=
  match merged return tables merged -> result (tables merged) with
  | true => assign_levels_merged
  | false => fun t => if (List.length t <? 8)%nat then Raise IndexError
                      else Ok (assign_levels t)
  end.

(** [sum_level[level]] for a merged profile (lines 167-169). *)
Definition sum_level_merged (h : heap) (ncols : nat) (d : dict nat) : result vector :=
  fold_left (fun acc kv => s <- acc ;; np_add s (load h (snd kv))) d
    (Ok (repeat PyFloat.zero ncols)).

Fixpoint sum_levels_merged (h : heap) (ncols : nat) (t : list (dict nat))
  : result (list vector) :=
  match t with
  | [] => Ok []
  | d :: rest =>
      s <- sum_level_merged h ncols d ;;
      ss <- sum_levels_merged h ncols rest ;;
      Ok (s :: ss)
  end.

(** Lines 174-176 on one row: cell [n] becomes
    [round(100 * cell / (sum_level[level][n] + unclassified_fraction[n]), 5)],
    computed on numpy [float64] values (division by zero does not raise). *)
Fixpoint renormalise_cells (sums unclassified row : vector) : result vector :=
  match row with
  | [] => Ok []
  | x :: row' =>
      match sums, unclassified with
      | s :: sums', u :: unclassified' =>
          let total_sum := PyFloat.add s u in
          let v := np_round5 (SFdiv PyFloat.prec PyFloat.emax
                                (PyFloat.mul PyFloat.hundred x) total_sum) in
          vs <- renormalise_cells sums' unclassified' row' ;;
          Ok (v :: vs)
      | _, _ => Raise IndexError
      end
  end.

Definition row_text_merged (tax : string) (row : vector) : string :=
  tax ++ Py.tab ++ Py.join Py.tab (map PyFloat.str row) ++ Py.nl.

(** Lines 173-177 over one rank table: every row is updated in the store
    and then written. *)
Fixpoint write_level_merged (sums unclassified : vector) (d : dict nat)
    (h : heap) (out : list string) : (heap * list string) + (list string * error) :=
  match d with
  | [] => inl (h, out)
  | (tax, a) :: rest =>
      match renormalise_cells sums unclassified (load h a) with
      | inr err => inr (out, err)
      | inl row =>
          write_level_merged sums unclassified rest (list_set h a row)
            (emit out (row_text_merged tax row))
      end
  end.

Fixpoint write_levels_merged (sums : list vector) (unclassified : vector)
    (t : list (dict nat)) (h : heap) (out : list string)
  : list string + (list string * error) :=
  match t with
  | [] => inl out
  | d :: rest =>
      match write_level_merged (nth 0 sums []) unclassified d h out with
      | inl (h', out') => write_levels_merged (tl sums) unclassified rest h' out'
      | inr e => inr e
      end
  end.

(** Lines 142-180 for a merged profile: what follows the reading loop. *)
Definition complete_merged (st : mstate) : run :=
  match assign_levels_merged (m_heap st, m_levs st) with
  | inr e => finish (inr (m_wf st, e))
  | inl (h, t) =>
      match m_ncols st with
      | None => finish (inr (m_wf st, UnboundLocalError "ncols"))
      | Some ncols =>
          let unclassified :=
            match m_unclassified st with
            | None => repeat PyFloat.zero ncols
            | Some u => u
            end in
          match sum_levels_merged h ncols t with
          | inr e => finish (inr (m_wf st, e))
          | inl sums => finish (write_levels_merged sums unclassified t h (m_wf st))
          end
      end
  end.

(** [fix_relab_mpa4(input, output, merged=True)] *)
Definition fix_relab_merged (oct_fixes : fix_table) (input : list string) : run :=
  match read_lines_merged oct_fixes init_mstate input with
  | inr e => finish (inr e)
  | inl st => complete_merged st
  end.

(** [fix_relab_mpa4(input, output, merged)], with the table of
    [read_oct22_fixes] (the global [oct_fixes]) given as a parameter.  The
    lines printed to the standard output are not part of the run. *)
Definition fix_relab_mpa4 (oct_fixes : fix_table) (input : list string)
    (merged : bool) : run :=
  if merged then fix_relab_merged oct_fixes input
  else fix_relab_single oct_fixes input.

(* ===================================================================== *)
(** * [sgb_to_gtdb_profile.py] *)
(* ===================================================================== *)

Definition tax_levels : list string := ["d"; "p"; "c"; "o"; "f"; "g"; "s"].

(** [abundances]: one table per rank letter. *)
Definition abundances_t : Type := dict (dict PyFloat.float).

Definition init_abundances : abundances_t := map (fun x => (x, [])) tax_levels.

(** [abundances[x]] for a rank letter [x]. *)
Definition level_of (a : abundances_t) (x : string) : dict PyFloat.float :=
  match dict_get a x with
  | Some d => d
  | None => []
  end.

(** [if k not in d: d[k] = 0] followed by [d[k] += v] (lines 73-75 and
    81-83). *)
Definition accumulate (d : dict PyFloat.float) (k : string) (v : PyFloat.float)
  : dict PyFloat.float :=
  match dict_get d k with
  | None => dict_set d k (PyFloat.add PyFloat.zero v)
  | Some old => dict_set d k (PyFloat.add old v)
  end.

Record gstate : Type := GState {
  unclassified : PyFloat.float;
  abundances : abundances_t;
  gwf : list string
}.

(** Lines 61-62: [unclassified = 0] and empty tables. *)
Definition init_gstate : gstate := GState PyFloat.zero init_abundances [].

(** One iteration of the reading loop (lines 64-75). *)
Definition gtdb_read_line (sgb2gtdb : dict string) (st : gstate) (line : string)
  : gstate + (list string * error) :=
  if Py.startswith line "#mpa_" then
    inl (GState (unclassified st) (abundances st)
           (emit (emit (gwf st) line)
              ("#clade_name" ++ Py.tab ++ "relative_abundance" ++ Py.nl)))
  else if Py.startswith line "UNCLASSIFIED" then
    match (text <- index (Py.split Py.TAB (Py.strip line)) 2 ;; float_ text) with
    | inl u =>
        inl (GState u (abundances st)
               (emit (gwf st) ("UNCLASSIFIED" ++ Py.tab ++ PyFloat.str u ++ Py.nl)))
    | inr e => inr (gwf st, e)
    end
  else if Py.contains "t__SGB" line then
    let fields := Py.split Py.TAB (Py.strip line) in
    let sgb := Py.drop 3 (Py.last_str (Py.split "|" (nth 0 fields EmptyString))) in
    match (match dict_get sgb2gtdb sgb with
           | None => Raise (KeyError sgb)
           | Some gtdb_tax =>
               text <- index fields 2 ;;
               v <- float_ text ;;
               Ok (gtdb_tax, v)
           end) with
    | inl (gtdb_tax, v) =>
        inl (GState (unclassified st)
               (dict_set (abundances st) "s"
                  (accumulate (level_of (abundances st) "s") gtdb_tax v))
               (gwf st))
    | inr e => inr (gwf st, e)
    end
  else inl st.

Fixpoint gtdb_read_lines (sgb2gtdb : dict string) (st : gstate) (input : list string)
  : gstate + (list string * error) :=
  match input with
  | [] => inl st
  | line :: rest =>
      match gtdb_read_line sgb2gtdb st line with
      | inl st' => gtdb_read_lines sgb2gtdb st' rest
      | inr e => inr e
      end
  end.

(** Line 79: the lineage of the next rank up. *)
Definition gtdb_parent (tax : string) : string :=
  Py.replace tax (";" ++ Py.last_str (Py.split ";" tax)) EmptyString.

(** [l.index(x)] on a list that holds [x]. *)
Fixpoint list_index (l : list string) (x : string) : nat :=
  match l with
  | [] => O
  | y :: r => if String.eqb y x then O else S (list_index r x)
  end.

(** One iteration of the loop of line 77 for the rank [tax_level], over
    the reversed list [order] of ranks. *)
Definition gtdb_raise_level (order : list string) (a : abundances_t)
    (tax_level : string) : abundances_t :=
  let new_level := nth (list_index order tax_level + 1) order EmptyString in
  dict_set a new_level
    (fold_left (fun parent kv => accumulate parent (gtdb_parent (fst kv)) (snd kv))
       (level_of a tax_level) (level_of a new_level)).

(** Lines 76-84: [tax_levels] is reversed, every rank but the last of the
    reversed list is rolled up, and [tax_levels] is reversed back. *)
Definition gtdb_aggregate (a : abundances_t) : abundances_t :=
  let order := rev tax_levels in
  fold_left (gtdb_raise_level order) (Py.butlast order) a.

(** [sum([y for x, y in d.items()])] *)
Definition total_of (d : dict PyFloat.float) : PyFloat.float :=
  fold_left (fun acc kv => PyFloat.add acc (snd kv)) d PyFloat.zero.

(** The value written on line 88. *)
Definition gtdb_value (v total : PyFloat.float) : result PyFloat.float :=
  truediv (PyFloat.mul v PyFloat.hundred) total.

Fixpoint gtdb_write_level (total : PyFloat.float) (d : dict PyFloat.float)
    (out : list string) : list string + (list string * error) :=
  match d with
  | [] => inl out
  | (tax, v) :: rest =>
      match gtdb_value v total with
      | inr err => inr (out, err)
      | inl x =>
          gtdb_write_level total rest (emit out (tax ++ Py.tab ++ PyFloat.str x ++ Py.nl))
      end
  end.

(** Lines 86-88 over the ranks of [order]. *)
Fixpoint gtdb_write_levels (a : abundances_t) (order : list string) (out : list string)
  : list string + (list string * error) :=
  match order with
  | [] => inl out
  | tax_level :: rest =>
      let d := level_of a tax_level in
      match gtdb_write_level (total_of d) d out with
      | inl out' => gtdb_write_levels a rest out'
      | inr e => inr e
      end
  end.

(** One iteration of the loop of lines 56-58: the stripped line is split
    on tabs and its second field is stored under the first
    ([IndexError] when there is no second field). *)
Definition sgb2gtdb_line (acc : result (dict string)) (line : string)
  : result (dict string) :=
  sgb2gtdb <- acc ;;
  let line := Py.split Py.TAB (Py.strip line) in
  v <- index line 1 ;;
  Ok (dict_set sgb2gtdb (nth 0 line EmptyString) v).

(** Lines 54-58 on the lines of [<database>_SGB2GTDB.tsv]: every line
    is read, the first one too. *)
Definition read_sgb2gtdb (file : list string) : result (dict string) :=
  fold_left sgb2gtdb_line file (Ok []).

(** [get_gtdb_profile(mpa_profile, gtdb_profile, database)], with the
    table read from [<database>_SGB2GTDB.tsv] given as [sgb2gtdb]. *)
Definition get_gtdb_profile (sgb2gtdb : dict string) (input : list string) : run :=
  match gtdb_read_lines sgb2gtdb init_gstate input with
  | inr e => finish (inr e)
  | inl st =>
      finish (gtdb_write_levels (gtdb_aggregate (abundances st))
                (rev (rev tax_levels)) (gwf st))
  end.

(** The whole of [get_gtdb_profile] (lines 53-88) on the lines of the
    table file and of the profile: the table is read before the output
    file is opened, so an exception raised there leaves no run. *)
Definition get_gtdb_profile_of_table (table_file input : list string) : result run :=
  sgb2gtdb <- read_sgb2gtdb table_file ;;
  Ok (get_gtdb_profile sgb2gtdb input).

(* ===================================================================== *)
(** * Vocabulary of the properties *)
(* ===================================================================== *)

(** The four kinds of lines of the repair pipeline, in the order the
    reading loop tests them. *)
Definition is_header (line : string) : bool := Py.startswith line "#mpa_v".

Definition is_comment (line : string) : bool :=
  Py.startswith line "#" || Py.startswith line "clade_name".

Definition is_unclassified (line : string) : bool :=
  Py.startswith line "UNCLASSIFIED".

(** A line that reaches the last branch of the loop and holds the marker
    [t__]: the species-level data lines. *)
Definition is_data_line (line : string) : bool :=
  negb (is_header line) && negb (is_comment line)
  && negb (is_unclassified line) && Py.contains "t__" line.

(** The release tag in force after a sequence of lines: the tag of the
    last header line, if any. *)
Definition next_release (r : option string) (line : string) : option string :=
  if is_header line then Some (Py.drop 1 (Py.strip line)) else r.

Definition release_after (r : option string) (lines : list string) : option string :=
  fold_left next_release lines r.

Definition recognised (r : option string) : bool :=
  release_is r JUN23 || release_is r OCT22.

(** The last segment of a lineage. *)
Definition last_segment (sep : ascii) (s : string) : string :=
  Py.last_str (Py.split sep s).

(** The row of rank total [total_sum] after line 156, and the rows a rank
    table is written as. *)
Definition renormalised (total_sum : PyFloat.float) (e : entry) : entry :=
  Entry (e_name e)
    (PyFloat.round5
       (SFdiv PyFloat.prec PyFloat.emax
          (PyFloat.mul PyFloat.hundred (e_value e)) total_sum))
    (e_extra e).

Definition rows_of_level (total_sum : PyFloat.float) (d : dict entry) : list string :=
  map (fun kv => row_text (fst kv) (renormalised total_sum (snd kv))) d.

(** The value the conversion pipeline writes for [v], without the test
    for a zero total, and the rows of a rank table. *)
Definition gtdb_scaled (total v : PyFloat.float) : PyFloat.float :=
  SFdiv PyFloat.prec PyFloat.emax (PyFloat.mul v PyFloat.hundred) total.

Definition gtdb_rows_of_level (total : PyFloat.float) (d : dict PyFloat.float)
  : list string :=
  map (fun kv => fst kv ++ Py.tab ++ PyFloat.str (gtdb_scaled total (snd kv)) ++ Py.nl) d.

(** The children of [gg] in a rank table: the rows whose lineage without
    its last segment is [gg]. *)
Definition children_of (gg : string) (d : dict entry) : dict entry :=
  filter (fun kv => String.eqb (drop_last_segment "|" (fst kv)) gg) d.

(** The sum of the values of [children] added one by one to [start]. *)
Definition add_values (start : PyFloat.float) (children : dict entry) : PyFloat.float :=
  fold_left (fun acc kv => PyFloat.add acc (e_value (snd kv))) children start.

(** What a parent table holds for [gg] once the rows of [children] have
    been rolled up into it. *)
Definition rolled_up (parent children : dict entry) (gg : string) : option entry :=
  match dict_get parent gg with
  | Some p =>
      Some (Entry (e_name p) (add_values (e_value p) (children_of gg children)) (e_extra p))
  | None =>
      match children_of gg children with
      | [] => None
      | (_, c) :: rest =>
          Some (Entry (drop_last_segment "|" (e_name c))
                  (add_values (e_value c) rest) EmptyString)
      end
  end.

(** The same for the conversion pipeline, whose parents start from [0]. *)
Definition gtdb_children_of (k : string) (d : dict PyFloat.float) : dict PyFloat.float :=
  filter (fun kv => String.eqb (gtdb_parent (fst kv)) k) d.

Definition gtdb_rolled_up (parent children : dict PyFloat.float) (k : string)
  : option PyFloat.float :=
  let sum start := fold_left (fun acc kv => PyFloat.add acc (snd kv))
                     (gtdb_children_of k children) start in
  match dict_get parent k with
  | Some p => Some (sum p)
  | None =>
      match gtdb_children_of k children with
      | [] => None
      | _ => Some (sum PyFloat.zero)
      end
  end.

(** Two tables with the same keys in the same order that hold the same
    values except, possibly, for the key [k]. *)
Inductive differ_at {V : Type} (k : string) : dict V -> dict V -> Prop :=
| differ_same (d : dict V) : differ_at k d d
| differ_here (v v' : V) (r : dict V) : differ_at k ((k, v) :: r) ((k, v') :: r)
| differ_later (x : string * V) (r r' : dict V) :
    fst x <> k -> differ_at k r r' -> differ_at k (x :: r) (x :: r').

(** Two states of the reading loop that differ at most in the row stored
    for [k] in the deepest table. *)
Definition states_differ_at (k : string) (st st' : state) : Prop :=
  release st = release st'
  /\ unclassified_fraction st = unclassified_fraction st'
  /\ wf st = wf st'
  /\ exists up d d',
       taxa_levs st = List.app up [d] /\ taxa_levs st' = List.app up [d']
       /\ differ_at k d d'.

(** The deepest table of a state, [taxa_levs[-1]]. *)
Definition leaf_table (st : state) : dict entry :=
  nth (neg_index (taxa_levs st) 1) (taxa_levs st) [].




(** Every address of the table refers to an object of the store. *)
Definition valid_addresses (h : heap) (d : dict nat) : Prop :=
  Forall (fun kv => snd kv < List.length h) d.






(** What the reading loop of the repair pipeline leaves in the output
    file, or the exception that ended it. *)
Definition read_outcome (oct_fixes : fix_table) (merged : bool) (input : list string)
  : list string + (list string * error) :=
  if merged then
    match read_lines_merged oct_fixes init_mstate input with
    | inl st => inl (m_wf st)
    | inr e => inr e
    end
  else
    match read_lines oct_fixes init_state input with
    | inl st => inl (wf st)
    | inr e => inr e
    end.

(** The two renames of the Jun23 release. *)
Definition rename_phylum (line : string) : string :=
  Py.replace line "p__Bacillota" "p__Firmicutes".

Definition rename_family (line : string) : string :=
  Py.replace line "f__Saccharomycetales_unclassified" "f__Debaryomycetaceae".

(** A line of tab-separated fields, with its terminator. *)
Definition tsv (fields : list string) : string := Py.join Py.tab fields ++ Py.nl.

(** A species-level line of an input profile: lineage, identifiers and
    value, with the empty fourth column MetaPhlAn writes. *)
Definition species_line (lineage ids value : string) : string :=
  tsv [lineage; ids; value; EmptyString].

(** The scenario of a lineage read twice: a profile of the Oct22 release
    whose correction table maps two old lineages to the same new one. *)
Definition twice_fixes : fix_table :=
  [("k__A|p__B|c__C|o__D|f__E|g__F|s__Old1|t__SGB1",
    ("k__A|p__B|c__C|o__D|f__E|g__F|s__New|t__SGB1", "1|2|3|4|5|6|7|"));
   ("k__A|p__B|c__C|o__D|f__E|g__F|s__Old2|t__SGB2",
    ("k__A|p__B|c__C|o__D|f__E|g__F|s__New|t__SGB1", "1|2|3|4|5|6|7|"))].

Definition twice_pre : list string :=
  ["#" ++ OCT22 ++ Py.nl; tsv ["UNCLASSIFIED"; "-1"; "80.0"; EmptyString]].

Definition twice_earlier (value : string) : string :=
  species_line "k__A|p__B|c__C|o__D|f__E|g__F|s__Old1|t__SGB1" "1|2|3|4|5|6|8|" value.

Definition twice_later : string :=
  species_line "k__A|p__B|c__C|o__D|f__E|g__F|s__Old2|t__SGB2" "1|2|3|4|5|6|9|" "20.0".

(** The total a rank is renormalised against (line 154), whether its rows
    can be written (no division by a zero total), and the rows written for
    a list of ranks. *)
Definition rank_total (unclassified : PyFloat.float) (d : dict entry) : PyFloat.float :=
  PyFloat.add (sum_level d) unclassified.

Definition rank_writable (unclassified : PyFloat.float) (d : dict entry) : bool :=
  match d with
  | [] => true
  | _ :: _ => negb (PyFloat.eqb (rank_total unclassified d) PyFloat.zero)
  end.

Definition rows_of_ranks (unclassified : PyFloat.float) (t : levels) : list string :=
  flat_map (fun d => rows_of_level (rank_total unclassified d) d) t.

Definition gtdb_rank_writable (d : dict PyFloat.float) : bool :=
  match d with
  | [] => true
  | _ :: _ => negb (PyFloat.eqb (total_of d) PyFloat.zero)
  end.

Definition gtdb_rows_of_ranks (ranks : list (dict PyFloat.float)) : list string :=
  flat_map (fun d => gtdb_rows_of_level (total_of d) d) ranks.

(** The rank above a rank: its rows rolled up into an empty table.  The
    ladder of [n] ranks above a deepest table, shallowest rank first. *)
Definition rank_above (d : dict entry) : dict entry := fold_left raise_child d [].

Fixpoint ladder (n : nat) (leaf : dict entry) : levels :=
  match n with
  | O => [leaf]
  | S k => Nat.iter n rank_above leaf :: ladder k leaf
  end.

Definition gtdb_rank_above (d : dict PyFloat.float) : dict PyFloat.float :=
  fold_left (fun parent kv => accumulate parent (gtdb_parent (fst kv)) (snd kv)) d [].

Fixpoint gtdb_ladder (n : nat) (species : dict PyFloat.float)
  : list (dict PyFloat.float) :=
  match n with
  | O => [species]
  | S k => Nat.iter n gtdb_rank_above species :: gtdb_ladder k species
  end.

(** The species table of the conversion pipeline, [abundances['s']]. *)
Definition species_table (st : gstate) : dict PyFloat.float :=
  level_of (abundances st) "s".

(** The exact value of a finite float, as a rational. *)
Definition exact (x : PyFloat.float) : Q :=
  match x with
  | S754_finite s m e =>
      let v := match e with
               | Zneg p => Qmake (Zpos m) (2 ^ p)%positive
               | _ => inject_Z (Zpos m * 2 ^ e)
               end in
      if s then Qopp v else v
  | _ => 0%Q
  end.

(** Conservation at one rank: the values written for the rank and the
    unclassified percentage add up to 100 within 1e-4. *)
Definition conserved (values : list PyFloat.float) (unclassified : PyFloat.float) : bool :=
  Qle_bool
    (Qabs (fold_right Qplus 0%Q (map exact values) + exact unclassified - 100)%Q)
    (1 # 10000)%Q.

(** The inputs of the scenarios: a header of the Jun23 release, an
    unclassified line and species lines. *)
Definition jun23_header : string := "#" ++ JUN23 ++ Py.nl.

Definition unclassified_line (value : string) : string :=
  tsv ["UNCLASSIFIED"; "-1"; value; EmptyString].

Definition lineage_A : string := "k__A|p__B|c__C|o__D|f__E|g__F|s__G|t__SGB1".

Definition half_profile : list string :=
  [jun23_header; unclassified_line "10.0"; species_line lineage_A "1|2|3|4|5|6|7|" "50.0"].

Definition gtdb_one : dict string := [("SGB1", "d__D;p__P;c__C;o__O;f__F;g__G;s__S")].

Definition gtdb_three : dict string :=
  [("SGB1", "d__D;p__P;c__C;o__O;f__F;g__G;s__S1");
   ("SGB2", "d__D;p__P;c__C;o__O;f__F;g__G;s__S2");
   ("SGB3", "d__D;p__P;c__C;o__O;f__F;g__G;s__S3")].

Definition three_species : list string :=
  [jun23_header;
   species_line "k__A|s__G|t__SGB1" "1|7|" "1.0";
   species_line "k__A|s__H|t__SGB2" "1|8|" "1.0";
   species_line "k__A|s__I|t__SGB3" "1|9|" "1.0"].

(** The end-to-end scenario of the repair pipeline. *)
Definition scenario : list string :=
  [jun23_header; unclassified_line "5.0";
   species_line
     "d__Bacteria|p__Bacillota|c__Bacilli|o__Lactobacillales|f__Lactobacillaceae|g__Lactobacillus|s__Foo|t__SGB1"
     "2|1239|91061|186826|33958|1578||" "95.0"].

(** A row of a merged profile written for the lineage of [kv]. *)
Definition merged_row_of (kv : string * nat) (row : string) : Prop :=
  exists cells : vector, row = row_text_merged (fst kv) cells.

(** A merged profile with two sample columns: one species with 50.0 in
    both, unclassified 0.0 and 50.0. *)
Definition merged_profile : list string :=
  [jun23_header;
   tsv ["clade_name"; "sample1"; "sample2"];
   tsv ["UNCLASSIFIED"; "0.0"; "50.0"];
   tsv [lineage_A; "50.0"; "50.0"]].

(** Two object stores of the same size that hold the same rows except,
    possibly, at the address [a]; a table that does not refer to [a]. *)
Definition heaps_differ_at (a : nat) (h h' : heap) : Prop :=
  List.length h = List.length h' /\ forall b, b <> a -> load h b = load h' b.

Definition unreferenced (a : nat) (d : dict nat) : Prop :=
  Forall (fun kv => snd kv <> a) d.

(** Two states of the reading loop of a merged profile that differ at
    most in the row stored at [a], which only the lineage [k] of the
    deepest table may refer to, and in [ncols]. *)
Definition mstates_differ_under (a : nat) (k : string) (st st' : mstate) : Prop :=
  m_levs st = m_levs st'
  /\ m_release st = m_release st'
  /\ m_unclassified st = m_unclassified st'
  /\ m_wf st = m_wf st'
  /\ heaps_differ_at a (m_heap st) (m_heap st')
  /\ a < List.length (m_heap st)
  /\ exists d : dict nat,
       m_levs st = @List.app (dict nat) (repeat [] 7) [d]
       /\ NoDup (dict_keys d)
       /\ Forall (fun kv => snd kv = a -> fst kv = k) d.

(** Two states that differ at most in the row stored at [a], which no
    table refers to. *)
Definition mstates_differ_at (a : nat) (st st' : mstate) : Prop :=
  m_levs st = m_levs st'
  /\ m_release st = m_release st'
  /\ m_unclassified st = m_unclassified st'
  /\ m_ncols st = m_ncols st'
  /\ m_wf st = m_wf st'
  /\ heaps_differ_at a (m_heap st) (m_heap st')
  /\ a < List.length (m_heap st)
  /\ Forall (unreferenced a) (m_levs st).


(** What holds of the tables while a merged profile is read: only the
    deepest table is filled, its keys are distinct and its addresses
    refer to objects of the store. *)
Definition merged_reading_inv (st : mstate) : Prop :=
  exists d : dict nat,
    m_levs st = @List.app (dict nat) (repeat [] 7) [d]
    /\ NoDup (dict_keys d)
    /\ valid_addresses (m_heap st) d.

(** Two results that are both values, related by [R], or the same
    exception. *)
Definition related_results {A} (R : A -> A -> Prop) (r r' : result A) : Prop :=
  match r, r' with
  | inl x, inl x' => R x x'
  | inr e, inr e' => e = e'
  | _, _ => False
  end.

(** The same parent table over two stores that differ at most at [a],
    which the table does not refer to. *)
Definition parents_differ_at (a : nat) (x x' : heap * dict nat) : Prop :=
  snd x = snd x'
  /\ heaps_differ_at a (fst x) (fst x')
  /\ a < List.length (fst x)
  /\ unreferenced a (snd x).

(** The same rank tables over two stores that differ at most at [a],
    which no table refers to. *)
Definition tables_differ_at (a : nat) (x x' : heap * list (dict nat)) : Prop :=
  snd x = snd x'
  /\ heaps_differ_at a (fst x) (fst x')
  /\ a < List.length (fst x)
  /\ Forall (unreferenced a) (snd x).


(** The same scenario on a merged profile with two sample columns. *)
Definition twice_merged_pre : list string :=
  ["#" ++ OCT22 ++ Py.nl;
   tsv ["clade_name"; "sample1"; "sample2"];
   tsv ["UNCLASSIFIED"; "80.0"; "50.0"]].

Definition twice_merged_earlier (value : string) : string :=
  tsv ["k__A|p__B|c__C|o__D|f__E|g__F|s__Old1|t__SGB1"; value; "25.0"].

Definition twice_merged_later : string :=
  tsv ["k__A|p__B|c__C|o__D|f__E|g__F|s__Old2|t__SGB2"; "20.0"; "50.0"].


(** The lines a table file may hold: exactly three tab-separated fields
    for the Oct22 corrections, at least two (after stripping) for the
    SGB-to-GTDB table. *)
Definition three_fields (l : string) : bool :=
  (List.length (Py.split Py.TAB l) =? 3)%nat.

Definition two_fields (l : string) : bool :=
  (2 <=? List.length (Py.split Py.TAB (Py.strip l)))%nat.

(** The first field of a line of a table file, as each reader takes it. *)
Definition oct22_key (l : string) : string := nth 0 (Py.split Py.TAB l) EmptyString.

Definition sgb2gtdb_key (l : string) : string :=
  nth 0 (Py.split Py.TAB (Py.strip l)) EmptyString.


(** The lines of a profile the conversion pipeline reads a value from:
    not a [#mpa_] header, not an [UNCLASSIFIED] line, and holding the
    marker [t__SGB]; the SGB identifier (line 72) and the value
    (line 75) of such a line; the lines it skips. *)
Definition gtdb_is_data_line (line : string) : bool :=
  negb (Py.startswith line "#mpa_") && negb (Py.startswith line "UNCLASSIFIED")
  && Py.contains "t__SGB" line.

Definition gtdb_is_skipped (line : string) : bool :=
  negb (Py.startswith line "#mpa_") && negb (Py.startswith line "UNCLASSIFIED")
  && negb (Py.contains "t__SGB" line).

Definition gtdb_sgb_of (line : string) : string :=
  Py.drop 3
    (Py.last_str (Py.split "|" (nth 0 (Py.split Py.TAB (Py.strip line)) EmptyString))).

Definition gtdb_value_of (line : string) : result PyFloat.float :=
  text <- index (Py.split Py.TAB (Py.strip line)) 2 ;;
  float_ text.

(** What a table of the conversion pipeline holds for a lineage, [0]
    when it has no row. *)
Definition stored (d : dict PyFloat.float) (k : string) : PyFloat.float :=
  match dict_get d k with
  | Some v => v
  | None => PyFloat.zero
  end.


(** The lines the repair pipeline skips: they reach the last branch of
    the loop and do not hold the marker [t__] (the rows of the ranks
    above the leaves, for one). *)
Definition is_skipped (line : string) : bool :=
  negb (is_header line) && negb (is_comment line)
  && negb (is_unclassified line) && negb (Py.contains "t__" line).

(** What the repair pipeline writes for a header line (lines 107-108). *)
Definition written_header (line : string) : string :=
  Py.strip (drop_last_segment "_" line) ++ "_202403" ++ Py.nl.

(** What the reading loop of the repair pipeline writes for a line. *)
Definition passed_through (line : string) : list string :=
  if is_header line then [written_header line]
  else if is_comment line || is_unclassified line then [line]
  else [].

(** What the reading loop of the conversion pipeline writes for a line
    it accepts ([u] is the value read from an [UNCLASSIFIED] line). *)
Definition gtdb_passed_through (line : string) : list string :=
  if Py.startswith line "#mpa_"
  then [line; "#clade_name" ++ Py.tab ++ "relative_abundance" ++ Py.nl]
  else if Py.startswith line "UNCLASSIFIED"
       then match gtdb_value_of line with
            | inl u => ["UNCLASSIFIED" ++ Py.tab ++ PyFloat.str u ++ Py.nl]
            | inr _ => []
            end
       else [].


(** A header line that names the Oct22 release. *)
Definition names_oct22 (line : string) : bool :=
  is_header line && String.eqb (Py.drop 1 (Py.strip line)) OCT22.


(** The ranks written before the first one that cannot be written. *)
Fixpoint ranks_written {A} (writable : A -> bool) (t : list A) : list A :=
  match t with
  | [] => []
  | d :: rest => if writable d then d :: ranks_written writable rest else []
  end.


(** Lines 174-176 on one row of a merged profile whose cells all have a
    total and an unclassified fraction: the renormalised cells. *)
Fixpoint renormalised_cells (sums unclassified row : vector) : vector :=
  match row, sums, unclassified with
  | x :: row', s :: sums', u :: unclassified' =>
      np_round5 (SFdiv PyFloat.prec PyFloat.emax
                   (PyFloat.mul PyFloat.hundred x) (PyFloat.add s u))
      :: renormalised_cells sums' unclassified' row'
  | _, _, _ => []
  end.

(** The rows written for the successive ranks [keys] of a merged profile
    when the table of each of them refers to the same row object, which
    holds [row] before the first of them is written: every rank writes
    the row as the rank before it left it, renormalised once more. *)
Fixpoint shared_row_rows (sums unclassified : vector) (keys : list string) (row : vector)
  : list string :=
  match keys with
  | [] => []
  | key :: rest =>
      let row' := renormalised_cells sums unclassified row in
      row_text_merged key row' :: shared_row_rows sums unclassified rest row'
  end.

(** The lineages of the eight ranks of a leaf lineage [k], from the
    shallowest rank to [k] itself. *)
Definition lineage_chain (k : string) : list string :=
  map (fun i => Nat.iter (7 - i) (drop_last_segment "|") k) (seq 0 8).


(** The exceptions that can end a run of the repair pipeline, by mode,
    and of the conversion pipeline. *)
Definition repair_error (merged : bool) (e : error) : Prop :=
  e = SystemExit RELEASE_MESSAGE \/ e = IndexError \/ e = ValueError
  \/ (if merged then e = UnboundLocalError "ncols" else e = ZeroDivisionError).

Definition conversion_error (e : error) : Prop :=
  (exists sgb, e = KeyError sgb) \/ e = IndexError \/ e = ValueError
  \/ e = ZeroDivisionError.

(** A result that is a value or an exception among [P]. *)
Definition fails_within {A} (P : error -> Prop) (r : result A) : Prop :=
  match r with
  | inl _ => True
  | inr e => P e
  end.


(** A field that [float] does not accept. *)
Definition not_a_number (f : string) : bool :=
  match PyFloat.of_string f with
  | Some _ => false
  | None => true
  end.

(** The unclassified fraction a merged profile is renormalised with:
    the row of the last [UNCLASSIFIED] line, or zeros (lines 163-164). *)
Definition unclassified_row (st : mstate) (ncols : nat) : vector :=
  match m_unclassified st with
  | Some u => u
  | None => repeat PyFloat.zero ncols
  end.


(* ===================================================================== *)
(** * Properties *)
(* ===================================================================== *)

(** ** Dictionaries *)

Section DictFacts.

Context {V : Type}.
Implicit Types (d : dict V) (k : string) (v : V).

Lemma dict_get_set_same d k v : dict_get (dict_set d k v) k = Some v.
Proof.
  induction d as [|[k' v'] r IH]; simpl.
  - now rewrite String.eqb_refl.
  - destruct (String.eqb k' k) eqn:E; simpl; rewrite E; auto.
Qed.

Lemma dict_get_set_other d k k' v :
  k <> k' -> dict_get (dict_set d k v) k' = dict_get d k'.
Proof.
  intros Hne.
  induction d as [|[k0 v0] r IH]; simpl.
  - destruct (String.eqb k k') eqn:E; auto.
    apply String.eqb_eq in E. contradiction.
  - destruct (String.eqb k0 k) eqn:E; simpl.
    + apply String.eqb_eq in E. subst k0.
      destruct (String.eqb k k') eqn:E'; auto.
      apply String.eqb_eq in E'. contradiction.
    + now rewrite IH.
Qed.

Lemma dict_set_set d k v1 v2 :
  dict_set (dict_set d k v1) k v2 = dict_set d k v2.
Proof.
  induction d as [|[k' v'] r IH]; simpl.
  - now rewrite String.eqb_refl.
  - destruct (String.eqb k' k) eqn:E; simpl; rewrite E; auto.
    now rewrite IH.
Qed.

End DictFacts.

(** ** Rolling a rank up into its parent rank *)

Lemma entry_eta (p : entry) : Entry (e_name p) (e_value p) (e_extra p) = p.
Proof. now destruct p. Qed.

Lemma roll_up_get (children parent : dict entry) (gg : string) :
  dict_get (fold_left raise_child children parent) gg
  = rolled_up parent children gg.
Proof.
  revert parent.
  induction children as [|[ss e] cs IH]; intros parent; simpl.
  - unfold rolled_up. simpl.
    destruct (dict_get parent gg) as [p|]; auto.
    now rewrite entry_eta.
  - rewrite IH. unfold rolled_up, children_of. simpl.
    destruct (String.eqb (drop_last_segment "|" ss) gg) eqn:E.
    + apply String.eqb_eq in E. rewrite E.
      destruct (dict_get parent gg) as [p|] eqn:G.
      * rewrite dict_get_set_same. reflexivity.
      * rewrite dict_get_set_same. reflexivity.
    + assert (Hne : drop_last_segment "|" ss <> gg)
        by (intros H; rewrite H, String.eqb_refl in E; discriminate).
      destruct (dict_get parent (drop_last_segment "|" ss));
        now rewrite (dict_get_set_other _ _ _ _ Hne).
  Qed.

Lemma gtdb_roll_up_get (children parent : dict PyFloat.float) (k : string) :
  dict_get
    (fold_left (fun parent kv => accumulate parent (gtdb_parent (fst kv)) (snd kv))
       children parent) k
  = gtdb_rolled_up parent children k.
Proof.
  revert parent.
  induction children as [|[tax v] cs IH]; intros parent; simpl.
  - unfold gtdb_rolled_up. simpl. now destruct (dict_get parent k).
  - rewrite IH. unfold gtdb_rolled_up, gtdb_children_of, accumulate. simpl.
    destruct (String.eqb (gtdb_parent tax) k) eqn:E.
    + apply String.eqb_eq in E. rewrite E.
      destruct (dict_get parent k) as [p|] eqn:G;
        rewrite dict_get_set_same; simpl; auto.
    + assert (Hne : gtdb_parent tax <> k)
        by (intros H; rewrite H, String.eqb_refl in E; discriminate).
      destruct (dict_get parent (gtdb_parent tax));
        now rewrite (dict_get_set_other _ _ _ _ Hne).
Qed.

(** *** Merged profiles: rows in the object store *)


Lemma load_app_new (h : heap) (v : vector) :
  load (List.app h [v]) (List.length h) = v.
Proof. unfold load. now rewrite nth_middle. Qed.

Lemma valid_addresses_app (h x : heap) (d : dict nat) :
  valid_addresses h d -> valid_addresses (List.app h x) d.
Proof.
  unfold valid_addresses. intros H.
  eapply Forall_impl; [|exact H].
  intros kv Hk. simpl in *. rewrite length_app. lia.
Qed.

Lemma valid_addresses_set (h : heap) (d : dict nat) (k : string) (a : nat) :
  valid_addresses h d -> a < List.length h -> valid_addresses h (dict_set d k a).
Proof.
  unfold valid_addresses. intros H Ha.
  induction d as [|[k' a'] r IH]; simpl.
  - constructor; auto.
  - inversion H as [|? ? Hx Hr]; subst.
    destruct (String.eqb k' k); constructor; auto.
Qed.








(** ** Strings: segments of a lineage *)

Lemma split_not_nil (sep : ascii) (s : string) : Py.split sep s <> [].
Proof.
  destruct s as [|c s]; simpl; [discriminate|].
  destruct (Ascii.eqb c sep); [discriminate|].
  destruct (Py.split sep s); discriminate.
Qed.

Lemma join_split (sep : ascii) (s : string) :
  Py.join (String sep EmptyString) (Py.split sep s) = s.
Proof.
  induction s as [|c s IH]; simpl; auto.
  destruct (Ascii.eqb c sep) eqn:E.
  - apply Ascii.eqb_eq in E. subst c.
    pose proof (split_not_nil sep s) as Hn.
    destruct (Py.split sep s) as [|w ws] eqn:S; [contradiction|].
    change (Py.join (String sep EmptyString) (EmptyString :: w :: ws))
      with (String sep (Py.join (String sep EmptyString) (w :: ws))).
    now rewrite IH.
  - pose proof (split_not_nil sep s) as Hn.
    destruct (Py.split sep s) as [|w ws] eqn:S; [contradiction|].
    destruct ws as [|w' ws'].
    + simpl in *. now rewrite IH.
    + change (Py.join (String sep EmptyString) (String c w :: w' :: ws'))
        with (String c (w ++ String sep EmptyString
                          ++ Py.join (String sep EmptyString) (w' :: ws'))).
      change (Py.join (String sep EmptyString) (w :: w' :: ws'))
        with (w ++ String sep EmptyString
                ++ Py.join (String sep EmptyString) (w' :: ws')) in IH.
      now rewrite IH.
Qed.

Lemma string_app_assoc (a b c : string) : (a ++ b) ++ c = a ++ (b ++ c).
Proof. induction a as [|x a IH]; simpl; [|rewrite IH]; reflexivity. Qed.

Lemma join_snoc (sep : string) (l : list string) (x : string) :
  l <> [] -> Py.join sep (List.app l [x]) = Py.join sep l ++ sep ++ x.
Proof.
  induction l as [|y l IH]; [contradiction|]. intros _.
  destruct l as [|z l].
  - reflexivity.
  - change (Py.join sep (List.app (y :: z :: l) [x]))
      with (y ++ sep ++ Py.join sep (List.app (z :: l) [x])).
    rewrite IH by discriminate.
    change (Py.join sep (y :: z :: l)) with (y ++ sep ++ Py.join sep (z :: l)).
    now rewrite !string_app_assoc.
Qed.

(** A lineage is its parent, the separator and its last segment; a
    lineage of one segment has the empty parent. *)
Lemma parent_and_last_segment (sep : ascii) (s : string) :
  (Py.split sep s = [s] /\ drop_last_segment sep s = EmptyString)
  \/ s = drop_last_segment sep s ++ String sep (last_segment sep s).
Proof.
  unfold drop_last_segment, last_segment, Py.butlast, Py.last_str.
  pose proof (join_split sep s) as J.
  pose proof (split_not_nil sep s) as Hn.
  destruct (Py.split sep s) as [|w ws] eqn:S; [contradiction|].
  destruct ws as [|w' ws'].
  - left. simpl in J. subst w. auto.
  - right.
    rewrite (app_removelast_last EmptyString Hn) in J at 1.
    rewrite join_snoc in J.
    + now rewrite <- J at 1.
    + simpl. discriminate.
Qed.

Lemma contains_false_inv (p : string) (c : ascii) (s : string) :
  Py.contains p (String c s) = false ->
  String.prefix p (String c s) = false /\ Py.contains p s = false.
Proof.
  intros H. change (Py.contains p (String c s))
    with (if String.prefix p (String c s) then true else Py.contains p s) in H.
  destruct (String.prefix p (String c s)); [discriminate|auto].
Qed.

(** Replacing a substring that does not occur changes nothing. *)
Lemma replace_absent (s old new : string) :
  Py.contains old s = false -> Py.replace s old new = s.
Proof.
  unfold Py.replace.
  induction s as [|c s IH]; intros H; [reflexivity|].
  apply contains_false_inv in H as [Hp Hc].
  change (Py.replace_go old new 0 (String c s))
    with (if String.prefix old (String c s)
          then new ++ Py.replace_go old new (String.length old - 1) s
          else String c (Py.replace_go old new 0 s)).
  rewrite Hp. now rewrite IH.
Qed.

(** ** C4: the parent key *)

(** C4. The repair pipeline computes the parent of a lineage by dropping
    its last [|]-separated segment: every lineage is its parent, a
    separator and its last segment (the parent of a one-segment lineage is
    empty).  The conversion pipeline instead deletes every occurrence of
    [;] followed by the last segment: for [a;b;a;b] it computes [a;a] and
    not [a;b;a], and a one-segment lineage is its own parent, so that the
    rank above species of a profile mapped to [a;b;a;b] holds [a;a]. *)
Theorem C4_parent_key_divergence :
  (forall ss : string,
      (Py.split "|" ss = [ss] /\ drop_last_segment "|" ss = EmptyString)
      \/ ss = drop_last_segment "|" ss ++ String "|" (last_segment "|" ss))
  /\ gtdb_parent "a;b;a;b" = "a;a"
  /\ drop_last_segment ";" "a;b;a;b" = "a;b;a"
  /\ gtdb_parent "a" = "a"
  /\ drop_last_segment ";" "a" = EmptyString
  /\ get_gtdb_profile [("SGB1", "a;b;a;b")]
       [species_line "k__K|p__P|c__C|o__O|f__F|g__G|s__S|t__SGB1" "1|2|3|4|5|6|7|" "1.0"]
     = {| output := [tsv ["a"; "100.0"]; tsv ["a"; "100.0"]; tsv ["a"; "100.0"];
                     tsv ["a"; "100.0"]; tsv ["a"; "100.0"]; tsv ["a;a"; "100.0"];
                     tsv ["a;b;a;b"; "100.0"]];
          status := None |}.
Proof.
  split; [intros ss; apply parent_and_last_segment|].
  repeat split; vm_compute; reflexivity.
Qed.

(** ** C7: the renames of the Jun23 release *)

Lemma jun23_fix_spec (line : string) :
  jun23_fix line
  = if Py.contains "p__Bacillota" line then rename_phylum line
    else rename_family line.
Proof.
  unfold jun23_fix, rename_phylum, rename_family.
  destruct (Py.contains "p__Bacillota" line); [reflexivity|].
  destruct (Py.contains "f__Saccharomycetales_unclassified" line) eqn:E;
    [reflexivity|].
  now rewrite replace_absent.
Qed.

(** C7, as the code has it. Under the Jun23 release the renames are applied to
    the raw line, before it is stripped and split into fields: the phylum
    rename on every line that holds [p__Bacillota], the family rename on
    every other line.  A line that holds both substrings gets the phylum
    rename only. *)
Theorem C7_jun23_renames (oct_fixes : fix_table) (merged : bool) (line : string) :
  fix_fields oct_fixes merged (Some JUN23) line
  = Ok (Py.split Py.TAB
          (Py.strip (if Py.contains "p__Bacillota" line then rename_phylum line
                     else rename_family line))).
Proof.
  unfold fix_fields. simpl. now rewrite jun23_fix_spec.
Qed.

(** C7, counterexample: a line that holds both substrings keeps its
    [f__Saccharomycetales_unclassified]. *)
Lemma C7_counterexample :
  let line := species_line
    "k__Bacteria|p__Bacillota|c__C|o__O|f__Saccharomycetales_unclassified|g__G|s__S|t__SGB9"
    "1|2|3|4|5|6|7|" "1.0" in
  Py.contains "p__Bacillota" line = true
  /\ Py.contains "f__Saccharomycetales_unclassified" line = true
  /\ fix_fields [] false (Some JUN23) line
     = Ok ["k__Bacteria|p__Firmicutes|c__C|o__O|f__Saccharomycetales_unclassified|g__G|s__S|t__SGB9";
           "1|2|3|4|5|6|7|"; "1.0"]
  /\ fix_fields [] false (Some JUN23) line
     <> Ok (Py.split Py.TAB (Py.strip (rename_family (rename_phylum line)))).
Proof.
  repeat split; try (vm_compute; reflexivity).
  vm_compute. discriminate.
Qed.

(** ** The reading loop of the repair pipeline *)

Lemma read_lines_app (oct_fixes : fix_table) (l1 l2 : list string) (st : state) :
  read_lines oct_fixes st (List.app l1 l2)
  = match read_lines oct_fixes st l1 with
    | inl st' => read_lines oct_fixes st' l2
    | inr e => inr e
    end.
Proof.
  revert st. induction l1 as [|l r IH]; intros st; simpl; auto.
  destruct (read_line oct_fixes st l); auto.
Qed.

Lemma read_lines_merged_app (oct_fixes : fix_table) (l1 l2 : list string) (st : mstate) :
  read_lines_merged oct_fixes st (List.app l1 l2)
  = match read_lines_merged oct_fixes st l1 with
    | inl st' => read_lines_merged oct_fixes st' l2
    | inr e => inr e
    end.
Proof.
  revert st. induction l1 as [|l r IH]; intros st; simpl; auto.
  destruct (read_line_merged oct_fixes st l); auto.
Qed.

(** The reading loop keeps in [release] the tag of the last header. *)
Lemma read_line_release (oct_fixes : fix_table) (st st' : state) (line : string) :
  read_line oct_fixes st line = inl st' ->
  release st' = next_release (release st) line.
Proof.
  unfold read_line, next_release, is_header.
  destruct (Py.startswith line "#mpa_v"); [intros [= <-]; reflexivity|].
  destruct (Py.startswith line "#" || Py.startswith line "clade_name");
    [intros [= <-]; reflexivity|].
  destruct (Py.startswith line "UNCLASSIFIED").
  - destruct (text <- index (Py.split Py.TAB line) 2;; float_ text);
      [intros [= <-]; reflexivity|discriminate].
  - destruct (Py.contains "t__" line); [|intros [= <-]; reflexivity].
    destruct (leaf_assignment oct_fixes (release st) line) as [[k e]|];
      [intros [= <-]; reflexivity|discriminate].
Qed.

Lemma read_lines_release (oct_fixes : fix_table) (input : list string) :
  forall st st',
    read_lines oct_fixes st input = inl st' ->
    release st' = release_after (release st) input.
Proof.
  induction input as [|l r IH]; intros st st' H; simpl in *.
  - now injection H as <-.
  - destruct (read_line oct_fixes st l) as [st1|] eqn:E; [|discriminate].
    rewrite (IH _ _ H). now rewrite (read_line_release _ _ _ _ E).
Qed.

Lemma read_line_merged_release (oct_fixes : fix_table) (st st' : mstate) (line : string) :
  read_line_merged oct_fixes st line = inl st' ->
  m_release st' = next_release (m_release st) line.
Proof.
  unfold read_line_merged, next_release, is_header.
  destruct st as [h t rel u nc out]. simpl.
  destruct (Py.startswith line "#mpa_v"); [intros [= <-]; reflexivity|].
  destruct (Py.startswith line "#" || Py.startswith line "clade_name");
    [intros [= <-]; reflexivity|].
  destruct (Py.startswith line "UNCLASSIFIED").
  - destruct (floats (tl (Py.split Py.TAB line)));
      [intros [= <-]; reflexivity|discriminate].
  - destruct (Py.contains "t__" line); [|intros [= <-]; reflexivity].
    destruct (leaf_assignment_merged oct_fixes rel line) as [[f v]|];
      [intros [= <-]; reflexivity|discriminate].
Qed.

Lemma read_lines_merged_release (oct_fixes : fix_table) (input : list string) :
  forall st st',
    read_lines_merged oct_fixes st input = inl st' ->
    m_release st' = release_after (m_release st) input.
Proof.
  induction input as [|l r IH]; intros st st' H; simpl in *.
  - now injection H as <-.
  - destruct (read_line_merged oct_fixes st l) as [st1|] eqn:E; [|discriminate].
    rewrite (IH _ _ H). now rewrite (read_line_merged_release _ _ _ _ E).
Qed.

Lemma is_data_line_inv (line : string) :
  is_data_line line = true ->
  Py.startswith line "#mpa_v" = false
  /\ (Py.startswith line "#" || Py.startswith line "clade_name") = false
  /\ Py.startswith line "UNCLASSIFIED" = false
  /\ Py.contains "t__" line = true.
Proof.
  unfold is_data_line, is_header, is_comment, is_unclassified.
  intros H.
  apply andb_prop in H as [H H4]. apply andb_prop in H as [H H3].
  apply andb_prop in H as [H1 H2].
  apply negb_true_iff in H1, H2, H3. auto.
Qed.

Lemma fix_fields_unrecognised (oct_fixes : fix_table) (merged : bool)
    (r : option string) (line : string) :
  recognised r = false ->
  fix_fields oct_fixes merged r line = Raise (error_exit RELEASE_MESSAGE).
Proof.
  unfold recognised, fix_fields. intros H.
  apply orb_false_elim in H as [-> ->]. reflexivity.
Qed.

(** A data line read under an unrecognised release ends the run. *)
Lemma read_line_unrecognised (oct_fixes : fix_table) (st : state) (line : string) :
  is_data_line line = true -> recognised (release st) = false ->
  read_line oct_fixes st line = inr (wf st, SystemExit RELEASE_MESSAGE).
Proof.
  intros Hd Hr. apply is_data_line_inv in Hd as (H1 & H2 & H3 & H4).
  unfold read_line. rewrite H1, H2, H3, H4.
  unfold leaf_assignment. now rewrite (fix_fields_unrecognised _ _ _ _ Hr).
Qed.

Lemma read_line_merged_unrecognised (oct_fixes : fix_table) (st : mstate) (line : string) :
  is_data_line line = true -> recognised (m_release st) = false ->
  read_line_merged oct_fixes st line = inr (m_wf st, SystemExit RELEASE_MESSAGE).
Proof.
  intros Hd Hr. apply is_data_line_inv in Hd as (H1 & H2 & H3 & H4).
  destruct st as [h t rel u nc out]. simpl in *.
  rewrite H1, H2, H3, H4. unfold leaf_assignment_merged.
  now rewrite (fix_fields_unrecognised _ _ _ _ Hr).
Qed.

(** C9. When the release tag in force is absent or is neither of the two
    recognised releases, reading a species-level data line ends the run
    with the message of [error(..., exit=True)]: the run of the repair
    pipeline, single-column or merged, stops there with what the lines
    before had written (or had already been ended by one of them), and
    never completes. *)
Theorem C9_unrecognised_release_aborts (oct_fixes : fix_table) (merged : bool)
    (pre : list string) (line : string) (post : list string) :
  is_data_line line = true ->
  recognised (release_after None pre) = false ->
  fix_relab_mpa4 oct_fixes (List.app pre (line :: post)) merged
  = match read_outcome oct_fixes merged pre with
    | inl out => {| output := out; status := Some (SystemExit RELEASE_MESSAGE) |}
    | inr (out, e) => {| output := out; status := Some e |}
    end.
Proof.
  intros Hd Hr. unfold fix_relab_mpa4, read_outcome. destruct merged.
  - unfold fix_relab_merged. rewrite read_lines_merged_app.
    destruct (read_lines_merged oct_fixes init_mstate pre) as [st|[out e]] eqn:E;
      [|reflexivity].
    apply read_lines_merged_release in E. simpl in E.
    simpl. rewrite read_line_merged_unrecognised; auto.
    now rewrite E.
  - unfold fix_relab_single. rewrite read_lines_app.
    destruct (read_lines oct_fixes init_state pre) as [st|[out e]] eqn:E;
      [|reflexivity].
    apply read_lines_release in E. simpl in E.
    simpl. rewrite read_line_unrecognised; auto.
    now rewrite E.
Qed.

Lemma C9_unrecognised_release_aborts_witness :
  let pre := ["#mpa_vJan21_CHOCOPhlAn_201901" ++ Py.nl;
              tsv ["UNCLASSIFIED"; "-1"; "5.0"; EmptyString]] in
  let line := species_line "k__A|p__B|c__C|o__D|f__E|g__F|s__G|t__SGB1"
                "1|2|3|4|5|6|7|" "95.0" in
  is_data_line line = true
  /\ recognised (release_after None pre) = false
  /\ fix_relab_mpa4 [] (List.app pre [line]) false
     = {| output := ["#mpa_vJan21_CHOCOPhlAn_202403" ++ Py.nl;
                     tsv ["UNCLASSIFIED"; "-1"; "5.0"; EmptyString]];
          status := Some (SystemExit RELEASE_MESSAGE) |}.
Proof.
  split; [reflexivity|]. split; [reflexivity|].
  etransitivity.
  - apply (C9_unrecognised_release_aborts [] false); reflexivity.
  - vm_compute. reflexivity.
Defined.

(** ** C10: a lineage read twice *)

Section Overwrite.

Context {V : Type}.

Lemma differ_at_set (k k2 : string) (v : V) (d d' : dict V) :
  differ_at k d d' -> differ_at k (dict_set d k2 v) (dict_set d' k2 v).
Proof.
  induction 1 as [d|va vb r|x r r' Hx Hr IH]; simpl.
  - constructor.
  - destruct (String.eqb k k2); constructor.
  - destruct (String.eqb (fst x) k2) eqn:E; destruct x as [kx vx]; simpl in *;
      rewrite E; now constructor.
Qed.

Lemma differ_at_set_same (k : string) (v : V) (d d' : dict V) :
  differ_at k d d' -> dict_set d k v = dict_set d' k v.
Proof.
  induction 1 as [d|va vb r|x r r' Hx Hr IH]; simpl.
  - reflexivity.
  - now rewrite String.eqb_refl.
  - destruct x as [kx vx]; simpl in *.
    destruct (String.eqb kx k) eqn:E.
    + apply String.eqb_eq in E. contradiction.
    + now rewrite IH.
Qed.

Lemma dict_set_differ_at (k : string) (v v' : V) (d : dict V) :
  differ_at k (dict_set d k v) (dict_set d k v').
Proof.
  induction d as [|[k0 v0] r IH]; simpl.
  - constructor.
  - destruct (String.eqb k0 k) eqn:E.
    + apply String.eqb_eq in E. subst k0. constructor.
    + constructor; auto. simpl. intros ->.
      now rewrite String.eqb_refl in E.
Qed.

End Overwrite.

Lemma list_set_length {A} (l : list A) (i : nat) (a : A) :
  List.length (list_set l i a) = List.length l.
Proof.
  revert i. induction l as [|x l IH]; intros [|i]; simpl; auto.
Qed.

Lemma list_set_last {A} (up : list A) (d x : A) :
  list_set (List.app up [d]) (List.length up) x = List.app up [x].
Proof. induction up as [|y up IH]; simpl; [|rewrite IH]; reflexivity. Qed.

Lemma neg_index_last {A} (up : list A) (d : A) :
  neg_index (List.app up [d]) 1 = List.length up.
Proof. unfold neg_index. rewrite length_app. simpl. lia. Qed.

Lemma set_leaf_last (st : state) (up : levels) (d : dict entry) (k : string) (e : entry) :
  taxa_levs st = List.app up [d] ->
  set_leaf st k e
  = State (List.app up [dict_set d k e]) (release st) (unclassified_fraction st) (wf st).
Proof.
  intros H. unfold set_leaf. rewrite H, neg_index_last, list_set_last.
  now rewrite nth_middle.
Qed.

Lemma read_line_levels_length (oct_fixes : fix_table) (st st' : state) (line : string) :
  read_line oct_fixes st line = inl st' ->
  List.length (taxa_levs st') = List.length (taxa_levs st).
Proof.
  unfold read_line.
  destruct (Py.startswith line "#mpa_v"); [intros [= <-]; reflexivity|].
  destruct (Py.startswith line "#" || Py.startswith line "clade_name");
    [intros [= <-]; reflexivity|].
  destruct (Py.startswith line "UNCLASSIFIED").
  - destruct (text <- index (Py.split Py.TAB line) 2;; float_ text);
      [intros [= <-]; reflexivity|discriminate].
  - destruct (Py.contains "t__" line); [|intros [= <-]; reflexivity].
    destruct (leaf_assignment oct_fixes (release st) line) as [[k e]|];
      [intros [= <-]; simpl; apply list_set_length|discriminate].
Qed.

Lemma read_lines_levels_length (oct_fixes : fix_table) (input : list string) :
  forall st st',
    read_lines oct_fixes st input = inl st' ->
    List.length (taxa_levs st') = List.length (taxa_levs st).
Proof.
  induction input as [|l r IH]; intros st st' H; simpl in *.
  - now injection H as <-.
  - destruct (read_line oct_fixes st l) as [st1|] eqn:E; [|discriminate].
    rewrite (IH _ _ H). now apply read_line_levels_length in E.
Qed.

(** A data line that is read assigns its row to the deepest table. *)
Lemma read_line_data (oct_fixes : fix_table) (st : state) (line : string)
    (k : string) (e : entry) :
  is_data_line line = true ->
  leaf_assignment oct_fixes (release st) line = Ok (k, e) ->
  read_line oct_fixes st line = inl (set_leaf st k e).
Proof.
  intros Hd Ha. apply is_data_line_inv in Hd as (H1 & H2 & H3 & H4).
  unfold read_line. now rewrite H1, H2, H3, H4, Ha.
Qed.

(** The reading loop never looks at the rows already stored: from two
    states that differ at most in the row of [k] it ends with the same
    exception or reaches two states that differ at most in that row. *)
Lemma read_line_differ_at (oct_fixes : fix_table) (k : string) (st st' : state)
    (line : string) :
  states_differ_at k st st' ->
  match read_line oct_fixes st line, read_line oct_fixes st' line with
  | inl s, inl s' => states_differ_at k s s'
  | inr e, inr e' => e = e'
  | _, _ => False
  end.
Proof.
  intros (Hr & Hu & Hw & up & d & d' & Ht & Ht' & Hd).
  unfold read_line.
  destruct (Py.startswith line "#mpa_v").
  { unfold states_differ_at, write; simpl. rewrite Hu, Hw.
    repeat split; auto. now exists up, d, d'. }
  destruct (Py.startswith line "#" || Py.startswith line "clade_name").
  { unfold states_differ_at, write; simpl. rewrite Hw.
    repeat split; auto. now exists up, d, d'. }
  destruct (Py.startswith line "UNCLASSIFIED").
  { destruct (text <- index (Py.split Py.TAB line) 2;; float_ text); simpl.
    - unfold states_differ_at; simpl. rewrite Hw.
      repeat split; auto. now exists up, d, d'.
    - now rewrite Hw. }
  destruct (Py.contains "t__" line).
  - rewrite <- Hr.
    destruct (leaf_assignment oct_fixes (release st) line) as [[k2 e]|err].
    + rewrite (set_leaf_last _ _ _ _ _ Ht), (set_leaf_last _ _ _ _ _ Ht').
      unfold states_differ_at; simpl. repeat split; auto.
      exists up, (dict_set d k2 e), (dict_set d' k2 e).
      repeat split; auto. now apply differ_at_set.
    + now rewrite Hw.
  - unfold states_differ_at. repeat split; auto. now exists up, d, d'.
Qed.

Lemma read_lines_differ_at (oct_fixes : fix_table) (k : string) (input : list string) :
  forall st st',
    states_differ_at k st st' ->
    match read_lines oct_fixes st input, read_lines oct_fixes st' input with
    | inl s, inl s' => states_differ_at k s s'
    | inr e, inr e' => e = e'
    | _, _ => False
    end.
Proof.
  induction input as [|l r IH]; intros st st' H; simpl; auto.
  pose proof (read_line_differ_at oct_fixes k st st' l H) as Hl.
  destruct (read_line oct_fixes st l) as [s|e], (read_line oct_fixes st' l) as [s'|e'];
    try contradiction.
  - now apply IH.
  - exact Hl.
Qed.

Lemma set_leaf_differ_at (k : string) (e : entry) (st st' : state) :
  states_differ_at k st st' -> set_leaf st k e = set_leaf st' k e.
Proof.
  intros (Hr & Hu & Hw & up & d & d' & Ht & Ht' & Hd).
  rewrite (set_leaf_last _ _ _ _ _ Ht), (set_leaf_last _ _ _ _ _ Ht').
  now rewrite Hr, Hu, Hw, (differ_at_set_same _ _ _ _ Hd).
Qed.

Lemma release_after_app (r : option string) (l1 l2 : list string) :
  release_after r (List.app l1 l2) = release_after (release_after r l1) l2.
Proof. unfold release_after. apply fold_left_app. Qed.

Lemma read_lines_levels_last (oct_fixes : fix_table) (input : list string) (st : state) :
  read_lines oct_fixes init_state input = inl st ->
  exists up d, taxa_levs st = List.app up [d].
Proof.
  intros H. apply read_lines_levels_length in H. simpl in H.
  destruct (taxa_levs st) as [|x t] eqn:E; [discriminate|].
  destruct (@exists_last _ (x :: t)) as (up & d & Hl); [discriminate|].
  now exists up, d.
Qed.

Lemma read_lines_from_levels_last (oct_fixes : fix_table) (input : list string)
    (st st' : state) :
  (exists up d, taxa_levs st = List.app up [d]) ->
  read_lines oct_fixes st input = inl st' ->
  exists up d, taxa_levs st' = List.app up [d].
Proof.
  intros (up & d & Ht) H. apply read_lines_levels_length in H.
  rewrite Ht, length_app in H. simpl in H.
  destruct (taxa_levs st') as [|x t] eqn:E; [simpl in H; lia|].
  destruct (@exists_last _ (x :: t)) as (up' & d' & Hl); [discriminate|].
  now exists up', d'.
Qed.

Lemma read_line_merged_levels_length (oct_fixes : fix_table) (st st' : mstate)
    (line : string) :
  read_line_merged oct_fixes st line = inl st' ->
  List.length (m_levs st') = List.length (m_levs st).
Proof.
  unfold read_line_merged. destruct st as [h t rel u nc out]. simpl.
  destruct (Py.startswith line "#mpa_v"); [intros [= <-]; reflexivity|].
  destruct (Py.startswith line "#" || Py.startswith line "clade_name");
    [intros [= <-]; reflexivity|].
  destruct (Py.startswith line "UNCLASSIFIED").
  - destruct (floats (tl (Py.split Py.TAB line)));
      [intros [= <-]; reflexivity|discriminate].
  - destruct (Py.contains "t__" line); [|intros [= <-]; reflexivity].
    destruct (leaf_assignment_merged oct_fixes rel line) as [[f v]|];
      [intros [= <-]; simpl; apply list_set_length|discriminate].
Qed.

Lemma read_lines_merged_levels_length (oct_fixes : fix_table) (input : list string) :
  forall st st',
    read_lines_merged oct_fixes st input = inl st' ->
    List.length (m_levs st') = List.length (m_levs st).
Proof.
  induction input as [|l r IH]; intros st st' H; simpl in *.
  - now injection H as <-.
  - destruct (read_line_merged oct_fixes st l) as [st1|] eqn:E; [|discriminate].
    rewrite (IH _ _ H). now apply read_line_merged_levels_length in E.
Qed.

(** A data line of a merged profile stores its row in a new object and
    binds the lineage to it. *)
Lemma read_line_merged_data (oct_fixes : fix_table) (st : mstate) (line : string)
    (fields : list string) (v : vector) :
  is_data_line line = true ->
  List.length (m_levs st) = 8 ->
  fix_fields oct_fixes true (m_release st) line = Ok fields ->
  floats (tl fields) = Ok v ->
  exists st',
    read_line_merged oct_fixes st line = inl st'
    /\ option_map (load (m_heap st'))
         (dict_get (nth 7 (m_levs st') []) (nth 0 fields EmptyString))
       = Some v.
Proof.
  intros Hd Hl Hf Hv. apply is_data_line_inv in Hd as (H1 & H2 & H3 & H4).
  destruct st as [h t rel u nc out]. simpl in *.
  rewrite H1, H2, H3, H4. unfold leaf_assignment_merged.
  rewrite Hf. simpl. rewrite Hv. simpl.
  eexists. split; [reflexivity|]. simpl.
  unfold neg_index. rewrite Hl. simpl.
  do 8 (destruct t as [|? t]; [discriminate|]).
  simpl. now rewrite dict_get_set_same; simpl; rewrite load_app_new.
Qed.

(** *** Merged profiles: a row that no table refers to *)

Lemma nth_list_set_same {A} (l : list A) (i : nat) (x d : A) :
  i < List.length l -> nth i (list_set l i x) d = x.
Proof.
  revert i. induction l as [|y l IH]; intros [|i] H; simpl in *; try lia; auto.
  apply IH. lia.
Qed.

Lemma nth_list_set_other {A} (l : list A) (i j : nat) (x d : A) :
  j <> i -> nth j (list_set l i x) d = nth j l d.
Proof.
  revert i j. induction l as [|y l IH]; intros [|i] [|j] H; simpl; auto;
    congruence.
Qed.

Lemma list_set_beyond {A} (l : list A) (i : nat) (x : A) :
  List.length l <= i -> list_set l i x = l.
Proof.
  revert i. induction l as [|y l IH]; intros [|i] H; simpl in *; auto; try lia.
  rewrite IH; auto. lia.
Qed.

Lemma heaps_differ_at_app (a : nat) (h h' x : heap) :
  heaps_differ_at a h h' -> heaps_differ_at a (List.app h x) (List.app h' x).
Proof.
  intros [Hl Hb]. split.
  - rewrite !length_app. lia.
  - intros b Hne. unfold load.
    destruct (Nat.lt_ge_cases b (List.length h)) as [Hlt|Hge].
    + rewrite !app_nth1 by lia. now apply Hb.
    + rewrite !app_nth2 by lia. now rewrite Hl.
Qed.

Lemma heaps_differ_at_set (a b : nat) (h h' : heap) (row : vector) :
  heaps_differ_at a h h' -> b <> a ->
  heaps_differ_at a (list_set h b row) (list_set h' b row).
Proof.
  intros [Hl Hb] Hne. split.
  - now rewrite !list_set_length.
  - intros c Hc. unfold load.
    destruct (Nat.eq_dec c b) as [->|Hcb].
    + destruct (Nat.lt_ge_cases b (List.length h)) as [Hlt|Hge].
      * rewrite !nth_list_set_same by lia. reflexivity.
      * rewrite !list_set_beyond by lia. now apply Hb.
    + rewrite !nth_list_set_other by auto. now apply Hb.
Qed.

Lemma heaps_differ_at_new (h : heap) (v v' : vector) :
  heaps_differ_at (List.length h) (List.app h [v]) (List.app h [v']).
Proof.
  split.
  - rewrite !length_app. reflexivity.
  - intros b Hne. unfold load.
    destruct (Nat.lt_ge_cases b (List.length h)) as [Hlt|Hge].
    + now rewrite !app_nth1 by lia.
    + rewrite !app_nth2 by lia.
      destruct (b - List.length h) as [|n] eqn:E; [lia|].
      simpl. now destruct n.
Qed.

Lemma dict_set_keys_in {V} (d : dict V) (k x : string) (v : V) :
  In x (dict_keys (dict_set d k v)) -> In x (dict_keys d) \/ x = k.
Proof.
  induction d as [|[k0 v0] r IH]; simpl.
  - intros [<-|[]]. now right.
  - destruct (String.eqb k0 k); simpl.
    + intros [<-|H]; auto.
    + intros [<-|H]; auto. destruct (IH H); auto.
Qed.

Lemma dict_set_NoDup {V} (d : dict V) (k : string) (v : V) :
  NoDup (dict_keys d) -> NoDup (dict_keys (dict_set d k v)).
Proof.
  induction d as [|[k0 v0] r IH]; simpl; intros H.
  - constructor; [intros []|constructor].
  - inversion H as [|? ? Hn Hr]; subst.
    destruct (String.eqb k0 k) eqn:E; simpl.
    + now constructor.
    + constructor; auto.
      intros Hin. apply dict_set_keys_in in Hin as [Hin| ->]; auto.
      now rewrite String.eqb_refl in E.
Qed.

Lemma dict_set_Forall {V} (P : string * V -> Prop) (d : dict V) (k : string) (v : V) :
  Forall P d -> P (k, v) -> Forall P (dict_set d k v).
Proof.
  intros H Hk. induction d as [|[k0 v0] r IH]; simpl.
  - constructor; auto.
  - inversion H as [|? ? Hx Hr]; subst.
    destruct (String.eqb k0 k) eqn:E.
    + apply String.eqb_eq in E. subst k0. constructor; auto.
    + constructor; auto.
Qed.

Lemma unreferenced_get (a : nat) (d : dict nat) (k : string) (p : nat) :
  unreferenced a d -> dict_get d k = Some p -> p <> a.
Proof.
  unfold unreferenced. intros H.
  induction d as [|[k0 v0] r IH]; simpl; [discriminate|].
  inversion H as [|? ? Hx Hr]; subst.
  destruct (String.eqb k0 k); [intros [= <-]; exact Hx|auto].
Qed.

(** Rebinding [k] leaves no reference to a row that only [k] referred
    to. *)
Lemma dict_set_unreferenced (a b : nat) (k : string) (d : dict nat) :
  NoDup (dict_keys d) ->
  Forall (fun kv => snd kv = a -> fst kv = k) d ->
  b <> a ->
  unreferenced a (dict_set d k b).
Proof.
  unfold unreferenced. intros Hn Hf Hb.
  induction d as [|[k0 b0] r IH]; simpl.
  - constructor; auto.
  - inversion Hn as [|? ? Hk0 Hr]; subst.
    inversion Hf as [|? ? Hx Hfr]; subst. simpl in Hx.
    destruct (String.eqb k0 k) eqn:E.
    + apply String.eqb_eq in E. subst k0.
      constructor; auto.
      apply Forall_forall. intros [k1 b1] Hin. simpl. intros ->.
      rewrite Forall_forall in Hfr. specialize (Hfr _ Hin eq_refl). simpl in Hfr.
      subst k1. apply Hk0. now apply (in_map fst r (k, a)).
    + constructor; auto.
      simpl. intros ->. specialize (Hx eq_refl). subst k0.
      now rewrite String.eqb_refl in E.
Qed.

Lemma unreferenced_levels_set (a : nat) (t : list (dict nat)) (i : nat) (d : dict nat) :
  Forall (unreferenced a) t -> unreferenced a d ->
  Forall (unreferenced a) (list_set t i d).
Proof.
  intros Ht Hd. revert i.
  induction Ht as [|x t Hx Ht IH]; intros [|i]; simpl; constructor; auto.
Qed.

Lemma unreferenced_nth (a : nat) (t : list (dict nat)) (i : nat) :
  Forall (unreferenced a) t -> unreferenced a (nth i t []).
Proof.
  intros Ht. revert i.
  induction Ht as [|x t Hx Ht IH]; intros [|i]; simpl; auto; constructor.
Qed.

Ltac mstate_simpl :=
  cbn [m_levs m_heap m_release m_unclassified m_ncols m_wf] in *.

Lemma leaf_update {A} (up : list (dict A)) (d : dict A) (k : string) (b : A) :
  let t := List.app up [d] in
  list_set t (neg_index t 1) (dict_set (nth (neg_index t 1) t []) k b)
  = List.app up [dict_set d k b].
Proof.
  cbv zeta. now rewrite neg_index_last, nth_middle, list_set_last.
Qed.

Lemma read_line_merged_inv (oct_fixes : fix_table) (st st' : mstate) (line : string) :
  read_line_merged oct_fixes st line = inl st' ->
  merged_reading_inv st -> merged_reading_inv st'.
Proof.
  unfold read_line_merged, merged_reading_inv.
  destruct st as [h t rel u nc out]. mstate_simpl.
  destruct (Py.startswith line "#mpa_v"); [intros [= <-]; mstate_simpl; auto|].
  destruct (Py.startswith line "#" || Py.startswith line "clade_name");
    [intros [= <-]; mstate_simpl; auto|].
  destruct (Py.startswith line "UNCLASSIFIED").
  - destruct (floats (tl (Py.split Py.TAB line)));
      [intros [= <-]; mstate_simpl; auto|discriminate].
  - destruct (Py.contains "t__" line); [|intros [= <-]; auto].
    destruct (leaf_assignment_merged oct_fixes rel line) as [[f v]|];
      [|discriminate].
    intros [= <-] (d & -> & Hn & Hv). mstate_simpl.
    rewrite leaf_update.
    exists (dict_set d (nth 0 f EmptyString) (List.length h)).
    split; [reflexivity|]. split; [now apply dict_set_NoDup|].
    apply valid_addresses_set.
    + now apply valid_addresses_app.
    + rewrite length_app. simpl. lia.
Qed.

Lemma read_lines_merged_inv (oct_fixes : fix_table) (input : list string) :
  forall st st',
    read_lines_merged oct_fixes st input = inl st' ->
    merged_reading_inv st -> merged_reading_inv st'.
Proof.
  induction input as [|l r IH]; intros st st' H Hi; simpl in H.
  - now injection H as <-.
  - destruct (read_line_merged oct_fixes st l) as [s1|] eqn:E; [|discriminate].
    eapply IH; eauto. eapply read_line_merged_inv; eauto.
Qed.

Lemma init_mstate_inv : merged_reading_inv init_mstate.
Proof.
  exists []. split; [reflexivity|]. split; constructor.
Qed.

(** A data line that is read stores its row at the next address and
    binds its key to it. *)
Lemma read_line_merged_assigns (oct_fixes : fix_table) (st : mstate) (line : string)
    (fields : list string) (v : vector) :
  is_data_line line = true ->
  leaf_assignment_merged oct_fixes (m_release st) line = Ok (fields, v) ->
  read_line_merged oct_fixes st line
  = inl (MState (List.app (m_heap st) [v])
           (list_set (m_levs st) (neg_index (m_levs st) 1)
              (dict_set (nth (neg_index (m_levs st) 1) (m_levs st) [])
                 (nth 0 fields EmptyString) (List.length (m_heap st))))
           (m_release st) (m_unclassified st)
           (Some (List.length fields - 1)) (m_wf st)).
Proof.
  intros Hd Ha. apply is_data_line_inv in Hd as (H1 & H2 & H3 & H4).
  destruct st as [h t rel u nc out]. mstate_simpl.
  unfold read_line_merged. now rewrite H1, H2, H3, H4, Ha.
Qed.

(** Two data lines for the same lineage read in the same state lead to
    states that differ only in the row they stored. *)
Lemma mstates_differ_under_start (st : mstate) (k : string) (v v' : vector)
    (n n' : option nat) :
  merged_reading_inv st ->
  let t := list_set (m_levs st) (neg_index (m_levs st) 1)
             (dict_set (nth (neg_index (m_levs st) 1) (m_levs st) []) k
                (List.length (m_heap st))) in
  mstates_differ_under (List.length (m_heap st)) k
    (MState (List.app (m_heap st) [v]) t (m_release st) (m_unclassified st) n (m_wf st))
    (MState (List.app (m_heap st) [v']) t (m_release st) (m_unclassified st) n' (m_wf st)).
Proof.
  intros (d & Hd & Hn & Hv). cbv zeta. rewrite Hd, leaf_update.
  unfold mstates_differ_under. mstate_simpl.
  repeat (split; [reflexivity|]).
  split; [apply heaps_differ_at_new|].
  split; [rewrite length_app; simpl; lia|].
  exists (dict_set d k (List.length (m_heap st))).
  split; [reflexivity|]. split; [now apply dict_set_NoDup|].
  apply dict_set_Forall; [|auto].
  eapply Forall_impl; [|exact Hv].
  intros [k0 b0] Hlt. simpl in *. lia.
Qed.

(** The reading loop of a merged profile never loads a row. *)
Lemma read_line_merged_differ_under (oct_fixes : fix_table) (a : nat) (k : string)
    (st st' : mstate) (line : string) :
  mstates_differ_under a k st st' ->
  match read_line_merged oct_fixes st line, read_line_merged oct_fixes st' line with
  | inl s, inl s' => mstates_differ_under a k s s'
  | inr e, inr e' => e = e'
  | _, _ => False
  end.
Proof.
  destruct st as [h t rel u nc out], st' as [h' t' rel' u' nc' out'].
  intros (Ht & Hr & Hu & Hw & Hh & Ha & d & Hd & Hn & Hf). mstate_simpl.
  subst t' rel' u' out'.
  unfold read_line_merged.
  destruct (Py.startswith line "#mpa_v").
  { unfold mstates_differ_under; mstate_simpl. repeat (split; auto). now exists d. }
  destruct (Py.startswith line "#" || Py.startswith line "clade_name").
  { unfold mstates_differ_under; mstate_simpl. repeat (split; auto). now exists d. }
  destruct (Py.startswith line "UNCLASSIFIED").
  { destruct (floats (tl (Py.split Py.TAB line))); [|reflexivity].
    unfold mstates_differ_under; mstate_simpl. repeat (split; auto). now exists d. }
  destruct (Py.contains "t__" line).
  - destruct (leaf_assignment_merged oct_fixes rel line) as [[f v]|e]; [|reflexivity].
    destruct Hh as [Hl Hb].
    rewrite <- Hl. rewrite Hd, leaf_update.
    unfold mstates_differ_under; mstate_simpl.
    repeat (split; [reflexivity|]).
    split; [apply heaps_differ_at_app; now split|].
    split; [rewrite length_app; lia|].
    exists (dict_set d (nth 0 f EmptyString) (List.length h)).
    split; [reflexivity|]. split; [now apply dict_set_NoDup|].
    apply dict_set_Forall; auto. cbn [fst snd]. lia.
  - unfold mstates_differ_under; mstate_simpl. repeat (split; auto). now exists d.
Qed.

Lemma read_lines_merged_differ_under (oct_fixes : fix_table) (a : nat) (k : string)
    (input : list string) :
  forall st st',
    mstates_differ_under a k st st' ->
    match read_lines_merged oct_fixes st input, read_lines_merged oct_fixes st' input with
    | inl s, inl s' => mstates_differ_under a k s s'
    | inr e, inr e' => e = e'
    | _, _ => False
    end.
Proof.
  induction input as [|l r IH]; intros st st' H; simpl; auto.
  pose proof (read_line_merged_differ_under oct_fixes a k st st' l H) as Hl.
  destruct (read_line_merged oct_fixes st l) as [s|e],
           (read_line_merged oct_fixes st' l) as [s'|e']; try contradiction.
  - now apply IH.
  - exact Hl.
Qed.

(** Once the lineage is bound to a new row, no table refers to the old
    one. *)
Lemma mstates_differ_at_rebind (a : nat) (k : string) (st st' : mstate)
    (v : vector) (n : option nat) :
  mstates_differ_under a k st st' ->
  let t := list_set (m_levs st) (neg_index (m_levs st) 1)
             (dict_set (nth (neg_index (m_levs st) 1) (m_levs st) []) k
                (List.length (m_heap st))) in
  let t' := list_set (m_levs st') (neg_index (m_levs st') 1)
              (dict_set (nth (neg_index (m_levs st') 1) (m_levs st') []) k
                 (List.length (m_heap st'))) in
  mstates_differ_at a
    (MState (List.app (m_heap st) [v]) t (m_release st) (m_unclassified st) n (m_wf st))
    (MState (List.app (m_heap st') [v]) t' (m_release st') (m_unclassified st') n (m_wf st')).
Proof.
  intros (Ht & Hr & Hu & Hw & Hh & Ha & d & Hd & Hn & Hf). cbv zeta.
  destruct Hh as [Hl Hb].
  rewrite <- Ht, <- Hr, <- Hu, <- Hw, <- Hl. rewrite Hd, leaf_update.
  unfold mstates_differ_at. mstate_simpl.
  repeat (split; [reflexivity|]).
  split; [apply heaps_differ_at_app; now split|].
  split; [rewrite length_app; lia|].
  apply Forall_app. split.
  - repeat constructor.
  - constructor; [|constructor].
    apply dict_set_unreferenced; auto. lia.
Qed.

Lemma read_line_merged_differ_at (oct_fixes : fix_table) (a : nat)
    (st st' : mstate) (line : string) :
  mstates_differ_at a st st' ->
  match read_line_merged oct_fixes st line, read_line_merged oct_fixes st' line with
  | inl s, inl s' => mstates_differ_at a s s'
  | inr e, inr e' => e = e'
  | _, _ => False
  end.
Proof.
  destruct st as [h t rel u nc out], st' as [h' t' rel' u' nc' out'].
  intros (Ht & Hr & Hu & Hc & Hw & Hh & Ha & Hf). mstate_simpl.
  subst t' rel' u' nc' out'.
  unfold read_line_merged.
  destruct (Py.startswith line "#mpa_v").
  { unfold mstates_differ_at; mstate_simpl. repeat (split; auto). }
  destruct (Py.startswith line "#" || Py.startswith line "clade_name").
  { unfold mstates_differ_at; mstate_simpl. repeat (split; auto). }
  destruct (Py.startswith line "UNCLASSIFIED").
  { destruct (floats (tl (Py.split Py.TAB line))); [|reflexivity].
    unfold mstates_differ_at; mstate_simpl. repeat (split; auto). }
  destruct (Py.contains "t__" line).
  - destruct (leaf_assignment_merged oct_fixes rel line) as [[f v]|e]; [|reflexivity].
    destruct Hh as [Hl Hb].
    rewrite <- Hl.
    unfold mstates_differ_at; mstate_simpl.
    repeat (split; [reflexivity|]).
    split; [apply heaps_differ_at_app; now split|].
    split; [rewrite length_app; lia|].
    apply unreferenced_levels_set; auto.
    apply dict_set_Forall.
    + now apply unreferenced_nth.
    + cbn [fst snd]. lia.
  - unfold mstates_differ_at; mstate_simpl. repeat (split; auto).
Qed.

Lemma read_lines_merged_differ_at (oct_fixes : fix_table) (a : nat)
    (input : list string) :
  forall st st',
    mstates_differ_at a st st' ->
    match read_lines_merged oct_fixes st input, read_lines_merged oct_fixes st' input with
    | inl s, inl s' => mstates_differ_at a s s'
    | inr e, inr e' => e = e'
    | _, _ => False
    end.
Proof.
  induction input as [|l r IH]; intros st st' H; simpl; auto.
  pose proof (read_line_merged_differ_at oct_fixes a st st' l H) as Hl.
  destruct (read_line_merged oct_fixes st l) as [s|e],
           (read_line_merged oct_fixes st' l) as [s'|e']; try contradiction.
  - now apply IH.
  - exact Hl.
Qed.

Lemma raise_child_merged_differ_at (a : nat) (acc acc' : result (heap * dict nat))
    (child : string * nat) :
  related_results (parents_differ_at a) acc acc' ->
  snd child <> a ->
  related_results (parents_differ_at a)
    (raise_child_merged acc child) (raise_child_merged acc' child).
Proof.
  unfold related_results, raise_child_merged, bind.
  destruct acc as [[h p]|e], acc' as [[h' p']|e']; try contradiction; [|auto].
  intros (Hp & Hh & Ha & Hu) Hc. cbn [fst snd] in *. subst p'.
  destruct child as [ss c]. cbn [snd] in Hc.
  destruct (dict_get p (drop_last_segment "|" ss)) as [q|] eqn:G.
  - assert (Hq : q <> a) by (eapply unreferenced_get; eauto).
    destruct Hh as [Hl Hb].
    rewrite <- (Hb q Hq), <- (Hb c Hc).
    destruct (np_add (load h q) (load h c)) as [v|e]; [|reflexivity].
    rewrite <- Hl. unfold Ok, parents_differ_at. cbn [fst snd].
    split; [reflexivity|].
    split; [apply heaps_differ_at_app; now split|].
    split; [rewrite length_app; lia|].
    apply dict_set_Forall; auto. cbn [snd]. lia.
  - unfold Ok, parents_differ_at. cbn [fst snd].
    repeat split; try apply Hh; auto.
    apply dict_set_Forall; auto.
Qed.

Lemma raise_children_merged_differ_at (a : nat) (children : dict nat) :
  unreferenced a children ->
  forall acc acc',
    related_results (parents_differ_at a) acc acc' ->
    related_results (parents_differ_at a)
      (fold_left raise_child_merged children acc)
      (fold_left raise_child_merged children acc').
Proof.
  induction 1 as [|c children Hc Hr IH]; intros acc acc' H; simpl; auto.
  apply IH. now apply raise_child_merged_differ_at.
Qed.

Lemma assign_rank_merged_differ_at (a : nat) (acc acc' : result (heap * list (dict nat)))
    (i : nat) :
  related_results (tables_differ_at a) acc acc' ->
  related_results (tables_differ_at a)
    (assign_rank_merged acc i) (assign_rank_merged acc' i).
Proof.
  unfold assign_rank_merged, bind at 1 3.
  destruct acc as [[h t]|e], acc' as [[h' t']|e']; simpl; try contradiction; [|auto].
  intros (Ht & Hh & Ha & Hu). cbn [fst snd] in *. subst t'.
  destruct (List.length t <? i)%nat; [reflexivity|].
  destruct (List.length t <? i + 1)%nat.
  { destruct (nth (neg_index t i) t []); simpl; [|reflexivity].
    unfold tables_differ_at. cbn [fst snd]. auto. }
  assert (Hp : related_results (parents_differ_at a)
                 (Ok (h, nth (neg_index t (i + 1)) t []))
                 (Ok (h', nth (neg_index t (i + 1)) t []))).
  { unfold Ok, related_results, parents_differ_at. cbn [fst snd].
    repeat split; try apply Hh; auto. now apply unreferenced_nth. }
  pose proof (raise_children_merged_differ_at a (nth (neg_index t i) t [])
                (unreferenced_nth a t _ Hu) _ _ Hp) as Hf.
  destruct (fold_left raise_child_merged (nth (neg_index t i) t [])
              (Ok (h, nth (neg_index t (i + 1)) t []))) as [[h1 p1]|e1],
           (fold_left raise_child_merged (nth (neg_index t i) t [])
              (Ok (h', nth (neg_index t (i + 1)) t []))) as [[h1' p1']|e1'];
    simpl in *; try contradiction; auto.
  destruct Hf as (Hp1 & Hh1 & Ha1 & Hu1). cbn [fst snd] in *. subst p1'.
  unfold tables_differ_at. cbn [fst snd].
  repeat split; try apply Hh1; auto.
  now apply unreferenced_levels_set.
Qed.

Lemma assign_ranks_merged_differ_at (a : nat) (ranks : list nat) :
  forall acc acc',
    related_results (tables_differ_at a) acc acc' ->
    related_results (tables_differ_at a)
      (fold_left assign_rank_merged ranks acc)
      (fold_left assign_rank_merged ranks acc').
Proof.
  induction ranks as [|i ranks IH]; intros acc acc' H; simpl; auto.
  apply IH. now apply assign_rank_merged_differ_at.
Qed.

Lemma sum_level_merged_differ_at (a : nat) (h h' : heap) (ncols : nat) (d : dict nat) :
  heaps_differ_at a h h' -> unreferenced a d ->
  sum_level_merged h ncols d = sum_level_merged h' ncols d.
Proof.
  intros [Hl Hb] Hu. unfold sum_level_merged.
  generalize (Ok (repeat PyFloat.zero ncols)).
  induction Hu as [|kv d Hk Hu IH]; intros acc; simpl; auto.
  rewrite (Hb _ Hk). apply IH.
Qed.

Lemma sum_levels_merged_differ_at (a : nat) (h h' : heap) (ncols : nat)
    (t : list (dict nat)) :
  heaps_differ_at a h h' -> Forall (unreferenced a) t ->
  sum_levels_merged h ncols t = sum_levels_merged h' ncols t.
Proof.
  intros Hh Hu.
  induction Hu as [|d t Hd Hu IH]; simpl; auto.
  now rewrite (sum_level_merged_differ_at a h h' ncols d Hh Hd), IH.
Qed.

Lemma write_level_merged_differ_at (a : nat) (sums unclassified : vector) (d : dict nat) :
  unreferenced a d ->
  forall h h' out,
    heaps_differ_at a h h' ->
    match write_level_merged sums unclassified d h out,
          write_level_merged sums unclassified d h' out with
    | inl (h1, out1), inl (h1', out1') => heaps_differ_at a h1 h1' /\ out1 = out1'
    | inr e, inr e' => e = e'
    | _, _ => False
    end.
Proof.
  induction 1 as [|[tax b] d Hb Hu IH]; intros h h' out Hh; simpl; auto.
  cbn [snd] in Hb. rewrite <- (proj2 Hh b Hb).
  destruct (renormalise_cells sums unclassified (load h b)) as [row|e]; auto.
  apply IH. now apply heaps_differ_at_set.
Qed.

Lemma write_levels_merged_differ_at (a : nat) (unclassified : vector)
    (t : list (dict nat)) :
  Forall (unreferenced a) t ->
  forall sums h h' out,
    heaps_differ_at a h h' ->
    write_levels_merged sums unclassified t h out
    = write_levels_merged sums unclassified t h' out.
Proof.
  induction 1 as [|d t Hd Hu IH]; intros sums h h' out Hh; simpl; auto.
  pose proof (write_level_merged_differ_at a (nth 0 sums []) unclassified d Hd
                h h' out Hh) as Hw.
  destruct (write_level_merged (nth 0 sums []) unclassified d h out) as [[h1 o1]|e1],
           (write_level_merged (nth 0 sums []) unclassified d h' out) as [[h1' o1']|e1'];
    try contradiction; [|now subst].
  destruct Hw as [Hh1 ->]. now apply IH.
Qed.

Lemma complete_merged_differ_at (a : nat) (st st' : mstate) :
  mstates_differ_at a st st' -> complete_merged st = complete_merged st'.
Proof.
  intros (Ht & Hr & Hu & Hc & Hw & Hh & Ha & Hf).
  unfold complete_merged. rewrite <- Hu, <- Hc, <- Hw.
  assert (Hs : related_results (tables_differ_at a)
                 (Ok (m_heap st, m_levs st)) (Ok (m_heap st', m_levs st'))).
  { unfold Ok, related_results, tables_differ_at. cbn [fst snd]. auto. }
  pose proof (assign_ranks_merged_differ_at a (seq 1 7) _ _ Hs) as Hl.
  unfold assign_levels_merged, Ok in *.
  destruct (fold_left assign_rank_merged (seq 1 7) (inl (m_heap st, m_levs st)))
    as [[h t]|e],
    (fold_left assign_rank_merged (seq 1 7) (inl (m_heap st', m_levs st')))
    as [[h' t']|e']; simpl in Hl; try contradiction; [|now subst].
  destruct Hl as (Ht1 & Hh1 & Ha1 & Hu1). cbn [fst snd] in *. subst t'.
  destruct (m_ncols st) as [ncols|]; [|reflexivity].
  rewrite <- (sum_levels_merged_differ_at a h h' ncols t Hh1 Hu1).
  destruct (sum_levels_merged h ncols t) as [sums|e]; [|reflexivity].
  now rewrite (write_levels_merged_differ_at a _ t Hu1 sums h h' (m_wf st) Hh1).
Qed.

Lemma fix_relab_merged_later_line (oct_fixes : fix_table)
    (pre mid post : list string) (l1 l1' l2 : string)
    (f1 f1' f2 : list string) (v1 v1' v2 : vector) :
  is_data_line l1 = true -> is_data_line l1' = true -> is_data_line l2 = true ->
  leaf_assignment_merged oct_fixes (release_after None pre) l1 = Ok (f1, v1) ->
  leaf_assignment_merged oct_fixes (release_after None pre) l1' = Ok (f1', v1') ->
  leaf_assignment_merged oct_fixes (release_after None (List.app pre mid)) l2
  = Ok (f2, v2) ->
  nth 0 f1 EmptyString = nth 0 f2 EmptyString ->
  nth 0 f1' EmptyString = nth 0 f2 EmptyString ->
  fix_relab_merged oct_fixes (List.app pre (l1 :: List.app mid (l2 :: post)))
  = fix_relab_merged oct_fixes (List.app pre (l1' :: List.app mid (l2 :: post))).
Proof.
  intros D1 D1' D2 A1 A1' A2 K1 K1'.
  rewrite release_after_app in A2.
  unfold fix_relab_merged. rewrite !read_lines_merged_app.
  destruct (read_lines_merged oct_fixes init_mstate pre) as [st0|err] eqn:E0;
    [|reflexivity].
  pose proof (read_lines_merged_release _ _ _ _ E0) as R0. simpl in R0.
  pose proof (read_lines_merged_inv _ _ _ _ E0 init_mstate_inv) as I0.
  rewrite <- R0 in A1, A1', A2.
  cbn [read_lines_merged].
  rewrite (read_line_merged_assigns _ _ _ _ _ D1 A1),
          (read_line_merged_assigns _ _ _ _ _ D1' A1').
  rewrite K1, K1'. rewrite !read_lines_merged_app.
  pose proof (mstates_differ_under_start st0 (nth 0 f2 EmptyString) v1 v1'
                (Some (List.length f1 - 1)) (Some (List.length f1' - 1)) I0) as HR.
  cbv zeta in HR.
  pose proof (read_lines_merged_differ_under oct_fixes _ _ mid _ _ HR) as Hm.
  match type of Hm with
  | match ?x with _ => _ end =>
      destruct x as [sm|em] eqn:Em
  end;
  match type of Hm with
  | match ?x with _ => _ end =>
      destruct x as [sm'|em'] eqn:Em'
  end; try contradiction; [|now subst].
  pose proof (read_lines_merged_release _ _ _ _ Em) as Rm.
  pose proof (read_lines_merged_release _ _ _ _ Em') as Rm'.
  cbn [m_release] in Rm, Rm'.
  rewrite <- Rm in A2.
  assert (A2' : leaf_assignment_merged oct_fixes (m_release sm') l2 = Ok (f2, v2))
    by (now rewrite Rm', <- Rm).
  cbn [read_lines_merged].
  rewrite (read_line_merged_assigns _ _ _ _ _ D2 A2),
          (read_line_merged_assigns _ _ _ _ _ D2 A2').
  pose proof (mstates_differ_at_rebind _ _ _ _ v2 (Some (List.length f2 - 1)) Hm) as Hb.
  cbv zeta in Hb.
  pose proof (read_lines_merged_differ_at oct_fixes _ post _ _ Hb) as Hp.
  match type of Hp with
  | match ?x with _ => _ end =>
      destruct x as [sp|ep] eqn:Ep
  end;
  match type of Hp with
  | match ?x with _ => _ end =>
      destruct x as [sp'|ep'] eqn:Ep'
  end; try contradiction; [|now subst].
  now apply complete_merged_differ_at with (a := List.length (m_heap st0)).
Qed.

(** C10. When two species-level data lines have the same lineage after
    label fixing, the deepest table holds the row of the later line, and
    the row of the earlier line has no effect on the run: with any other
    row in the earlier line the output is the same, at the leaf rank and
    at every rank above it.  The earlier value is overwritten, not added.
    This holds for single-column profiles and for merged profiles, where
    a data line binds its lineage to its own row, whatever the lines
    before it stored. *)
Theorem C10_later_line_overwrites (oct_fixes : fix_table)
    (pre mid post : list string) (l1 l1' l2 : string) :
  is_data_line l1 = true -> is_data_line l1' = true -> is_data_line l2 = true ->
  (forall (k : string) (e1 e1' e2 : entry),
      leaf_assignment oct_fixes (release_after None pre) l1 = Ok (k, e1) ->
      leaf_assignment oct_fixes (release_after None pre) l1' = Ok (k, e1') ->
      leaf_assignment oct_fixes (release_after None (List.app pre mid)) l2 = Ok (k, e2) ->
      fix_relab_mpa4 oct_fixes (List.app pre (l1 :: List.app mid (l2 :: post))) false
      = fix_relab_mpa4 oct_fixes (List.app pre (l1' :: List.app mid (l2 :: post))) false
      /\ (forall st,
             read_lines oct_fixes init_state (List.app pre (l1 :: List.app mid [l2]))
             = inl st ->
             dict_get (leaf_table st) k = Some e2))
  /\ (forall (f1 f1' f2 : list string) (v1 v1' v2 : vector),
         leaf_assignment_merged oct_fixes (release_after None pre) l1 = Ok (f1, v1) ->
         leaf_assignment_merged oct_fixes (release_after None pre) l1' = Ok (f1', v1') ->
         leaf_assignment_merged oct_fixes (release_after None (List.app pre mid)) l2
         = Ok (f2, v2) ->
         nth 0 f1 EmptyString = nth 0 f2 EmptyString ->
         nth 0 f1' EmptyString = nth 0 f2 EmptyString ->
         fix_relab_mpa4 oct_fixes (List.app pre (l1 :: List.app mid (l2 :: post))) true
         = fix_relab_mpa4 oct_fixes (List.app pre (l1' :: List.app mid (l2 :: post))) true)
  /\ (forall (input : list string) (st : mstate) (fields : list string) (v : vector),
         read_lines_merged oct_fixes init_mstate input = inl st ->
         fix_fields oct_fixes true (release_after None input) l2 = Ok fields ->
         floats (tl fields) = Ok v ->
         exists st',
           read_lines_merged oct_fixes init_mstate (List.app input [l2]) = inl st'
           /\ option_map (load (m_heap st'))
                (dict_get (nth 7 (m_levs st') []) (nth 0 fields EmptyString))
              = Some v).
Proof.
  intros D1 D1' D2.
  split; [|split].
  - intros k e1 e1' e2 A1 A1' A2.
    rewrite release_after_app in A2.
    split.
    + unfold fix_relab_mpa4, fix_relab_single.
      rewrite !read_lines_app.
      destruct (read_lines oct_fixes init_state pre) as [st0|err] eqn:E0; [|reflexivity].
      pose proof (read_lines_release _ _ _ _ E0) as R0. simpl in R0.
      destruct (read_lines_levels_last _ _ _ E0) as (up & d & Ht).
      rewrite <- R0 in A1, A1', A2.
      simpl. rewrite (read_line_data _ _ _ _ _ D1 A1), (read_line_data _ _ _ _ _ D1' A1').
      rewrite !read_lines_app.
      assert (HR : states_differ_at k (set_leaf st0 k e1) (set_leaf st0 k e1')).
      { rewrite (set_leaf_last _ _ _ _ _ Ht), (set_leaf_last _ _ _ _ _ Ht).
        unfold states_differ_at; simpl. repeat split; auto.
        exists up, (dict_set d k e1), (dict_set d k e1').
        repeat split; auto. apply dict_set_differ_at. }
      pose proof (read_lines_differ_at oct_fixes k mid _ _ HR) as Hm.
      destruct (read_lines oct_fixes (set_leaf st0 k e1) mid) as [sm|em] eqn:Em,
               (read_lines oct_fixes (set_leaf st0 k e1') mid) as [sm'|em'] eqn:Em';
        try contradiction; [|now subst].
      pose proof (read_lines_release _ _ _ _ Em) as Rm.
      pose proof (read_lines_release _ _ _ _ Em') as Rm'.
      simpl in Rm, Rm'. rewrite <- Rm in A2.
      simpl. rewrite (read_line_data _ _ _ _ _ D2 A2).
      assert (A2' : leaf_assignment oct_fixes (release sm') l2 = Ok (k, e2))
        by (now rewrite Rm', <- Rm).
      rewrite (read_line_data _ _ _ _ _ D2 A2').
      now rewrite (set_leaf_differ_at _ _ _ _ Hm).
    + intros st. rewrite read_lines_app.
      destruct (read_lines oct_fixes init_state pre) as [st0|err] eqn:E0; [|discriminate].
      pose proof (read_lines_release _ _ _ _ E0) as R0. simpl in R0.
      pose proof (read_lines_levels_last _ _ _ E0) as L0.
      rewrite <- R0 in A1, A2.
      simpl. rewrite (read_line_data _ _ _ _ _ D1 A1).
      rewrite read_lines_app.
      destruct (read_lines oct_fixes (set_leaf st0 k e1) mid) as [sm|em] eqn:Em;
        [|discriminate].
      pose proof (read_lines_release _ _ _ _ Em) as Rm. simpl in Rm.
      rewrite <- Rm in A2.
      assert (Lm : exists up d, taxa_levs sm = List.app up [d]).
      { apply (read_lines_from_levels_last oct_fixes mid (set_leaf st0 k e1) sm); auto.
        destruct L0 as (up & d & Ht).
        rewrite (set_leaf_last _ _ _ _ _ Ht). simpl. eauto. }
      destruct Lm as (up & d & Ht).
      simpl. rewrite (read_line_data _ _ _ _ _ D2 A2).
      intros [= <-].
      unfold leaf_table. rewrite (set_leaf_last _ _ _ _ _ Ht). simpl.
      rewrite neg_index_last, nth_middle. apply dict_get_set_same.
  - intros f1 f1' f2 v1 v1' v2 A1 A1' A2 K1 K1'.
    unfold fix_relab_mpa4.
    exact (fix_relab_merged_later_line oct_fixes pre mid post l1 l1' l2
             f1 f1' f2 v1 v1' v2 D1 D1' D2 A1 A1' A2 K1 K1').
  - intros input st fields v R Hf Hv.
    pose proof (read_lines_merged_release _ _ _ _ R) as Rr. simpl in Rr.
    pose proof (read_lines_merged_levels_length _ _ _ _ R) as Rl. simpl in Rl.
    rewrite <- Rr in Hf.
    destruct (read_line_merged_data _ _ _ _ _ D2 Rl Hf Hv) as (st' & Hs & Hg).
    exists st'. split; auto.
    rewrite read_lines_merged_app, R. simpl. now rewrite Hs.
Qed.

Lemma C10_later_line_overwrites_witness :
  let run_with value :=
    fix_relab_mpa4 twice_fixes
      (List.app twice_pre (twice_earlier value :: List.app [] [twice_later])) false in
  let merged_run_with value :=
    fix_relab_mpa4 twice_fixes
      (List.app twice_merged_pre
         (twice_merged_earlier value :: List.app [] [twice_merged_later])) true in
  let k := "k__A|p__B|c__C|o__D|f__E|g__F|s__New|t__SGB1" in
  let e v := Entry "1|2|3|4|5|6|7|" (PyFloat.of_Z v) EmptyString in
  is_data_line (twice_earlier "10.0") = true
  /\ is_data_line (twice_earlier "70.0") = true
  /\ is_data_line twice_later = true
  /\ leaf_assignment twice_fixes (release_after None twice_pre) (twice_earlier "10.0")
     = Ok (k, e 10%Z)
  /\ leaf_assignment twice_fixes (release_after None twice_pre) (twice_earlier "70.0")
     = Ok (k, e 70%Z)
  /\ leaf_assignment twice_fixes (release_after None (List.app twice_pre [])) twice_later
     = Ok (k, e 20%Z)
  /\ run_with "10.0" = run_with "70.0"
  /\ run_with "10.0"
     = {| output :=
            ["#mpa_vOct22_CHOCOPhlAnSGB_202403" ++ Py.nl;
             tsv ["UNCLASSIFIED"; "-1"; "80.0"; EmptyString];
             tsv ["k__A"; "1"; "20.0"; EmptyString];
             tsv ["k__A|p__B"; "1|2"; "20.0"; EmptyString];
             tsv ["k__A|p__B|c__C"; "1|2|3"; "20.0"; EmptyString];
             tsv ["k__A|p__B|c__C|o__D"; "1|2|3|4"; "20.0"; EmptyString];
             tsv ["k__A|p__B|c__C|o__D|f__E"; "1|2|3|4|5"; "20.0"; EmptyString];
             tsv ["k__A|p__B|c__C|o__D|f__E|g__F"; "1|2|3|4|5|6"; "20.0"; EmptyString];
             tsv ["k__A|p__B|c__C|o__D|f__E|g__F|s__New"; "1|2|3|4|5|6|7"; "20.0"; EmptyString];
             tsv [k; "1|2|3|4|5|6|7|"; "20.0"; EmptyString]];
          status := None |}
  /\ is_data_line (twice_merged_earlier "10.0") = true
  /\ is_data_line (twice_merged_earlier "70.0") = true
  /\ is_data_line twice_merged_later = true
  /\ merged_run_with "10.0" = merged_run_with "70.0"
  /\ status (merged_run_with "10.0") = None
  /\ nth 10 (output (merged_run_with "10.0")) EmptyString = tsv [k; "20.0"; "50.0"].
Proof.
  cbv zeta.
  split; [reflexivity|]. split; [reflexivity|]. split; [reflexivity|].
  split; [vm_compute; reflexivity|]. split; [vm_compute; reflexivity|].
  split; [vm_compute; reflexivity|].
  split.
  { apply (proj1 (C10_later_line_overwrites twice_fixes twice_pre [] []
                    (twice_earlier "10.0") (twice_earlier "70.0") twice_later
                    eq_refl eq_refl eq_refl)
             "k__A|p__B|c__C|o__D|f__E|g__F|s__New|t__SGB1"
             (Entry "1|2|3|4|5|6|7|" (PyFloat.of_Z 10) EmptyString)
             (Entry "1|2|3|4|5|6|7|" (PyFloat.of_Z 70) EmptyString)
             (Entry "1|2|3|4|5|6|7|" (PyFloat.of_Z 20) EmptyString));
      vm_compute; reflexivity. }
  split; [vm_compute; reflexivity|].
  split; [reflexivity|]. split; [reflexivity|]. split; [reflexivity|].
  split.
  { apply (proj1 (proj2 (C10_later_line_overwrites twice_fixes twice_merged_pre [] []
                    (twice_merged_earlier "10.0") (twice_merged_earlier "70.0")
                    twice_merged_later eq_refl eq_refl eq_refl))
             ["k__A|p__B|c__C|o__D|f__E|g__F|s__New|t__SGB1"; "10.0"; "25.0"]
             ["k__A|p__B|c__C|o__D|f__E|g__F|s__New|t__SGB1"; "70.0"; "25.0"]
             ["k__A|p__B|c__C|o__D|f__E|g__F|s__New|t__SGB1"; "20.0"; "50.0"]
             [PyFloat.of_Z 10; PyFloat.of_Z 25]
             [PyFloat.of_Z 70; PyFloat.of_Z 25]
             [PyFloat.of_Z 20; PyFloat.of_Z 50]);
      vm_compute; reflexivity. }
  split; vm_compute; reflexivity.
Defined.

(** ** Writing the ranks *)

Lemma renormalise_ok (value total_sum : PyFloat.float) :
  PyFloat.eqb total_sum PyFloat.zero = false ->
  renormalise value total_sum
  = Ok (PyFloat.round5
          (SFdiv PyFloat.prec PyFloat.emax (PyFloat.mul PyFloat.hundred value) total_sum)).
Proof. intros H. unfold renormalise, truediv. now rewrite H. Qed.

Lemma renormalise_zero (value total_sum : PyFloat.float) :
  PyFloat.eqb total_sum PyFloat.zero = true ->
  renormalise value total_sum = Raise ZeroDivisionError.
Proof. intros H. unfold renormalise, truediv. now rewrite H. Qed.

Lemma emit_app (out : list string) (s : string) (rows : list string) :
  List.app (emit out s) rows = List.app out (s :: rows).
Proof. unfold emit. now rewrite <- app_assoc. Qed.

(** A rank table is written row by row with the renormalised values,
    unless the total is zero and there is a row to divide. *)
Lemma write_level_spec (total_sum : PyFloat.float) (d : dict entry) (out : list string) :
  write_level total_sum d out
  = match d with
    | [] => inl out
    | _ :: _ =>
        if PyFloat.eqb total_sum PyFloat.zero then inr (out, ZeroDivisionError)
        else inl (List.app out (rows_of_level total_sum d))
    end.
Proof.
  destruct (PyFloat.eqb total_sum PyFloat.zero) eqn:Z.
  - destruct d as [|[tax e] r]; simpl; auto.
    now rewrite (renormalise_zero _ _ Z).
  - revert out. induction d as [|[tax e] r IH]; intros out; simpl; auto.
    rewrite (renormalise_ok _ _ Z). unfold Ok. rewrite IH.
    destruct r as [|x r]; simpl.
    + reflexivity.
    + now rewrite emit_app.
Qed.

Lemma gtdb_write_level_spec (total : PyFloat.float) (d : dict PyFloat.float)
    (out : list string) :
  gtdb_write_level total d out
  = match d with
    | [] => inl out
    | _ :: _ =>
        if PyFloat.eqb total PyFloat.zero then inr (out, ZeroDivisionError)
        else inl (List.app out (gtdb_rows_of_level total d))
    end.
Proof.
  destruct (PyFloat.eqb total PyFloat.zero) eqn:Z.
  - destruct d as [|[tax v] r]; simpl; auto.
    unfold gtdb_value, truediv. now rewrite Z.
  - revert out. induction d as [|[tax v] r IH]; intros out; simpl; auto.
    unfold gtdb_value, truediv. rewrite Z. unfold Ok. rewrite IH.
    destruct r as [|x r]; simpl.
    + reflexivity.
    + now rewrite emit_app.
Qed.

Lemma write_levels_ok (unclassified : PyFloat.float) (t : levels) :
  forall out,
    forallb (rank_writable unclassified) t = true ->
    write_levels unclassified t out
    = inl (List.app out (rows_of_ranks unclassified t)).
Proof.
  induction t as [|d rest IH]; intros out H; simpl in *.
  - now rewrite app_nil_r.
  - apply andb_prop in H as [Hd Hr].
    rewrite write_level_spec. fold (rank_total unclassified d).
    destruct d as [|x d].
    + simpl. now apply IH.
    + simpl in Hd. apply negb_true_iff in Hd. rewrite Hd.
      rewrite (IH _ Hr). unfold rows_of_ranks. simpl.
      now rewrite <- !app_assoc.
Qed.

Lemma write_levels_inv (unclassified : PyFloat.float) (t : levels) :
  forall out out',
    write_levels unclassified t out = inl out' ->
    forallb (rank_writable unclassified) t = true.
Proof.
  induction t as [|d rest IH]; intros out out' H; simpl in *; auto.
  rewrite write_level_spec in H. fold (rank_total unclassified d) in H.
  destruct d as [|x d].
  - simpl. eauto.
  - simpl. destruct (PyFloat.eqb (rank_total unclassified (x :: d)) PyFloat.zero);
      [discriminate|]. simpl. eauto.
Qed.

Lemma gtdb_write_levels_ok (a : abundances_t) (order : list string) :
  forall out,
    forallb gtdb_rank_writable (map (level_of a) order) = true ->
    gtdb_write_levels a order out
    = inl (List.app out (gtdb_rows_of_ranks (map (level_of a) order))).
Proof.
  induction order as [|lvl rest IH]; intros out H; simpl in *.
  - now rewrite app_nil_r.
  - apply andb_prop in H as [Hd Hr].
    rewrite gtdb_write_level_spec.
    destruct (level_of a lvl) as [|x d] eqn:E.
    + simpl. now apply IH.
    + simpl in Hd. apply negb_true_iff in Hd. rewrite Hd.
      rewrite (IH _ Hr). unfold gtdb_rows_of_ranks. simpl.
      now rewrite <- !app_assoc.
Qed.

Lemma gtdb_write_levels_inv (a : abundances_t) (order : list string) :
  forall out out',
    gtdb_write_levels a order out = inl out' ->
    forallb gtdb_rank_writable (map (level_of a) order) = true.
Proof.
  induction order as [|lvl rest IH]; intros out out' H; simpl in *; auto.
  rewrite gtdb_write_level_spec in H.
  destruct (level_of a lvl) as [|x d] eqn:E.
  - simpl. eauto.
  - simpl. destruct (PyFloat.eqb (total_of (x :: d)) PyFloat.zero);
      [discriminate|]. simpl. eauto.
Qed.

(** While lines are read only the deepest table is filled. *)
Lemma read_line_levels_shape (oct_fixes : fix_table) (s s' : state) (l : string) :
  read_line oct_fixes s l = inl s' ->
  (exists d, taxa_levs s = List.app (repeat [] 7) [d]) ->
  exists d, taxa_levs s' = List.app (repeat [] 7) [d].
Proof.
  unfold read_line.
  destruct (Py.startswith l "#mpa_v"); [intros [= <-]; simpl; auto|].
  destruct (Py.startswith l "#" || Py.startswith l "clade_name");
    [intros [= <-]; simpl; auto|].
  destruct (Py.startswith l "UNCLASSIFIED").
  - destruct (text <- index (Py.split Py.TAB l) 2;; float_ text);
      [intros [= <-]; simpl; auto|discriminate].
  - destruct (Py.contains "t__" l); [|intros [= <-]; auto].
    destruct (leaf_assignment oct_fixes (release s) l) as [[k e]|];
      [|discriminate].
    intros [= <-] [d Hd]. rewrite (set_leaf_last _ _ _ _ _ Hd). simpl. eauto.
Qed.

Lemma read_lines_levels_shape (oct_fixes : fix_table) (input : list string) (st : state) :
  read_lines oct_fixes init_state input = inl st ->
  taxa_levs st = [[]; []; []; []; []; []; []; leaf_table st].
Proof.
  assert (G : forall input s s',
             (exists d, taxa_levs s = List.app (repeat [] 7) [d]) ->
             read_lines oct_fixes s input = inl s' ->
             exists d, taxa_levs s' = List.app (repeat [] 7) [d]).
  { clear. induction input as [|l r IH]; intros s s' Hs H; simpl in H.
    - now injection H as <-.
    - destruct (read_line oct_fixes s l) as [s1|] eqn:E; [|discriminate].
      apply (IH s1 s'); auto.
      now apply (read_line_levels_shape oct_fixes s s1 l). }
  intros H. destruct (G input init_state st) as [d Hd]; auto.
  - exists []. reflexivity.
  - unfold leaf_table. rewrite Hd. reflexivity.
Qed.

Lemma assign_levels_ladder (leaf : dict entry) :
  assign_levels [[]; []; []; []; []; []; []; leaf] = ladder 7 leaf.
Proof. reflexivity. Qed.

(** What a completed run of the single-column repair pipeline has
    written, and when a run completes. *)
Lemma fix_relab_single_output (oct_fixes : fix_table) (input : list string) (st : state) :
  read_lines oct_fixes init_state input = inl st ->
  status (fix_relab_single oct_fixes input) = None ->
  output (fix_relab_single oct_fixes input)
  = List.app (wf st)
      (rows_of_ranks (unclassified_fraction st) (assign_levels (taxa_levs st))).
Proof.
  intros H. unfold fix_relab_single. rewrite H.
  destruct (write_levels (unclassified_fraction st) (assign_levels (taxa_levs st)) (wf st))
    as [out|[out e]] eqn:W; simpl; [intros _|discriminate].
  pose proof (write_levels_inv _ _ _ _ W) as Hw.
  rewrite (write_levels_ok _ _ _ Hw) in W. now injection W as <-.
Qed.

Lemma fix_relab_single_completes (oct_fixes : fix_table) (input : list string) (st : state) :
  read_lines oct_fixes init_state input = inl st ->
  forallb (rank_writable (unclassified_fraction st)) (assign_levels (taxa_levs st)) = true ->
  fix_relab_single oct_fixes input
  = {| output := List.app (wf st)
                   (rows_of_ranks (unclassified_fraction st) (assign_levels (taxa_levs st)));
       status := None |}.
Proof.
  intros H Hw. unfold fix_relab_single. rewrite H.
  now rewrite (write_levels_ok _ _ _ Hw).
Qed.

(** ** The conversion pipeline: what is read and what is written *)

Lemma gtdb_read_line_shape (sgb2gtdb : dict string) (s s' : gstate) (l : string) :
  gtdb_read_line sgb2gtdb s l = inl s' ->
  (exists sp, abundances s = dict_set init_abundances "s" sp) ->
  exists sp, abundances s' = dict_set init_abundances "s" sp.
Proof.
  unfold gtdb_read_line.
  destruct (Py.startswith l "#mpa_"); [intros [= <-]; simpl; auto|].
  destruct (Py.startswith l "UNCLASSIFIED").
  - destruct (text <- index (Py.split Py.TAB (Py.strip l)) 2;; float_ text);
      [intros [= <-]; simpl; auto|discriminate].
  - destruct (Py.contains "t__SGB" l); [|intros [= <-]; auto].
    match goal with |- match ?x with _ => _ end = _ -> _ =>
      destruct x as [[tax v]|] end; [|discriminate].
    intros [= <-] [sp Hsp]. simpl. rewrite Hsp, dict_set_set.
    eexists. reflexivity.
Qed.

Lemma gtdb_read_lines_shape (sgb2gtdb : dict string) (input : list string) (st : gstate) :
  gtdb_read_lines sgb2gtdb init_gstate input = inl st ->
  abundances st = dict_set init_abundances "s" (species_table st).
Proof.
  assert (G : forall input s s',
             (exists sp, abundances s = dict_set init_abundances "s" sp) ->
             gtdb_read_lines sgb2gtdb s input = inl s' ->
             exists sp, abundances s' = dict_set init_abundances "s" sp).
  { clear. induction input as [|l r IH]; intros s s' Hs H; simpl in H.
    - now injection H as <-.
    - destruct (gtdb_read_line sgb2gtdb s l) as [s1|] eqn:E; [|discriminate].
      apply (IH s1 s'); auto.
      now apply (gtdb_read_line_shape sgb2gtdb s s1 l). }
  intros H. destruct (G input init_gstate st) as [sp Hsp]; auto.
  - exists []. reflexivity.
  - unfold species_table. rewrite Hsp. reflexivity.
Qed.

(** The ranks in the order they are written: [tax_levels] reversed twice
    is [d, p, c, o, f, g, s], the rank of the domains first. *)
Lemma gtdb_aggregate_ladder (species : dict PyFloat.float) :
  map (level_of (gtdb_aggregate (dict_set init_abundances "s" species)))
    (rev (rev tax_levels))
  = gtdb_ladder 6 species.
Proof. reflexivity. Qed.

Lemma get_gtdb_profile_completes (sgb2gtdb : dict string) (input : list string) (st : gstate) :
  gtdb_read_lines sgb2gtdb init_gstate input = inl st ->
  forallb gtdb_rank_writable (gtdb_ladder 6 (species_table st)) = true ->
  get_gtdb_profile sgb2gtdb input
  = {| output := List.app (gwf st) (gtdb_rows_of_ranks (gtdb_ladder 6 (species_table st)));
       status := None |}.
Proof.
  intros H Hw. unfold get_gtdb_profile. rewrite H.
  rewrite gtdb_write_levels_ok;
    rewrite (gtdb_read_lines_shape _ _ _ H), gtdb_aggregate_ladder; auto.
Qed.

Lemma get_gtdb_profile_output (sgb2gtdb : dict string) (input : list string) (st : gstate) :
  gtdb_read_lines sgb2gtdb init_gstate input = inl st ->
  status (get_gtdb_profile sgb2gtdb input) = None ->
  output (get_gtdb_profile sgb2gtdb input)
  = List.app (gwf st) (gtdb_rows_of_ranks (gtdb_ladder 6 (species_table st))).
Proof.
  intros H Hs.
  assert (Hw : forallb gtdb_rank_writable (gtdb_ladder 6 (species_table st)) = true).
  { unfold get_gtdb_profile in Hs. rewrite H in Hs.
    destruct (gtdb_write_levels (gtdb_aggregate (abundances st)) (rev (rev tax_levels))
                (gwf st)) as [out|[out e]] eqn:W; [|discriminate].
    apply gtdb_write_levels_inv in W.
    now rewrite (gtdb_read_lines_shape _ _ _ H), gtdb_aggregate_ladder in W. }
  now rewrite (get_gtdb_profile_completes _ _ _ H Hw).
Qed.

(** ** C6: the value written for a taxon *)

(** C6, as the code has it. The single-column repair pipeline writes for every
    taxon of a rank the value [round(100 * value / total_sum, 5)], unless
    the total is zero, in which case the division fails at the first row
    of the rank.  The conversion pipeline writes [value * 100 / total]
    as it is, without rounding. *)
Theorem C6_value_written :
  (forall (total_sum : PyFloat.float) (d : dict entry) (out : list string),
      write_level total_sum d out
      = match d with
        | [] => inl out
        | _ :: _ =>
            if PyFloat.eqb total_sum PyFloat.zero then inr (out, ZeroDivisionError)
            else
              inl (List.app out
                     (map (fun kv : string * entry =>
                             row_text (fst kv)
                               (Entry (e_name (snd kv))
                                  (PyFloat.round5
                                     (SFdiv PyFloat.prec PyFloat.emax
                                        (PyFloat.mul PyFloat.hundred (e_value (snd kv)))
                                        total_sum))
                                  (e_extra (snd kv)))) d))
        end)
  /\ (forall (total : PyFloat.float) (d : dict PyFloat.float) (out : list string),
         gtdb_write_level total d out
         = match d with
           | [] => inl out
           | _ :: _ =>
               if PyFloat.eqb total PyFloat.zero then inr (out, ZeroDivisionError)
               else
                 inl (List.app out
                        (map (fun kv : string * PyFloat.float =>
                                fst kv ++ Py.tab
                                ++ PyFloat.str
                                     (SFdiv PyFloat.prec PyFloat.emax
                                        (PyFloat.mul (snd kv) PyFloat.hundred) total)
                                ++ Py.nl) d))
           end).
Proof.
  split; intros.
  - apply write_level_spec.
  - apply gtdb_write_level_spec.
Qed.

(** C6, counterexample: three species of value 1.0 each under one genus
    are written by the conversion pipeline as 33.333333333333336, which
    is not a value rounded to five decimal places. *)
Lemma C6_counterexample :
  get_gtdb_profile gtdb_three three_species
  = {| output :=
         [jun23_header;
          tsv ["#clade_name"; "relative_abundance"];
          tsv ["d__D"; "100.0"];
          tsv ["d__D;p__P"; "100.0"];
          tsv ["d__D;p__P;c__C"; "100.0"];
          tsv ["d__D;p__P;c__C;o__O"; "100.0"];
          tsv ["d__D;p__P;c__C;o__O;f__F"; "100.0"];
          tsv ["d__D;p__P;c__C;o__O;f__F;g__G"; "100.0"];
          tsv ["d__D;p__P;c__C;o__O;f__F;g__G;s__S1"; "33.333333333333336"];
          tsv ["d__D;p__P;c__C;o__O;f__F;g__G;s__S2"; "33.333333333333336"];
          tsv ["d__D;p__P;c__C;o__O;f__F;g__G;s__S3"; "33.333333333333336"]];
       status := None |}
  /\ exists v,
       PyFloat.of_string "33.333333333333336" = Some v
       /\ PyFloat.str (PyFloat.round5 v) = "33.33333"
       /\ PyFloat.round5 v <> v.
Proof.
  split; [vm_compute; reflexivity|].
  eexists. split; [vm_compute; reflexivity|].
  split; [vm_compute; reflexivity|].
  vm_compute. discriminate.
Qed.

(** ** C1: the denominator of a rank *)

Lemma in_rows_of_ranks (u : PyFloat.float) (t : levels) (d : dict entry)
    (tax : string) (e : entry) :
  In d t -> In (tax, e) d ->
  In (row_text tax (renormalised (PyFloat.add (sum_level d) u) e)) (rows_of_ranks u t).
Proof.
  intros Hd He. unfold rows_of_ranks. apply in_flat_map.
  exists d. split; auto.
  unfold rows_of_level, rank_total.
  apply (in_map (fun kv => row_text (fst kv)
                             (renormalised (PyFloat.add (sum_level d) u) (snd kv)))
           d (tax, e) He).
Qed.

Lemma in_gtdb_rows_of_ranks (ranks : list (dict PyFloat.float))
    (d : dict PyFloat.float) (tax : string) (v : PyFloat.float) :
  In d ranks -> In (tax, v) d ->
  In (tax ++ Py.tab ++ PyFloat.str (gtdb_scaled (total_of d) v) ++ Py.nl)
     (gtdb_rows_of_ranks ranks).
Proof.
  intros Hd Hv. unfold gtdb_rows_of_ranks. apply in_flat_map.
  exists d. split; auto.
  unfold gtdb_rows_of_level.
  apply (in_map (fun kv => fst kv ++ Py.tab
                           ++ PyFloat.str (gtdb_scaled (total_of d) (snd kv)) ++ Py.nl)
           d (tax, v) Hv).
Qed.

(** C1, as the code has it. In a completed run of the single-column repair
    pipeline every taxon of every rank is written with its value divided
    by the sum of the rank plus the unclassified fraction: the
    unclassified fraction is part of every rank's denominator.  In a
    completed run of the conversion pipeline every taxon is written with
    its value divided by the sum of its rank alone.  (The values written
    for a rank and the unclassified value need not add up to 100.) *)
Theorem C1_rank_denominators :
  (forall (oct_fixes : fix_table) (input : list string) (st : state)
          (d : dict entry) (tax : string) (e : entry),
      read_lines oct_fixes init_state input = inl st ->
      status (fix_relab_mpa4 oct_fixes input false) = None ->
      In d (assign_levels (taxa_levs st)) -> In (tax, e) d ->
      In (row_text tax
            (renormalised (PyFloat.add (sum_level d) (unclassified_fraction st)) e))
         (output (fix_relab_mpa4 oct_fixes input false)))
  /\ (forall (sgb2gtdb : dict string) (input : list string) (st : gstate)
             (d : dict PyFloat.float) (tax : string) (v : PyFloat.float),
         gtdb_read_lines sgb2gtdb init_gstate input = inl st ->
         status (get_gtdb_profile sgb2gtdb input) = None ->
         In d (gtdb_ladder 6 (species_table st)) -> In (tax, v) d ->
         In (tax ++ Py.tab ++ PyFloat.str (gtdb_scaled (total_of d) v) ++ Py.nl)
            (output (get_gtdb_profile sgb2gtdb input))).
Proof.
  split.
  - intros oct_fixes input st d tax e H Hs Hd He. simpl in *.
    rewrite (fix_relab_single_output _ _ _ H Hs).
    apply in_or_app. right. now apply in_rows_of_ranks.
  - intros sgb2gtdb input st d tax v H Hs Hd Hv.
    rewrite (get_gtdb_profile_output _ _ _ H Hs).
    apply in_or_app. right. now apply in_gtdb_rows_of_ranks.
Qed.

Lemma C1_rank_denominators_witness :
  let d := [("k__A", Entry "1" (PyFloat.of_Z 50) EmptyString)] in
  let e := Entry "1" (PyFloat.of_Z 50) EmptyString in
  exists st,
    read_lines [] init_state half_profile = inl st
    /\ status (fix_relab_mpa4 [] half_profile false) = None
    /\ In d (assign_levels (taxa_levs st))
    /\ In ("k__A", e) d
    /\ unclassified_fraction st = PyFloat.of_Z 10
    /\ In (row_text "k__A"
             (renormalised (PyFloat.add (sum_level d) (unclassified_fraction st)) e))
          (output (fix_relab_mpa4 [] half_profile false))
    /\ row_text "k__A"
         (renormalised (PyFloat.add (sum_level d) (unclassified_fraction st)) e)
       = tsv ["k__A"; "1"; "83.33333"; EmptyString].
Proof.
  cbv zeta.
  let r := eval vm_compute in (read_lines [] init_state half_profile) in
  match r with
  | inl ?s => pose (st := s)
  end.
  exists st.
  assert (H1 : read_lines [] init_state half_profile = inl st)
    by (vm_compute; reflexivity).
  assert (H2 : status (fix_relab_mpa4 [] half_profile false) = None)
    by (vm_compute; reflexivity).
  assert (H3 : In [("k__A", Entry "1" (PyFloat.of_Z 50) EmptyString)]
                 (assign_levels (taxa_levs st)))
    by (left; vm_compute; reflexivity).
  assert (H4 : In ("k__A", Entry "1" (PyFloat.of_Z 50) EmptyString)
                 [("k__A", Entry "1" (PyFloat.of_Z 50) EmptyString)])
    by (left; reflexivity).
  split; [exact H1|]. split; [exact H2|]. split; [exact H3|]. split; [exact H4|].
  split; [vm_compute; reflexivity|].
  split.
  - exact (proj1 C1_rank_denominators [] half_profile st _ _ _ H1 H2 H3 H4).
  - vm_compute. reflexivity.
Defined.

(** C1, counterexample.  With 50.0 for the only species and 10.0
    unclassified, the repair pipeline writes 83.33333 at every rank next to
    the unclassified line [10.0]: 93.33333 together.  With the same
    profile the conversion pipeline writes 100.0 at every rank next to
    [UNCLASSIFIED 10.0]: 110 together. *)
Lemma C1_counterexample :
  fix_relab_mpa4 [] half_profile false
  = {| output :=
         ["#mpa_vJun23_CHOCOPhlAnSGB_202403" ++ Py.nl;
          unclassified_line "10.0";
          tsv ["k__A"; "1"; "83.33333"; EmptyString];
          tsv ["k__A|p__B"; "1|2"; "83.33333"; EmptyString];
          tsv ["k__A|p__B|c__C"; "1|2|3"; "83.33333"; EmptyString];
          tsv ["k__A|p__B|c__C|o__D"; "1|2|3|4"; "83.33333"; EmptyString];
          tsv ["k__A|p__B|c__C|o__D|f__E"; "1|2|3|4|5"; "83.33333"; EmptyString];
          tsv ["k__A|p__B|c__C|o__D|f__E|g__F"; "1|2|3|4|5|6"; "83.33333"; EmptyString];
          tsv ["k__A|p__B|c__C|o__D|f__E|g__F|s__G"; "1|2|3|4|5|6|7"; "83.33333"; EmptyString];
          tsv [lineage_A; "1|2|3|4|5|6|7|"; "83.33333"; EmptyString]];
       status := None |}
  /\ get_gtdb_profile gtdb_one half_profile
     = {| output :=
            [jun23_header;
             tsv ["#clade_name"; "relative_abundance"];
             tsv ["UNCLASSIFIED"; "10.0"];
             tsv ["d__D"; "100.0"];
             tsv ["d__D;p__P"; "100.0"];
             tsv ["d__D;p__P;c__C"; "100.0"];
             tsv ["d__D;p__P;c__C;o__O"; "100.0"];
             tsv ["d__D;p__P;c__C;o__O;f__F"; "100.0"];
             tsv ["d__D;p__P;c__C;o__O;f__F;g__G"; "100.0"];
             tsv ["d__D;p__P;c__C;o__O;f__F;g__G;s__S"; "100.0"]];
          status := None |}
  /\ exists u v w,
       PyFloat.of_string "10.0" = Some u
       /\ PyFloat.of_string "83.33333" = Some v
       /\ PyFloat.of_string "100.0" = Some w
       /\ conserved [v] u = false
       /\ conserved [w] u = false.
Proof.
  split; [vm_compute; reflexivity|].
  split; [vm_compute; reflexivity|].
  do 3 eexists.
  split; [vm_compute; reflexivity|].
  split; [vm_compute; reflexivity|].
  split; [vm_compute; reflexivity|].
  split; vm_compute; reflexivity.
Qed.

(** ** C2: the end-to-end scenario *)

(** C2, as the code has it. For the scenario profile (Jun23 header, 5.0
    unclassified, one species under [p__Bacillota] with 95.0) the output
    header ends in [_202403], the unclassified line is the input line, the
    phylum is written as [p__Firmicutes], and every rank, the domain
    [d__Bacteria] included, has the value 95.0 = 100 * 95 / (95 + 5). *)
Theorem C2_scenario_output :
  fix_relab_mpa4 [] scenario false
  = {| output :=
         ["#mpa_vJun23_CHOCOPhlAnSGB_202403" ++ Py.nl;
          unclassified_line "5.0";
          tsv ["d__Bacteria"; "2"; "95.0"; EmptyString];
          tsv ["d__Bacteria|p__Firmicutes"; "2|1239"; "95.0"; EmptyString];
          tsv ["d__Bacteria|p__Firmicutes|c__Bacilli"; "2|1239|91061"; "95.0"; EmptyString];
          tsv ["d__Bacteria|p__Firmicutes|c__Bacilli|o__Lactobacillales";
               "2|1239|91061|186826"; "95.0"; EmptyString];
          tsv ["d__Bacteria|p__Firmicutes|c__Bacilli|o__Lactobacillales|f__Lactobacillaceae";
               "2|1239|91061|186826|33958"; "95.0"; EmptyString];
          tsv ["d__Bacteria|p__Firmicutes|c__Bacilli|o__Lactobacillales|f__Lactobacillaceae|g__Lactobacillus";
               "2|1239|91061|186826|33958|1578"; "95.0"; EmptyString];
          tsv ["d__Bacteria|p__Firmicutes|c__Bacilli|o__Lactobacillales|f__Lactobacillaceae|g__Lactobacillus|s__Foo";
               "2|1239|91061|186826|33958|1578|"; "95.0"; EmptyString];
          tsv ["d__Bacteria|p__Firmicutes|c__Bacilli|o__Lactobacillales|f__Lactobacillaceae|g__Lactobacillus|s__Foo|t__SGB1";
               "2|1239|91061|186826|33958|1578||"; "95.0"; EmptyString]];
       status := None |}.
Proof. vm_compute. reflexivity. Qed.

(** C2, counterexample: the row of [d__Bacteria] holds 95.0, and no line
    of the output holds 100.0. *)
Lemma C2_counterexample :
  nth 2 (output (fix_relab_mpa4 [] scenario false)) EmptyString
  = tsv ["d__Bacteria"; "2"; "95.0"; EmptyString]
  /\ existsb (Py.contains "100.0") (output (fix_relab_mpa4 [] scenario false)) = false.
Proof. split; vm_compute; reflexivity. Qed.

(** ** C5: the order of the ranks in the output *)

Lemma dict_get_keys {V} (d : dict V) (k : string) :
  In k (dict_keys d) -> dict_get d k <> None.
Proof.
  induction d as [|[k' v] r IH]; simpl; [contradiction|].
  intros [->|H].
  - now rewrite String.eqb_refl.
  - destruct (String.eqb k' k); [discriminate|auto].
Qed.

(** The lineages of the rank above are the lineages of the rank without
    their last segment. *)
Lemma rank_above_keys (d : dict entry) (gg : string) :
  In gg (dict_keys (rank_above d)) ->
  exists ss, In ss (dict_keys d) /\ gg = drop_last_segment "|" ss.
Proof.
  intros H. apply dict_get_keys in H.
  unfold rank_above in H. rewrite roll_up_get in H.
  unfold rolled_up in H. simpl in H.
  destruct (children_of gg d) as [|[ss c] rest] eqn:E; [contradiction|].
  assert (Hin : In (ss, c) (children_of gg d)) by (rewrite E; now left).
  apply filter_In in Hin as [Hin Hk]. simpl in Hk.
  apply String.eqb_eq in Hk.
  exists ss. split; auto.
  now apply (in_map fst d (ss, c)).
Qed.

Lemma gtdb_rank_above_keys (d : dict PyFloat.float) (k : string) :
  In k (dict_keys (gtdb_rank_above d)) ->
  exists tax, In tax (dict_keys d) /\ k = gtdb_parent tax.
Proof.
  intros H. apply dict_get_keys in H.
  unfold gtdb_rank_above in H. rewrite gtdb_roll_up_get in H.
  unfold gtdb_rolled_up in H. simpl in H.
  destruct (gtdb_children_of k d) as [|[tax v] rest] eqn:E; [contradiction|].
  assert (Hin : In (tax, v) (gtdb_children_of k d)) by (rewrite E; now left).
  apply filter_In in Hin as [Hin Hk]. simpl in Hk.
  apply String.eqb_eq in Hk.
  exists tax. split; auto.
  now apply (in_map fst d (tax, v)).
Qed.

Lemma write_level_merged_rows (sums u : vector) (d : dict nat) :
  forall h out h' out',
    write_level_merged sums u d h out = inl (h', out') ->
    exists rows, out' = List.app out rows /\ Forall2 merged_row_of d rows.
Proof.
  induction d as [|[tax a] r IH]; intros h out h' out' H; simpl in H.
  - injection H as <- <-. exists []. split; [now rewrite app_nil_r|constructor].
  - destruct (renormalise_cells sums u (load h a)) as [row|e]; [|discriminate].
    apply IH in H as (rows & -> & HF).
    exists (row_text_merged tax row :: rows). split.
    + now rewrite emit_app.
    + constructor; auto. now exists row.
Qed.

Lemma write_levels_merged_rows (u : vector) (t : list (dict nat)) :
  forall sums h out out',
    write_levels_merged sums u t h out = inl out' ->
    exists rows, out' = List.app out rows /\ Forall2 merged_row_of (List.concat t) rows.
Proof.
  induction t as [|d rest IH]; intros sums h out out' H; simpl in H.
  - injection H as <-. exists []. split; [now rewrite app_nil_r|constructor].
  - destruct (write_level_merged (nth 0 sums []) u d h out) as [[h1 out1]|e] eqn:W;
      [|discriminate].
    apply write_level_merged_rows in W as (rows1 & -> & HF1).
    apply IH in H as (rows2 & -> & HF2).
    exists (List.app rows1 rows2). split.
    + now rewrite app_assoc.
    + simpl. now apply Forall2_app.
Qed.

(** What a completed run on a merged profile has written. *)
Lemma fix_relab_merged_output (oct_fixes : fix_table) (input : list string) (st : mstate) :
  read_lines_merged oct_fixes init_mstate input = inl st ->
  status (fix_relab_merged oct_fixes input) = None ->
  exists h t rows,
    assign_levels_merged (m_heap st, m_levs st) = Ok (h, t)
    /\ output (fix_relab_merged oct_fixes input) = List.app (m_wf st) rows
    /\ Forall2 merged_row_of (List.concat t) rows.
Proof.
  intros H. unfold fix_relab_merged. rewrite H. unfold complete_merged.
  destruct (assign_levels_merged (m_heap st, m_levs st)) as [[h t]|e];
    [|discriminate].
  destruct (m_ncols st) as [ncols|]; [|discriminate].
  destruct (sum_levels_merged h ncols t) as [sums|e]; [|discriminate].
  match goal with |- status (finish ?w) = None -> _ =>
    destruct w as [out|[out e]] eqn:W end; [intros _|discriminate].
  apply write_levels_merged_rows in W as (rows & -> & HF).
  exists h, t, rows. auto.
Qed.

(** C5, as the code has it. Both pipelines write the taxon rows rank by rank
    from the shallowest rank to the deepest.  A completed run of the
    single-column repair pipeline writes, after the lines passed through,
    the rows of the seven-fold roll-up of the table read, then of the
    six-fold one, and so on down to the table read itself; a completed run
    on a merged profile writes the rows of [taxa_levs[0]] to
    [taxa_levs[7]] in this order; a completed run of the conversion
    pipeline writes the rows of the six-fold roll-up of the species table
    first and the species table last.  The lineages of a rolled-up rank
    are lineages of the rank below with the last segment removed.  Only
    the aggregation runs from the deepest rank upwards. *)
Theorem C5_ranks_written_shallowest_first :
  (forall (oct_fixes : fix_table) (input : list string) (st : state),
      read_lines oct_fixes init_state input = inl st ->
      status (fix_relab_mpa4 oct_fixes input false) = None ->
      output (fix_relab_mpa4 oct_fixes input false)
      = List.app (wf st)
          (rows_of_ranks (unclassified_fraction st) (ladder 7 (leaf_table st))))
  /\ (forall (oct_fixes : fix_table) (input : list string) (st : mstate),
         read_lines_merged oct_fixes init_mstate input = inl st ->
         status (fix_relab_mpa4 oct_fixes input true) = None ->
         exists h t rows,
           assign_higher_taxonomic_levels true (m_heap st, m_levs st) = Ok (h, t)
           /\ output (fix_relab_mpa4 oct_fixes input true) = List.app (m_wf st) rows
           /\ Forall2 merged_row_of (List.concat t) rows)
  /\ (forall (sgb2gtdb : dict string) (input : list string) (st : gstate),
         gtdb_read_lines sgb2gtdb init_gstate input = inl st ->
         status (get_gtdb_profile sgb2gtdb input) = None ->
         output (get_gtdb_profile sgb2gtdb input)
         = List.app (gwf st) (gtdb_rows_of_ranks (gtdb_ladder 6 (species_table st))))
  /\ (forall (d : dict entry) (gg : string),
         In gg (dict_keys (rank_above d)) ->
         exists ss, In ss (dict_keys d) /\ gg = drop_last_segment "|" ss)
  /\ (forall (d : dict PyFloat.float) (k : string),
         In k (dict_keys (gtdb_rank_above d)) ->
         exists tax, In tax (dict_keys d) /\ k = gtdb_parent tax).
Proof.
  split; [|split; [|split; [|split]]].
  - intros oct_fixes input st H Hs. simpl in *.
    rewrite (fix_relab_single_output _ _ _ H Hs).
    now rewrite (read_lines_levels_shape _ _ _ H), assign_levels_ladder.
  - intros oct_fixes input st H Hs. simpl in *.
    now apply fix_relab_merged_output.
  - intros sgb2gtdb input st H Hs.
    now apply get_gtdb_profile_output.
  - exact rank_above_keys.
  - exact gtdb_rank_above_keys.
Qed.

Lemma C5_ranks_written_shallowest_first_witness :
  exists st,
    gtdb_read_lines gtdb_one init_gstate half_profile = inl st
    /\ status (get_gtdb_profile gtdb_one half_profile) = None
    /\ output (get_gtdb_profile gtdb_one half_profile)
       = List.app (gwf st) (gtdb_rows_of_ranks (gtdb_ladder 6 (species_table st)))
    /\ gtdb_rows_of_ranks (gtdb_ladder 6 (species_table st))
       = [tsv ["d__D"; "100.0"];
          tsv ["d__D;p__P"; "100.0"];
          tsv ["d__D;p__P;c__C"; "100.0"];
          tsv ["d__D;p__P;c__C;o__O"; "100.0"];
          tsv ["d__D;p__P;c__C;o__O;f__F"; "100.0"];
          tsv ["d__D;p__P;c__C;o__O;f__F;g__G"; "100.0"];
          tsv ["d__D;p__P;c__C;o__O;f__F;g__G;s__S"; "100.0"]].
Proof.
  let r := eval vm_compute in (gtdb_read_lines gtdb_one init_gstate half_profile) in
  match r with
  | inl ?s => pose (st := s)
  end.
  exists st.
  assert (H1 : gtdb_read_lines gtdb_one init_gstate half_profile = inl st)
    by (vm_compute; reflexivity).
  assert (H2 : status (get_gtdb_profile gtdb_one half_profile) = None)
    by (vm_compute; reflexivity).
  split; [exact H1|]. split; [exact H2|].
  split.
  - exact (proj1 (proj2 (proj2 C5_ranks_written_shallowest_first))
             gtdb_one half_profile st H1 H2).
  - vm_compute. reflexivity.
Defined.

(** C5, counterexample: the conversion pipeline writes the domain first
    and the species last. *)
Lemma C5_counterexample :
  let out := output (get_gtdb_profile gtdb_three three_species) in
  status (get_gtdb_profile gtdb_three three_species) = None
  /\ List.length out = 11
  /\ nth 2 out EmptyString = tsv ["d__D"; "100.0"]
  /\ nth 3 out EmptyString = tsv ["d__D;p__P"; "100.0"]
  /\ nth 7 out EmptyString = tsv ["d__D;p__P;c__C;o__O;f__F;g__G"; "100.0"]
  /\ nth 10 out EmptyString
     = tsv ["d__D;p__P;c__C;o__O;f__F;g__G;s__S3"; "33.333333333333336"].
Proof. cbv zeta. repeat split; vm_compute; reflexivity. Qed.

(** ** C8: the unclassified line *)

Lemma prefix_head (p s : string) (a : ascii) :
  String.prefix (String a p) s = true -> exists s', s = String a s'.
Proof.
  destruct s as [|b s]; simpl; [discriminate|].
  destruct (Ascii.ascii_dec a b) as [->|]; [eauto|discriminate].
Qed.

Lemma prefix_other_head (p s : string) (a b : ascii) :
  a <> b -> String.prefix (String b p) (String a s) = false.
Proof.
  intros H. simpl. destruct (Ascii.ascii_dec b a) as [->|]; [contradiction|reflexivity].
Qed.

Lemma unclassified_not_comment (line : string) :
  is_unclassified line = true ->
  Py.startswith line "#mpa_v" = false
  /\ (Py.startswith line "#" || Py.startswith line "clade_name") = false
  /\ Py.startswith line "#mpa_" = false.
Proof.
  unfold is_unclassified, Py.startswith. intros H.
  apply prefix_head in H as [s' ->].
  rewrite !prefix_other_head by discriminate. auto.
Qed.

Lemma in_emit (out : list string) (s x : string) :
  In x out -> In x (emit out s).
Proof. intros H. unfold emit. apply in_or_app. now left. Qed.

Lemma in_emit_new (out : list string) (s : string) : In s (emit out s).
Proof. unfold emit. apply in_or_app. right. now left. Qed.

(** The reading loops only append to the output. *)
Lemma read_line_keeps (oct_fixes : fix_table) (st st' : state) (line x : string) :
  read_line oct_fixes st line = inl st' -> In x (wf st) -> In x (wf st').
Proof.
  unfold read_line.
  destruct (Py.startswith line "#mpa_v");
    [intros [= <-]; simpl; apply in_emit|].
  destruct (Py.startswith line "#" || Py.startswith line "clade_name");
    [intros [= <-]; simpl; apply in_emit|].
  destruct (Py.startswith line "UNCLASSIFIED").
  - destruct (text <- index (Py.split Py.TAB line) 2;; float_ text);
      [intros [= <-]; simpl; apply in_emit|discriminate].
  - destruct (Py.contains "t__" line); [|intros [= <-]; auto].
    destruct (leaf_assignment oct_fixes (release st) line) as [[k e]|];
      [intros [= <-]; auto|discriminate].
Qed.

Lemma read_line_unclassified (oct_fixes : fix_table) (st st' : state) (line : string) :
  is_unclassified line = true ->
  read_line oct_fixes st line = inl st' -> In line (wf st').
Proof.
  intros Hu. destruct (unclassified_not_comment _ Hu) as (H1 & H2 & _).
  unfold is_unclassified in Hu. unfold read_line. rewrite H1, H2, Hu.
  destruct (text <- index (Py.split Py.TAB line) 2;; float_ text);
    [intros [= <-]; simpl; apply in_emit_new|discriminate].
Qed.

Lemma read_lines_unclassified (oct_fixes : fix_table) (input : list string) (line : string) :
  In line input -> is_unclassified line = true ->
  forall st st', read_lines oct_fixes st input = inl st' -> In line (wf st').
Proof.
  intros Hin Hu.
  assert (K : forall input st st' x,
             read_lines oct_fixes st input = inl st' -> In x (wf st) -> In x (wf st')).
  { clear. induction input as [|l r IH]; intros st st' x H Hx; simpl in H.
    - now injection H as <-.
    - destruct (read_line oct_fixes st l) as [s1|] eqn:E; [|discriminate].
      eapply IH; eauto. eapply read_line_keeps; eauto. }
  induction input as [|l r IH]; intros st st' H; [contradiction|].
  simpl in H.
  destruct (read_line oct_fixes st l) as [s1|] eqn:E; [|discriminate].
  destruct Hin as [->|Hin].
  - eapply K; eauto. eapply read_line_unclassified; eauto.
  - eapply IH; eauto.
Qed.

Lemma read_line_merged_keeps (oct_fixes : fix_table) (st st' : mstate) (line x : string) :
  read_line_merged oct_fixes st line = inl st' -> In x (m_wf st) -> In x (m_wf st').
Proof.
  unfold read_line_merged. destruct st as [h t rel u nc out]. simpl.
  destruct (Py.startswith line "#mpa_v");
    [intros [= <-]; simpl; apply in_emit|].
  destruct (Py.startswith line "#" || Py.startswith line "clade_name");
    [intros [= <-]; simpl; apply in_emit|].
  destruct (Py.startswith line "UNCLASSIFIED").
  - destruct (floats (tl (Py.split Py.TAB line)));
      [intros [= <-]; simpl; apply in_emit|discriminate].
  - destruct (Py.contains "t__" line); [|intros [= <-]; auto].
    destruct (leaf_assignment_merged oct_fixes rel line) as [[f v]|];
      [intros [= <-]; auto|discriminate].
Qed.

Lemma read_line_merged_unclassified (oct_fixes : fix_table) (st st' : mstate)
    (line : string) :
  is_unclassified line = true ->
  read_line_merged oct_fixes st line = inl st' -> In line (m_wf st').
Proof.
  intros Hu. destruct (unclassified_not_comment _ Hu) as (H1 & H2 & _).
  unfold is_unclassified in Hu. unfold read_line_merged.
  destruct st as [h t rel u nc out]. rewrite H1, H2, Hu.
  destruct (floats (tl (Py.split Py.TAB line)));
    [intros [= <-]; simpl; apply in_emit_new|discriminate].
Qed.

Lemma read_lines_merged_unclassified (oct_fixes : fix_table) (input : list string)
    (line : string) :
  In line input -> is_unclassified line = true ->
  forall st st', read_lines_merged oct_fixes st input = inl st' -> In line (m_wf st').
Proof.
  intros Hin Hu.
  assert (K : forall input st st' x,
             read_lines_merged oct_fixes st input = inl st' ->
             In x (m_wf st) -> In x (m_wf st')).
  { clear. induction input as [|l r IH]; intros st st' x H Hx; simpl in H.
    - now injection H as <-.
    - destruct (read_line_merged oct_fixes st l) as [s1|] eqn:E; [|discriminate].
      eapply IH; eauto. eapply read_line_merged_keeps; eauto. }
  induction input as [|l r IH]; intros st st' H; [contradiction|].
  simpl in H.
  destruct (read_line_merged oct_fixes st l) as [s1|] eqn:E; [|discriminate].
  destruct Hin as [->|Hin].
  - eapply K; eauto. eapply read_line_merged_unclassified; eauto.
  - eapply IH; eauto.
Qed.

(** C8, as the code has it. The repair pipeline, on single-column and on merged
    profiles, writes every line that starts with [UNCLASSIFIED] to the
    output as it was read.  The conversion pipeline does not: it writes
    [UNCLASSIFIED], a tab, the text of the float parsed from the third
    field of the line and a line feed. *)
Theorem C8_unclassified_line :
  (forall (oct_fixes : fix_table) (merged : bool) (input : list string) (line : string),
      In line input -> is_unclassified line = true ->
      status (fix_relab_mpa4 oct_fixes input merged) = None ->
      In line (output (fix_relab_mpa4 oct_fixes input merged)))
  /\ (forall (sgb2gtdb : dict string) (st : gstate) (line : string),
         is_unclassified line = true ->
         gtdb_read_line sgb2gtdb st line
         = match (text <- index (Py.split Py.TAB (Py.strip line)) 2 ;; float_ text) with
           | inl u =>
               inl (GState u (abundances st)
                      (emit (gwf st) ("UNCLASSIFIED" ++ Py.tab ++ PyFloat.str u ++ Py.nl)))
           | inr e => inr (gwf st, e)
           end).
Proof.
  split.
  - intros oct_fixes merged input line Hin Hu Hs. destruct merged; simpl in *.
    + destruct (read_lines_merged oct_fixes init_mstate input) as [st|[out e]] eqn:R.
      * destruct (fix_relab_merged_output _ _ _ R Hs) as (h & t & rows & _ & -> & _).
        apply in_or_app. left.
        eapply read_lines_merged_unclassified; eauto.
      * unfold fix_relab_merged in Hs. rewrite R in Hs. discriminate.
    + destruct (read_lines oct_fixes init_state input) as [st|[out e]] eqn:R.
      * rewrite (fix_relab_single_output _ _ _ R Hs).
        apply in_or_app. left.
        eapply read_lines_unclassified; eauto.
      * unfold fix_relab_single in Hs. rewrite R in Hs. discriminate.
  - intros sgb2gtdb st line Hu.
    destruct (unclassified_not_comment _ Hu) as (_ & _ & H3).
    unfold is_unclassified in Hu. unfold gtdb_read_line. now rewrite H3, Hu.
Qed.

Lemma C8_unclassified_line_witness :
  In (unclassified_line "5.0") scenario
  /\ is_unclassified (unclassified_line "5.0") = true
  /\ status (fix_relab_mpa4 [] scenario false) = None
  /\ In (unclassified_line "5.0") (output (fix_relab_mpa4 [] scenario false)).
Proof.
  assert (H1 : In (unclassified_line "5.0") scenario) by (right; left; reflexivity).
  assert (H2 : is_unclassified (unclassified_line "5.0") = true) by reflexivity.
  assert (H3 : status (fix_relab_mpa4 [] scenario false) = None)
    by (vm_compute; reflexivity).
  split; [exact H1|]. split; [exact H2|]. split; [exact H3|].
  exact (proj1 C8_unclassified_line [] false scenario (unclassified_line "5.0") H1 H2 H3).
Defined.

(** C8, counterexample: the conversion pipeline reads the line
    [UNCLASSIFIED<TAB>-1<TAB>5.0<TAB>] and writes [UNCLASSIFIED<TAB>5.0]. *)
Lemma C8_counterexample :
  get_gtdb_profile gtdb_one [unclassified_line "5.0"]
  = {| output := [tsv ["UNCLASSIFIED"; "5.0"]]; status := None |}
  /\ existsb (String.eqb (unclassified_line "5.0"))
       (output (get_gtdb_profile gtdb_one [unclassified_line "5.0"])) = false.
Proof. split; vm_compute; reflexivity. Qed.

(* ===================================================================== *)
(** * The table files *)
(* ===================================================================== *)

Lemma fold_oct22_fix_line_error (lines : list string) (e : error) :
  fold_left oct22_fix_line lines (inr e) = inr e.
Proof. induction lines as [|l r IH]; simpl; auto. Qed.

Lemma fold_sgb2gtdb_line_error (lines : list string) (e : error) :
  fold_left sgb2gtdb_line lines (inr e) = inr e.
Proof. induction lines as [|l r IH]; simpl; auto. Qed.

Lemma oct22_fix_line_cases (t : fix_table) (l : string) :
  match oct22_fix_line (Ok t) l with
  | inl t' =>
      three_fields l = true
      /\ exists old new id,
           Py.split Py.TAB l = [old; new; id]
           /\ t' = dict_set t old (new, Py.strip id)
  | inr e => e = ValueError /\ three_fields l = false
  end.
Proof.
  unfold oct22_fix_line, three_fields, bind, Ok, Raise.
  destruct (Py.split Py.TAB l) as [|a [|b [|c [|d r]]]]; simpl; auto.
  split; auto. now exists a, b, c.
Qed.

Lemma fold_oct22_fix_line_format (lines : list string) :
  forall t,
    match fold_left oct22_fix_line lines (Ok t) with
    | inl _ => forallb three_fields lines = true
    | inr e => e = ValueError /\ forallb three_fields lines = false
    end.
Proof.
  induction lines as [|l r IH]; intros t; cbn [fold_left forallb]; [reflexivity|].
  pose proof (oct22_fix_line_cases t l) as H.
  destruct (oct22_fix_line (Ok t) l) as [t'|e].
  - destruct H as [-> _]. apply IH.
  - destruct H as [-> ->]. now rewrite fold_oct22_fix_line_error.
Qed.

(** The table of Oct22 corrections is read if and only if every line
    after the first splits into exactly three tab-separated fields;
    any other line, a blank last line included, ends the reading with
    [ValueError].  The first line is never looked at, and a file that is
    empty or holds only that line gives the empty table. *)
Theorem oct22_table_needs_three_fields (file : list string) :
  match read_oct22_fixes file with
  | inl _ => forallb three_fields (tl file) = true
  | inr e => e = ValueError /\ forallb three_fields (tl file) = false
  end
  /\ (List.length file <= 1 -> read_oct22_fixes file = Ok [])
  /\ (forall header lines,
         read_oct22_fixes (header :: List.app lines [Py.nl]) = Raise ValueError).
Proof.
  assert (F : forall file,
             match read_oct22_fixes file with
             | inl _ => forallb three_fields (tl file) = true
             | inr e => e = ValueError /\ forallb three_fields (tl file) = false
             end)
    by (intros f; apply fold_oct22_fix_line_format).
  split; [apply F|]. split.
  - destruct file as [|h [|l r]]; simpl; auto; lia.
  - intros header lines.
    pose proof (F (header :: List.app lines [Py.nl])) as H.
    destruct (read_oct22_fixes (header :: List.app lines [Py.nl])) as [t|e].
    + cbn [tl] in H. rewrite forallb_app in H.
      apply andb_true_iff in H. destruct H as [_ H]. discriminate.
    + now destruct H as [-> _].
Qed.

Lemma fold_oct22_fix_line_ok (lines : list string) (acc : result fix_table) (t : fix_table) :
  fold_left oct22_fix_line lines acc = Ok t -> exists t0, acc = Ok t0.
Proof.
  destruct acc as [t0|e]; [now exists t0|].
  rewrite fold_oct22_fix_line_error. discriminate.
Qed.

Lemma fold_oct22_fix_line_keeps (old : string) (lines : list string) :
  forall t0 t,
    fold_left oct22_fix_line lines (Ok t0) = Ok t ->
    Forall (fun l => oct22_key l <> old) lines ->
    dict_get t old = dict_get t0 old.
Proof.
  induction lines as [|l r IH]; intros t0 t H F; cbn [fold_left] in H.
  - now injection H as <-.
  - inversion F as [|? ? Hl Hr]; subst.
    destruct (fold_oct22_fix_line_ok _ _ _ H) as (t1 & E).
    rewrite E in H. rewrite (IH _ _ H Hr).
    pose proof (oct22_fix_line_cases t0 l) as C. rewrite E in C.
    destruct C as (_ & o & n & i & Hs & ->).
    apply dict_get_set_other.
    unfold oct22_key in Hl. now rewrite Hs in Hl.
Qed.

(** When the same old lineage is listed more than once in the table of
    Oct22 corrections, the last line decides: the table holds its new
    lineage and its identifier without surrounding white space, and a
    data line of an Oct22 profile whose first field is the old lineage
    gets the new lineage and, in a single-column profile, the new
    identifier; in a merged profile only the lineage is replaced. *)
Theorem oct22_table_last_line_wins (header : string) (pre post : list string)
    (l old new id : string) (t : fix_table) :
  read_oct22_fixes (header :: List.app pre (l :: post)) = Ok t ->
  Py.split Py.TAB l = [old; new; id] ->
  Forall (fun l' => oct22_key l' <> old) post ->
  dict_get t old = Some (new, Py.strip id)
  /\ (forall line ids rest,
         Py.split Py.TAB (Py.strip line) = old :: ids :: rest ->
         fix_fields t false (Some OCT22) line = Ok (new :: Py.strip id :: rest)
         /\ fix_fields t true (Some OCT22) line = Ok (new :: ids :: rest)).
Proof.
  intros R Hl Hp.
  assert (G : dict_get t old = Some (new, Py.strip id)).
  { unfold read_oct22_fixes in R. cbn [tl] in R.
    rewrite fold_left_app in R. cbn [fold_left] in R.
    destruct (fold_oct22_fix_line_ok _ _ _ R) as (t1 & E1).
    rewrite E1 in R.
    destruct (fold_left oct22_fix_line pre (Ok [])) as [t0|e0] eqn:E0;
      [|discriminate].
    rewrite (fold_oct22_fix_line_keeps old post _ _ R Hp).
    pose proof (oct22_fix_line_cases t0 l) as C.
    unfold Ok in C, E1. rewrite E1 in C.
    destruct C as (_ & o & n & i & Hs & ->).
    rewrite Hl in Hs. injection Hs as <- <- <-.
    apply dict_get_set_same. }
  split; [exact G|].
  intros line ids rest Hf.
  unfold fix_fields.
  replace (release_is (Some OCT22) JUN23) with false by reflexivity.
  replace (release_is (Some OCT22) OCT22) with true by reflexivity.
  cbv zeta. rewrite Hf, G. split; reflexivity.
Qed.

Lemma oct22_table_last_line_wins_witness :
  let file := ["old" ++ Py.tab ++ "new" ++ Py.tab ++ "id" ++ Py.nl;
               tsv ["s__A|t__SGB1"; "s__B|t__SGB1"; "1|2"];
               tsv ["s__A|t__SGB1"; "s__C|t__SGB1"; "1|3"];
               tsv ["s__D|t__SGB2"; "s__E|t__SGB2"; "4|5"]] in
  exists t,
    read_oct22_fixes file = Ok t
    /\ dict_get t "s__A|t__SGB1" = Some ("s__C|t__SGB1", "1|3")
    /\ fix_fields t false (Some OCT22) (species_line "s__A|t__SGB1" "1|9" "2.5")
       = Ok ["s__C|t__SGB1"; "1|3"; "2.5"].
Proof.
  cbv zeta.
  eexists. split; [vm_compute; reflexivity|].
  pose proof (oct22_table_last_line_wins
                ("old" ++ Py.tab ++ "new" ++ Py.tab ++ "id" ++ Py.nl)
                [tsv ["s__A|t__SGB1"; "s__B|t__SGB1"; "1|2"]]
                [tsv ["s__D|t__SGB2"; "s__E|t__SGB2"; "4|5"]]
                (tsv ["s__A|t__SGB1"; "s__C|t__SGB1"; "1|3"])
                "s__A|t__SGB1" "s__C|t__SGB1" ("1|3" ++ Py.nl) _
                ltac:(vm_compute; reflexivity) ltac:(vm_compute; reflexivity)
                ltac:(repeat constructor; vm_compute; discriminate)) as [G F].
  split; [exact G|].
  exact (proj1 (F (species_line "s__A|t__SGB1" "1|9" "2.5") "1|9" ["2.5"]
                  ltac:(vm_compute; reflexivity))).
Defined.

Lemma sgb2gtdb_line_cases (t : dict string) (l : string) :
  match sgb2gtdb_line (Ok t) l with
  | inl t' =>
      two_fields l = true
      /\ exists k v rest,
           Py.split Py.TAB (Py.strip l) = k :: v :: rest /\ t' = dict_set t k v
  | inr e => e = IndexError /\ two_fields l = false
  end.
Proof.
  unfold sgb2gtdb_line, two_fields, bind, Ok, Raise, index.
  destruct (Py.split Py.TAB (Py.strip l)) as [|a [|b r]]; simpl; auto.
  split; auto. now exists a, b, r.
Qed.

Lemma fold_sgb2gtdb_line_format (lines : list string) :
  forall t,
    match fold_left sgb2gtdb_line lines (Ok t) with
    | inl _ => forallb two_fields lines = true
    | inr e => e = IndexError /\ forallb two_fields lines = false
    end.
Proof.
  induction lines as [|l r IH]; intros t; cbn [fold_left forallb]; [reflexivity|].
  pose proof (sgb2gtdb_line_cases t l) as H.
  destruct (sgb2gtdb_line (Ok t) l) as [t'|e].
  - destruct H as [-> _]. apply IH.
  - destruct H as [-> ->]. now rewrite fold_sgb2gtdb_line_error.
Qed.

Lemma fold_sgb2gtdb_line_ok (lines : list string) (acc : result (dict string))
    (t : dict string) :
  fold_left sgb2gtdb_line lines acc = Ok t -> exists t0, acc = Ok t0.
Proof.
  destruct acc as [t0|e]; [now exists t0|].
  rewrite fold_sgb2gtdb_line_error. discriminate.
Qed.

Lemma fold_sgb2gtdb_line_keeps (k : string) (lines : list string) :
  forall t0 t,
    fold_left sgb2gtdb_line lines (Ok t0) = Ok t ->
    Forall (fun l => sgb2gtdb_key l <> k) lines ->
    dict_get t k = dict_get t0 k.
Proof.
  induction lines as [|l r IH]; intros t0 t H F; cbn [fold_left] in H.
  - now injection H as <-.
  - inversion F as [|? ? Hl Hr]; subst.
    destruct (fold_sgb2gtdb_line_ok _ _ _ H) as (t1 & E).
    rewrite E in H. rewrite (IH _ _ H Hr).
    pose proof (sgb2gtdb_line_cases t0 l) as C. rewrite E in C.
    destruct C as (_ & o & n & i & Hs & ->).
    apply dict_get_set_other.
    unfold sgb2gtdb_key in Hl. now rewrite Hs in Hl.
Qed.

(** The SGB-to-GTDB table is read if and only if every line of the
    file, the first included, has at least two tab-separated fields once
    stripped; a line without a tab (a blank line, for one) ends the
    reading with [IndexError], and then no run takes place: the output
    file has not been opened yet. *)
Theorem sgb2gtdb_table_needs_two_fields (file input : list string) :
  match read_sgb2gtdb file with
  | inl _ => forallb two_fields file = true
  | inr e => e = IndexError /\ forallb two_fields file = false
  end
  /\ (forallb two_fields file = false ->
      get_gtdb_profile_of_table file input = Raise IndexError).
Proof.
  assert (F : match read_sgb2gtdb file with
              | inl _ => forallb two_fields file = true
              | inr e => e = IndexError /\ forallb two_fields file = false
              end) by apply fold_sgb2gtdb_line_format.
  split; [exact F|].
  intros H. unfold get_gtdb_profile_of_table, bind.
  destruct (read_sgb2gtdb file) as [t|e].
  - congruence.
  - now destruct F as [-> _].
Qed.

Lemma sgb2gtdb_table_needs_two_fields_witness :
  forallb two_fields [tsv ["SGB1"; "d__D;s__S"]; Py.nl] = false
  /\ get_gtdb_profile_of_table [tsv ["SGB1"; "d__D;s__S"]; Py.nl] half_profile
     = Raise IndexError.
Proof.
  split; [reflexivity|].
  apply (proj2 (sgb2gtdb_table_needs_two_fields
                  [tsv ["SGB1"; "d__D;s__S"]; Py.nl] half_profile)).
  reflexivity.
Defined.

Lemma gtdb_read_lines_app (sgb2gtdb : dict string) (l1 l2 : list string) (st : gstate) :
  gtdb_read_lines sgb2gtdb st (List.app l1 l2)
  = match gtdb_read_lines sgb2gtdb st l1 with
    | inl st' => gtdb_read_lines sgb2gtdb st' l2
    | inr e => inr e
    end.
Proof.
  revert st. induction l1 as [|l r IH]; intros st; simpl; auto.
  destruct (gtdb_read_line sgb2gtdb st l); auto.
Qed.

Lemma gtdb_is_data_line_inv (line : string) :
  gtdb_is_data_line line = true ->
  Py.startswith line "#mpa_" = false
  /\ Py.startswith line "UNCLASSIFIED" = false
  /\ Py.contains "t__SGB" line = true.
Proof.
  unfold gtdb_is_data_line. intros H.
  apply andb_true_iff in H. destruct H as [H H3].
  apply andb_true_iff in H. destruct H as [H1 H2].
  apply negb_true_iff in H1, H2. auto.
Qed.

Lemma gtdb_read_line_data (sgb2gtdb : dict string) (st : gstate) (line g : string)
    (v : PyFloat.float) :
  gtdb_is_data_line line = true ->
  dict_get sgb2gtdb (gtdb_sgb_of line) = Some g ->
  gtdb_value_of line = Ok v ->
  gtdb_read_line sgb2gtdb st line
  = inl (GState (unclassified st)
           (dict_set (abundances st) "s" (accumulate (species_table st) g v))
           (gwf st)).
Proof.
  intros D G V. apply gtdb_is_data_line_inv in D. destruct D as (H1 & H2 & H3).
  unfold gtdb_read_line. rewrite H1, H2, H3. cbv zeta.
  fold (gtdb_sgb_of line). rewrite G.
  unfold gtdb_value_of, bind in V |- *.
  destruct (index (Py.split Py.TAB (Py.strip line)) 2) as [text|e]; [|discriminate].
  now rewrite V.
Qed.

Lemma gtdb_read_line_unknown (sgb2gtdb : dict string) (st : gstate) (line : string) :
  gtdb_is_data_line line = true ->
  dict_get sgb2gtdb (gtdb_sgb_of line) = None ->
  gtdb_read_line sgb2gtdb st line = inr (gwf st, KeyError (gtdb_sgb_of line)).
Proof.
  intros D G. apply gtdb_is_data_line_inv in D. destruct D as (H1 & H2 & H3).
  unfold gtdb_read_line. rewrite H1, H2, H3. cbv zeta.
  fold (gtdb_sgb_of line). rewrite G. reflexivity.
Qed.

(** When the same SGB is listed more than once in the SGB-to-GTDB
    table, the last line decides, and the first line of the file is an
    entry like any other (no header is skipped); fields after the second
    are not looked at.  A profile line of that SGB then adds its value to
    the row of the GTDB lineage of that line. *)
Theorem sgb2gtdb_table_last_line_wins (pre post : list string) (l k g : string)
    (rest : list string) (t : dict string) :
  read_sgb2gtdb (List.app pre (l :: post)) = Ok t ->
  Py.split Py.TAB (Py.strip l) = k :: g :: rest ->
  Forall (fun l' => sgb2gtdb_key l' <> k) post ->
  dict_get t k = Some g
  /\ (forall (st : gstate) (line : string) (v : PyFloat.float),
         gtdb_is_data_line line = true ->
         gtdb_sgb_of line = k ->
         gtdb_value_of line = Ok v ->
         gtdb_read_line t st line
         = inl (GState (unclassified st)
                  (dict_set (abundances st) "s" (accumulate (species_table st) g v))
                  (gwf st))).
Proof.
  intros R Hl Hp.
  assert (G : dict_get t k = Some g).
  { unfold read_sgb2gtdb in R.
    rewrite fold_left_app in R. cbn [fold_left] in R.
    destruct (fold_sgb2gtdb_line_ok _ _ _ R) as (t1 & E1).
    rewrite E1 in R.
    destruct (fold_left sgb2gtdb_line pre (Ok [])) as [t0|e0] eqn:E0;
      [|discriminate].
    rewrite (fold_sgb2gtdb_line_keeps k post _ _ R Hp).
    pose proof (sgb2gtdb_line_cases t0 l) as C.
    unfold Ok in C, E1. rewrite E1 in C.
    destruct C as (_ & o & n & i & Hs & ->).
    rewrite Hl in Hs. injection Hs as <- <- <-.
    apply dict_get_set_same. }
  split; [exact G|].
  intros st line v D K V. apply gtdb_read_line_data; auto. now rewrite K.
Qed.

Lemma sgb2gtdb_table_last_line_wins_witness :
  let file := [tsv ["SGB1"; "d__D;s__Old"];
               tsv ["SGB2"; "d__D;s__T"];
               tsv ["SGB1"; "d__D;s__New"; "comment"]] in
  exists t,
    read_sgb2gtdb file = Ok t
    /\ dict_get t "SGB1" = Some "d__D;s__New"
    /\ dict_get t "SGB2" = Some "d__D;s__T".
Proof.
  cbv zeta. eexists. split; [vm_compute; reflexivity|]. split.
  - exact (proj1 (sgb2gtdb_table_last_line_wins
                    [tsv ["SGB1"; "d__D;s__Old"]; tsv ["SGB2"; "d__D;s__T"]] []
                    (tsv ["SGB1"; "d__D;s__New"; "comment"])
                    "SGB1" "d__D;s__New" ["comment"] _
                    ltac:(vm_compute; reflexivity) ltac:(vm_compute; reflexivity)
                    ltac:(constructor))).
  - vm_compute. reflexivity.
Defined.

(* ===================================================================== *)
(** * The reading loop of the conversion pipeline *)
(* ===================================================================== *)

(** A profile line of an SGB that the SGB-to-GTDB table does not list
    ends the conversion with [KeyError] on the SGB identifier; the output
    keeps what the lines before it wrote, and no rank row is written. *)
Theorem gtdb_unknown_sgb_ends_the_run (sgb2gtdb : dict string)
    (pre post : list string) (line : string) (st : gstate) :
  gtdb_read_lines sgb2gtdb init_gstate pre = inl st ->
  gtdb_is_data_line line = true ->
  dict_get sgb2gtdb (gtdb_sgb_of line) = None ->
  get_gtdb_profile sgb2gtdb (List.app pre (line :: post))
  = {| output := gwf st; status := Some (KeyError (gtdb_sgb_of line)) |}.
Proof.
  intros R D G. unfold get_gtdb_profile.
  rewrite gtdb_read_lines_app, R. cbn [gtdb_read_lines].
  now rewrite (gtdb_read_line_unknown _ _ _ D G).
Qed.

Lemma gtdb_unknown_sgb_ends_the_run_witness :
  get_gtdb_profile gtdb_one
    (List.app [jun23_header]
       (species_line "k__A|s__H|t__SGB2" "1|8|" "1.0"
          :: [species_line "k__A|s__G|t__SGB1" "1|7|" "1.0"]))
  = {| output := [jun23_header; tsv ["#clade_name"; "relative_abundance"]];
       status := Some (KeyError "SGB2") |}.
Proof.
  exact (gtdb_unknown_sgb_ends_the_run gtdb_one [jun23_header]
           [species_line "k__A|s__G|t__SGB1" "1|7|" "1.0"]
           (species_line "k__A|s__H|t__SGB2" "1|8|" "1.0")
           (GState PyFloat.zero init_abundances
              [jun23_header; tsv ["#clade_name"; "relative_abundance"]])
           ltac:(vm_compute; reflexivity) ltac:(vm_compute; reflexivity)
           ltac:(vm_compute; reflexivity)).
Defined.

Lemma gtdb_read_line_skipped (sgb2gtdb : dict string) (st : gstate) (line : string) :
  gtdb_is_skipped line = true -> gtdb_read_line sgb2gtdb st line = inl st.
Proof.
  unfold gtdb_is_skipped. intros H.
  apply andb_true_iff in H. destruct H as [H H3].
  apply andb_true_iff in H. destruct H as [H1 H2].
  apply negb_true_iff in H1, H2, H3.
  unfold gtdb_read_line. now rewrite H1, H2, H3.
Qed.

(** The conversion pipeline skips every line that is not a [#mpa_]
    header, does not start with [UNCLASSIFIED] and does not hold
    [t__SGB]: the other comment lines of the profile, the rows of the
    higher ranks and the rows of taxa without an SGB are neither copied
    nor counted, and the run is the same without them. *)
Theorem gtdb_other_lines_are_skipped (sgb2gtdb : dict string)
    (pre post : list string) (line : string) :
  gtdb_is_skipped line = true ->
  get_gtdb_profile sgb2gtdb (List.app pre (line :: post))
  = get_gtdb_profile sgb2gtdb (List.app pre post).
Proof.
  intros H. unfold get_gtdb_profile. rewrite !gtdb_read_lines_app.
  destruct (gtdb_read_lines sgb2gtdb init_gstate pre) as [st|e]; [|reflexivity].
  cbn [gtdb_read_lines]. now rewrite (gtdb_read_line_skipped _ _ _ H).
Qed.

Lemma gtdb_other_lines_are_skipped_witness :
  gtdb_is_skipped (tsv ["#clade_name"; "NCBI_tax_id"; "relative_abundance"]) = true
  /\ gtdb_is_skipped (species_line "k__A|s__G" "1|7" "50.0") = true
  /\ get_gtdb_profile gtdb_one
       (List.app [jun23_header]
          (tsv ["#clade_name"; "NCBI_tax_id"; "relative_abundance"]
             :: [species_line lineage_A "1|2|3|4|5|6|7|" "50.0"]))
     = get_gtdb_profile gtdb_one
         (List.app [jun23_header] [species_line lineage_A "1|2|3|4|5|6|7|" "50.0"]).
Proof.
  split; [reflexivity|]. split; [reflexivity|].
  apply (gtdb_other_lines_are_skipped gtdb_one [jun23_header]
           [species_line lineage_A "1|2|3|4|5|6|7|" "50.0"]
           (tsv ["#clade_name"; "NCBI_tax_id"; "relative_abundance"])).
  reflexivity.
Defined.

Lemma accumulate_get_same (d : dict PyFloat.float) (k : string) (v : PyFloat.float) :
  dict_get (accumulate d k v) k = Some (PyFloat.add (stored d k) v).
Proof.
  unfold accumulate, stored.
  destruct (dict_get d k); apply dict_get_set_same.
Qed.

Lemma accumulate_get_other (d : dict PyFloat.float) (k k' : string) (v : PyFloat.float) :
  k <> k' -> dict_get (accumulate d k v) k' = dict_get d k'.
Proof.
  intros H. unfold accumulate.
  destruct (dict_get d k); now apply dict_get_set_other.
Qed.

Lemma species_table_set (u : PyFloat.float) (a : abundances_t)
    (x : dict PyFloat.float) (w : list string) :
  species_table (GState u (dict_set a "s" x) w) = x.
Proof.
  unfold species_table, level_of. cbn [abundances].
  now rewrite dict_get_set_same.
Qed.

(** In the conversion pipeline the values of the profile lines whose
    SGBs map to the same GTDB lineage are added up: a line adds its
    value to what the species table holds for the lineage (to [0] when
    it holds nothing), leaves every other row as it is and writes
    nothing.  Nothing is overwritten, unlike in the repair pipeline. *)
Theorem gtdb_same_lineage_is_summed (sgb2gtdb : dict string) (input : list string)
    (line g : string) (v : PyFloat.float) (st : gstate) :
  gtdb_read_lines sgb2gtdb init_gstate input = inl st ->
  gtdb_is_data_line line = true ->
  dict_get sgb2gtdb (gtdb_sgb_of line) = Some g ->
  gtdb_value_of line = Ok v ->
  exists st',
    gtdb_read_lines sgb2gtdb init_gstate (List.app input [line]) = inl st'
    /\ dict_get (species_table st') g = Some (PyFloat.add (stored (species_table st) g) v)
    /\ (forall g', g <> g' ->
          dict_get (species_table st') g' = dict_get (species_table st) g')
    /\ gwf st' = gwf st
    /\ unclassified st' = unclassified st.
Proof.
  intros R D G V.
  eexists. split.
  - rewrite gtdb_read_lines_app, R. cbn [gtdb_read_lines].
    rewrite (gtdb_read_line_data _ _ _ _ _ D G V). reflexivity.
  - rewrite species_table_set. cbn [gwf unclassified].
    split; [apply accumulate_get_same|].
    split; [intros g' Hg; now apply accumulate_get_other|].
    split; reflexivity.
Qed.

Lemma gtdb_same_lineage_is_summed_witness :
  let table := [("SGB1", "d__D;s__S"); ("SGB2", "d__D;s__S")] in
  let l1 := species_line "k__A|s__G|t__SGB1" "1|7|" "1.5" in
  let l2 := species_line "k__A|s__H|t__SGB2" "1|8|" "2.5" in
  exists st',
    gtdb_read_lines table init_gstate (List.app [l1] [l2]) = inl st'
    /\ dict_get (species_table st') "d__D;s__S" = PyFloat.of_string "4.0".
Proof.
  cbv zeta.
  destruct (gtdb_same_lineage_is_summed
              [("SGB1", "d__D;s__S"); ("SGB2", "d__D;s__S")]
              [species_line "k__A|s__G|t__SGB1" "1|7|" "1.5"]
              (species_line "k__A|s__H|t__SGB2" "1|8|" "2.5")
              "d__D;s__S" (PyFloat.of_ratio false 5 2)
              (GState PyFloat.zero
                 (dict_set init_abundances "s"
                    [("d__D;s__S", PyFloat.of_ratio false 3 2)]) [])
              ltac:(vm_compute; reflexivity) ltac:(vm_compute; reflexivity)
              ltac:(vm_compute; reflexivity) ltac:(vm_compute; reflexivity))
    as (st' & R & G & _).
  exists st'. split; [exact R|].
  rewrite G. vm_compute. reflexivity.
Defined.

(* ===================================================================== *)
(** * The reading loop of the repair pipeline *)
(* ===================================================================== *)

Lemma is_skipped_inv (line : string) :
  is_skipped line = true ->
  Py.startswith line "#mpa_v" = false
  /\ (Py.startswith line "#" || Py.startswith line "clade_name") = false
  /\ Py.startswith line "UNCLASSIFIED" = false
  /\ Py.contains "t__" line = false.
Proof.
  unfold is_skipped, is_header, is_comment, is_unclassified. intros H.
  apply andb_true_iff in H. destruct H as [H H4].
  apply andb_true_iff in H. destruct H as [H H3].
  apply andb_true_iff in H. destruct H as [H1 H2].
  apply negb_true_iff in H1, H2, H3, H4. auto.
Qed.

Lemma read_line_skipped (oct_fixes : fix_table) (st : state) (line : string) :
  is_skipped line = true -> read_line oct_fixes st line = inl st.
Proof.
  intros H. apply is_skipped_inv in H. destruct H as (H1 & H2 & H3 & H4).
  unfold read_line. now rewrite H1, H2, H3, H4.
Qed.

Lemma read_line_merged_skipped (oct_fixes : fix_table) (st : mstate) (line : string) :
  is_skipped line = true -> read_line_merged oct_fixes st line = inl st.
Proof.
  intros H. apply is_skipped_inv in H. destruct H as (H1 & H2 & H3 & H4).
  unfold read_line_merged. destruct st. now rewrite H1, H2, H3, H4.
Qed.

(** The repair pipeline skips every line that is not a header, a
    comment or an [UNCLASSIFIED] line and does not hold [t__]: the rows
    an input profile has for the ranks above the leaves are neither
    copied nor used, whatever values they carry, even under a release the
    script does not know; the rows of those ranks in the output are
    computed from the leaf rows alone. *)
Theorem rows_without_leaf_marker_are_skipped (oct_fixes : fix_table) (merged : bool)
    (pre post : list string) (line : string) :
  is_skipped line = true ->
  fix_relab_mpa4 oct_fixes (List.app pre (line :: post)) merged
  = fix_relab_mpa4 oct_fixes (List.app pre post) merged.
Proof.
  intros H. unfold fix_relab_mpa4, fix_relab_merged, fix_relab_single.
  destruct merged.
  - rewrite !read_lines_merged_app.
    destruct (read_lines_merged oct_fixes init_mstate pre) as [st|e]; [|reflexivity].
    cbn [read_lines_merged]. now rewrite (read_line_merged_skipped _ _ _ H).
  - rewrite !read_lines_app.
    destruct (read_lines oct_fixes init_state pre) as [st|e]; [|reflexivity].
    cbn [read_lines]. now rewrite (read_line_skipped _ _ _ H).
Qed.

Lemma rows_without_leaf_marker_are_skipped_witness :
  let genus_row := species_line "k__A|p__B|c__C|o__D|f__E|g__F" "1|2|3|4|5|6" "99.0" in
  is_skipped genus_row = true
  /\ fix_relab_mpa4 []
       (List.app [jun23_header; unclassified_line "10.0"]
          (genus_row :: [species_line lineage_A "1|2|3|4|5|6|7|" "50.0"])) false
     = fix_relab_mpa4 [] half_profile false.
Proof.
  cbv zeta. split; [reflexivity|].
  apply (rows_without_leaf_marker_are_skipped [] false
           [jun23_header; unclassified_line "10.0"]
           [species_line lineage_A "1|2|3|4|5|6|7|" "50.0"]
           (species_line "k__A|p__B|c__C|o__D|f__E|g__F" "1|2|3|4|5|6" "99.0")).
  reflexivity.
Defined.

Lemma read_line_written (oct_fixes : fix_table) (st st' : state) (line : string) :
  read_line oct_fixes st line = inl st' ->
  wf st' = List.app (wf st) (passed_through line).
Proof.
  unfold read_line, passed_through, is_header, is_comment, is_unclassified, written_header.
  destruct (Py.startswith line "#mpa_v"); [intros [= <-]; reflexivity|].
  destruct (Py.startswith line "#" || Py.startswith line "clade_name");
    [intros [= <-]; reflexivity|].
  destruct (Py.startswith line "UNCLASSIFIED"); cbn [orb].
  - destruct (text <- index (Py.split Py.TAB line) 2 ;; float_ text);
      [intros [= <-]; reflexivity|discriminate].
  - rewrite app_nil_r.
    destruct (Py.contains "t__" line); [|now intros [= <-]].
    destruct (leaf_assignment oct_fixes (release st) line) as [[k e]|];
      [intros [= <-]; reflexivity|discriminate].
Qed.

Lemma read_lines_written (oct_fixes : fix_table) (input : list string) :
  forall st st',
    read_lines oct_fixes st input = inl st' ->
    wf st' = List.app (wf st) (flat_map passed_through input).
Proof.
  induction input as [|l r IH]; intros st st' H; cbn [read_lines flat_map] in *.
  - injection H as <-. now rewrite app_nil_r.
  - destruct (read_line oct_fixes st l) as [s1|] eqn:E; [|discriminate].
    rewrite (IH _ _ H), (read_line_written _ _ _ _ E). now rewrite <- app_assoc.
Qed.

Lemma read_line_merged_written (oct_fixes : fix_table) (st st' : mstate) (line : string) :
  read_line_merged oct_fixes st line = inl st' ->
  m_wf st' = List.app (m_wf st) (passed_through line).
Proof.
  unfold read_line_merged, passed_through, is_header, is_comment, is_unclassified,
    written_header.
  destruct st as [h t rel u nc out]. cbn [m_wf].
  destruct (Py.startswith line "#mpa_v"); [intros [= <-]; reflexivity|].
  destruct (Py.startswith line "#" || Py.startswith line "clade_name");
    [intros [= <-]; reflexivity|].
  destruct (Py.startswith line "UNCLASSIFIED"); cbn [orb].
  - destruct (floats (tl (Py.split Py.TAB line)));
      [intros [= <-]; reflexivity|discriminate].
  - rewrite app_nil_r.
    destruct (Py.contains "t__" line); [|now intros [= <-]].
    destruct (leaf_assignment_merged oct_fixes rel line) as [[f v]|];
      [intros [= <-]; reflexivity|discriminate].
Qed.

Lemma read_lines_merged_written (oct_fixes : fix_table) (input : list string) :
  forall st st',
    read_lines_merged oct_fixes st input = inl st' ->
    m_wf st' = List.app (m_wf st) (flat_map passed_through input).
Proof.
  induction input as [|l r IH]; intros st st' H; cbn [read_lines_merged flat_map] in *.
  - injection H as <-. now rewrite app_nil_r.
  - destruct (read_line_merged oct_fixes st l) as [s1|] eqn:E; [|discriminate].
    rewrite (IH _ _ H), (read_line_merged_written _ _ _ _ E). now rewrite <- app_assoc.
Qed.

Lemma gtdb_read_line_written (sgb2gtdb : dict string) (st st' : gstate) (line : string) :
  gtdb_read_line sgb2gtdb st line = inl st' ->
  gwf st' = List.app (gwf st) (gtdb_passed_through line).
Proof.
  unfold gtdb_read_line, gtdb_passed_through, gtdb_value_of.
  destruct (Py.startswith line "#mpa_").
  { intros [= <-]. cbn [gwf]. unfold emit. now rewrite <- app_assoc. }
  destruct (Py.startswith line "UNCLASSIFIED").
  { destruct (text <- index (Py.split Py.TAB (Py.strip line)) 2 ;; float_ text);
      [intros [= <-]; reflexivity|discriminate]. }
  rewrite app_nil_r.
  destruct (Py.contains "t__SGB" line); [|now intros [= <-]].
  cbv zeta.
  match goal with
  | |- match ?x with _ => _ end = _ -> _ => destruct x as [[g v]|]
  end; [intros [= <-]; reflexivity|discriminate].
Qed.

Lemma gtdb_read_lines_written (sgb2gtdb : dict string) (input : list string) :
  forall st st',
    gtdb_read_lines sgb2gtdb st input = inl st' ->
    gwf st' = List.app (gwf st) (flat_map gtdb_passed_through input).
Proof.
  induction input as [|l r IH]; intros st st' H; cbn [gtdb_read_lines flat_map] in *.
  - injection H as <-. now rewrite app_nil_r.
  - destruct (gtdb_read_line sgb2gtdb st l) as [s1|] eqn:E; [|discriminate].
    rewrite (IH _ _ H), (gtdb_read_line_written _ _ _ _ E). now rewrite <- app_assoc.
Qed.

Lemma finish_status_none (r : list string + (list string * error)) :
  status (finish r) = None -> exists out, r = inl out.
Proof. destruct r as [out|[out e]]; simpl; [eauto|discriminate]. Qed.

(** The lines a run copies from its input come first in the output, in
    input order, and all rank rows follow them, wherever the copied lines
    stand in the input (a comment placed after the data lines is written
    before every row).  The repair pipeline copies the rewritten headers,
    the comments and the [UNCLASSIFIED] lines; the conversion pipeline
    copies only the [#mpa_] headers, each followed by a fixed column
    header, and the reformatted [UNCLASSIFIED] lines. *)
Theorem copied_lines_precede_the_rank_rows :
  (forall (oct_fixes : fix_table) (merged : bool) (input : list string),
      status (fix_relab_mpa4 oct_fixes input merged) = None ->
      exists rows,
        output (fix_relab_mpa4 oct_fixes input merged)
        = List.app (flat_map passed_through input) rows)
  /\ (forall (sgb2gtdb : dict string) (input : list string),
         status (get_gtdb_profile sgb2gtdb input) = None ->
         exists rows,
           output (get_gtdb_profile sgb2gtdb input)
           = List.app (flat_map gtdb_passed_through input) rows).
Proof.
  split.
  - intros oct_fixes [|] input S; unfold fix_relab_mpa4 in *.
    + destruct (read_lines_merged oct_fixes init_mstate input) as [st|[o e]] eqn:R.
      * destruct (fix_relab_merged_output _ _ _ R S) as (h & t & rows & _ & O & _).
        exists rows. rewrite O, (read_lines_merged_written _ _ _ _ R). reflexivity.
      * unfold fix_relab_merged in S. rewrite R in S. discriminate.
    + destruct (read_lines oct_fixes init_state input) as [st|[o e]] eqn:R.
      * eexists. rewrite (fix_relab_single_output _ _ _ R S),
          (read_lines_written _ _ _ _ R). reflexivity.
      * unfold fix_relab_single in S. rewrite R in S. discriminate.
  - intros sgb2gtdb input S.
    destruct (gtdb_read_lines sgb2gtdb init_gstate input) as [st|[o e]] eqn:R.
    + eexists. rewrite (get_gtdb_profile_output _ _ _ R S),
        (gtdb_read_lines_written _ _ _ _ R). reflexivity.
    + unfold get_gtdb_profile in S. rewrite R in S. discriminate.
Qed.

Lemma copied_lines_precede_the_rank_rows_witness :
  let input := [jun23_header; species_line lineage_A "1|2|3|4|5|6|7|" "50.0";
                "#a comment" ++ Py.nl; unclassified_line "10.0"] in
  status (fix_relab_mpa4 [] input false) = None
  /\ flat_map passed_through input
     = ["#mpa_vJun23_CHOCOPhlAnSGB_202403" ++ Py.nl; "#a comment" ++ Py.nl;
        unclassified_line "10.0"]
  /\ exists rows,
       output (fix_relab_mpa4 [] input false)
       = List.app (flat_map passed_through input) rows.
Proof.
  cbv zeta. split; [vm_compute; reflexivity|]. split; [vm_compute; reflexivity|].
  apply (proj1 copied_lines_precede_the_rank_rows). vm_compute. reflexivity.
Defined.

Lemma read_line_no_data (oct_fixes : fix_table) (st st' : state) (line : string) :
  is_data_line line = false ->
  read_line oct_fixes st line = inl st' ->
  taxa_levs st' = taxa_levs st.
Proof.
  unfold is_data_line, is_header, is_comment, is_unclassified, read_line.
  destruct (Py.startswith line "#mpa_v"); [intros _ [= <-]; reflexivity|].
  destruct (Py.startswith line "#" || Py.startswith line "clade_name");
    [intros _ [= <-]; reflexivity|].
  destruct (Py.startswith line "UNCLASSIFIED").
  - intros _.
    destruct (text <- index (Py.split Py.TAB line) 2 ;; float_ text);
      [intros [= <-]; reflexivity|discriminate].
  - destruct (Py.contains "t__" line); [discriminate|now intros _ [= <-]].
Qed.

Lemma read_lines_no_data (oct_fixes : fix_table) (input : list string) :
  existsb is_data_line input = false ->
  forall st st',
    read_lines oct_fixes st input = inl st' -> taxa_levs st' = taxa_levs st.
Proof.
  induction input as [|l r IH]; intros H st st' R; cbn [read_lines existsb] in *.
  - now injection R as <-.
  - apply orb_false_iff in H. destruct H as [Hl Hr].
    destruct (read_line oct_fixes st l) as [s1|] eqn:E; [|discriminate].
    rewrite (IH Hr _ _ R). now apply (read_line_no_data oct_fixes st s1 l).
Qed.

Lemma read_line_merged_no_data (oct_fixes : fix_table) (st st' : mstate) (line : string) :
  is_data_line line = false ->
  read_line_merged oct_fixes st line = inl st' ->
  m_levs st' = m_levs st /\ m_heap st' = m_heap st /\ m_ncols st' = m_ncols st.
Proof.
  unfold is_data_line, is_header, is_comment, is_unclassified, read_line_merged.
  destruct st as [h t rel u nc out]. mstate_simpl.
  destruct (Py.startswith line "#mpa_v"); [intros _ [= <-]; auto|].
  destruct (Py.startswith line "#" || Py.startswith line "clade_name");
    [intros _ [= <-]; auto|].
  destruct (Py.startswith line "UNCLASSIFIED").
  - intros _.
    destruct (floats (tl (Py.split Py.TAB line))); [intros [= <-]; auto|discriminate].
  - destruct (Py.contains "t__" line); [discriminate|intros _ [= <-]; auto].
Qed.

Lemma read_lines_merged_no_data (oct_fixes : fix_table) (input : list string) :
  existsb is_data_line input = false ->
  forall st st',
    read_lines_merged oct_fixes st input = inl st' ->
    m_levs st' = m_levs st /\ m_heap st' = m_heap st /\ m_ncols st' = m_ncols st.
Proof.
  induction input as [|l r IH]; intros H st st' R; cbn [read_lines_merged existsb] in *.
  - injection R as <-. auto.
  - apply orb_false_iff in H. destruct H as [Hl Hr].
    destruct (read_line_merged oct_fixes st l) as [s1|] eqn:E; [|discriminate].
    destruct (IH Hr _ _ R) as (-> & -> & ->).
    now apply (read_line_merged_no_data oct_fixes st s1 l).
Qed.

(** A profile without a single leaf row, the empty file included, is
    handled differently by the two modes: for a single-column profile the
    run returns after copying the header, comment and [UNCLASSIFIED]
    lines and writes no row; for a merged profile it is ended by
    [UnboundLocalError] after copying them, because the number of columns
    is only bound by a leaf row. *)
Theorem profile_without_leaf_rows (oct_fixes : fix_table) (input : list string) :
  existsb is_data_line input = false ->
  (forall st,
      read_lines oct_fixes init_state input = inl st ->
      fix_relab_mpa4 oct_fixes input false
      = {| output := flat_map passed_through input; status := None |})
  /\ (forall st,
         read_lines_merged oct_fixes init_mstate input = inl st ->
         fix_relab_mpa4 oct_fixes input true
         = {| output := flat_map passed_through input;
              status := Some (UnboundLocalError "ncols") |}).
Proof.
  intros H. split; intros st R; unfold fix_relab_mpa4.
  - unfold fix_relab_single. rewrite R.
    rewrite (read_lines_no_data _ _ H _ _ R), (read_lines_written _ _ _ _ R).
    reflexivity.
  - unfold fix_relab_merged, complete_merged. rewrite R.
    destruct (read_lines_merged_no_data _ _ H _ _ R) as (-> & -> & ->).
    rewrite (read_lines_merged_written _ _ _ _ R). reflexivity.
Qed.

Lemma profile_without_leaf_rows_witness :
  let input := [jun23_header; tsv ["clade_name"; "sample1"; "sample2"];
                tsv ["UNCLASSIFIED"; "-1"; "100.0"]] in
  existsb is_data_line input = false
  /\ fix_relab_mpa4 [] input false
     = {| output := ["#mpa_vJun23_CHOCOPhlAnSGB_202403" ++ Py.nl;
                     tsv ["clade_name"; "sample1"; "sample2"];
                     tsv ["UNCLASSIFIED"; "-1"; "100.0"]];
          status := None |}
  /\ fix_relab_mpa4 [] input true
     = {| output := ["#mpa_vJun23_CHOCOPhlAnSGB_202403" ++ Py.nl;
                     tsv ["clade_name"; "sample1"; "sample2"];
                     tsv ["UNCLASSIFIED"; "-1"; "100.0"]];
          status := Some (UnboundLocalError "ncols") |}
  /\ fix_relab_mpa4 [] [] false = {| output := []; status := None |}
  /\ fix_relab_mpa4 [] [] true
     = {| output := []; status := Some (UnboundLocalError "ncols") |}.
Proof.
  cbv zeta. split; [reflexivity|].
  pose (input := [jun23_header; tsv ["clade_name"; "sample1"; "sample2"];
                  tsv ["UNCLASSIFIED"; "-1"; "100.0"]]).
  destruct (profile_without_leaf_rows [] input eq_refl) as [S M].
  destruct (profile_without_leaf_rows [] [] eq_refl) as [S0 M0].
  split.
  { let r := eval vm_compute in (read_lines [] init_state input) in
    match r with inl ?s => exact (S s ltac:(vm_compute; reflexivity)) end. }
  split.
  { let r := eval vm_compute in (read_lines_merged [] init_mstate input) in
    match r with inl ?s => exact (M s ltac:(vm_compute; reflexivity)) end. }
  split.
  - exact (S0 init_state eq_refl).
  - exact (M0 init_mstate eq_refl).
Defined.

Lemma index_beyond {A} (l : list A) (i : nat) :
  List.length l <= i -> index l i = Raise IndexError.
Proof.
  intros H. unfold index.
  now rewrite (proj2 (nth_error_None l i) H).
Qed.

(** The repair pipeline writes an [UNCLASSIFIED] line to the output
    before it parses it, so a line whose value cannot be read is the last
    line of the output of the failed run; the conversion pipeline parses
    first and writes nothing for such a line.  For a single-column
    profile the value is the third field: an [UNCLASSIFIED] line with
    fewer than three tab-separated fields ends the run with
    [IndexError]. *)
Theorem unclassified_line_is_written_before_it_is_parsed
    (pre post : list string) (line : string) :
  is_unclassified line = true ->
  (forall (oct_fixes : fix_table) (st : state) (e : error),
      read_lines oct_fixes init_state pre = inl st ->
      (text <- index (Py.split Py.TAB line) 2 ;; float_ text) = Raise e ->
      fix_relab_mpa4 oct_fixes (List.app pre (line :: post)) false
      = {| output := emit (wf st) line; status := Some e |})
  /\ (forall (oct_fixes : fix_table) (st : mstate) (e : error),
         read_lines_merged oct_fixes init_mstate pre = inl st ->
         floats (tl (Py.split Py.TAB line)) = Raise e ->
         fix_relab_mpa4 oct_fixes (List.app pre (line :: post)) true
         = {| output := emit (m_wf st) line; status := Some e |})
  /\ (forall (sgb2gtdb : dict string) (st : gstate) (e : error),
         gtdb_read_lines sgb2gtdb init_gstate pre = inl st ->
         gtdb_value_of line = Raise e ->
         get_gtdb_profile sgb2gtdb (List.app pre (line :: post))
         = {| output := gwf st; status := Some e |})
  /\ (List.length (Py.split Py.TAB line) < 3 ->
      (text <- index (Py.split Py.TAB line) 2 ;; float_ text) = Raise IndexError).
Proof.
  intros U. destruct (unclassified_not_comment _ U) as (H1 & H2 & H3).
  unfold is_unclassified in U.
  split; [|split; [|split]].
  - intros oct_fixes st e R P.
    unfold fix_relab_mpa4, fix_relab_single.
    rewrite read_lines_app, R. cbn [read_lines].
    unfold read_line. rewrite H1, H2, U. cbv zeta.
    unfold Raise in P. rewrite P. reflexivity.
  - intros oct_fixes st e R P.
    unfold fix_relab_mpa4, fix_relab_merged.
    rewrite read_lines_merged_app, R. cbn [read_lines_merged].
    unfold read_line_merged. destruct st as [h t rel u nc out].
    rewrite H1, H2, U. unfold Raise in P. rewrite P. reflexivity.
  - intros sgb2gtdb st e R P.
    unfold get_gtdb_profile.
    rewrite gtdb_read_lines_app, R. cbn [gtdb_read_lines].
    unfold gtdb_read_line. rewrite H3, U.
    unfold gtdb_value_of, Raise in P. rewrite P. reflexivity.
  - intros L. rewrite index_beyond by lia. reflexivity.
Qed.

Lemma unclassified_line_is_written_before_it_is_parsed_witness :
  let line := tsv ["UNCLASSIFIED"; "25.0"] in
  is_unclassified line = true
  /\ fix_relab_mpa4 [] (List.app [jun23_header] (line :: half_profile)) false
     = {| output := ["#mpa_vJun23_CHOCOPhlAnSGB_202403" ++ Py.nl; line];
          status := Some IndexError |}
  /\ get_gtdb_profile gtdb_one (List.app [jun23_header] (line :: half_profile))
     = {| output := [jun23_header; tsv ["#clade_name"; "relative_abundance"]];
          status := Some IndexError |}.
Proof.
  cbv zeta. split; [reflexivity|].
  destruct (unclassified_line_is_written_before_it_is_parsed
              [jun23_header] half_profile (tsv ["UNCLASSIFIED"; "25.0"]) eq_refl)
    as (S & _ & G & _).
  split.
  - exact (S [] (State init_levels (Some JUN23) PyFloat.zero
                   ["#mpa_vJun23_CHOCOPhlAnSGB_202403" ++ Py.nl])
             IndexError ltac:(vm_compute; reflexivity) ltac:(vm_compute; reflexivity)).
  - exact (G gtdb_one
             (GState PyFloat.zero init_abundances
                [jun23_header; tsv ["#clade_name"; "relative_abundance"]])
             IndexError ltac:(vm_compute; reflexivity) ltac:(vm_compute; reflexivity)).
Defined.

Lemma fix_fields_without_oct22 (oct_fixes oct_fixes' : fix_table) (merged : bool)
    (r : option string) (line : string) :
  release_is r OCT22 = false ->
  fix_fields oct_fixes merged r line = fix_fields oct_fixes' merged r line.
Proof. intros H. unfold fix_fields. now rewrite H. Qed.

Lemma read_line_without_oct22 (oct_fixes oct_fixes' : fix_table) (st : state)
    (line : string) :
  release_is (release st) OCT22 = false ->
  read_line oct_fixes st line = read_line oct_fixes' st line.
Proof.
  intros H. unfold read_line, leaf_assignment.
  now rewrite (fix_fields_without_oct22 oct_fixes oct_fixes' false _ line H).
Qed.

Lemma read_line_merged_without_oct22 (oct_fixes oct_fixes' : fix_table) (st : mstate)
    (line : string) :
  release_is (m_release st) OCT22 = false ->
  read_line_merged oct_fixes st line = read_line_merged oct_fixes' st line.
Proof.
  intros H. destruct st as [h t rel u nc out]. mstate_simpl.
  unfold read_line_merged, leaf_assignment_merged.
  now rewrite (fix_fields_without_oct22 oct_fixes oct_fixes' true _ line H).
Qed.

Lemma next_release_without_oct22 (r : option string) (line : string) :
  names_oct22 line = false -> release_is r OCT22 = false ->
  release_is (next_release r line) OCT22 = false.
Proof.
  unfold names_oct22, next_release.
  destruct (is_header line); simpl; auto.
Qed.

Lemma read_lines_without_oct22 (oct_fixes oct_fixes' : fix_table) (input : list string) :
  existsb names_oct22 input = false ->
  forall st,
    release_is (release st) OCT22 = false ->
    read_lines oct_fixes st input = read_lines oct_fixes' st input.
Proof.
  induction input as [|l r IH]; intros H st Hr; cbn [read_lines existsb] in *; auto.
  apply orb_false_iff in H. destruct H as [Hl Hi].
  rewrite <- (read_line_without_oct22 oct_fixes oct_fixes' st l Hr).
  destruct (read_line oct_fixes st l) as [s1|] eqn:E; auto.
  apply IH; auto.
  rewrite (read_line_release _ _ _ _ E). now apply next_release_without_oct22.
Qed.

Lemma read_lines_merged_without_oct22 (oct_fixes oct_fixes' : fix_table)
    (input : list string) :
  existsb names_oct22 input = false ->
  forall st,
    release_is (m_release st) OCT22 = false ->
    read_lines_merged oct_fixes st input = read_lines_merged oct_fixes' st input.
Proof.
  induction input as [|l r IH]; intros H st Hr; cbn [read_lines_merged existsb] in *; auto.
  apply orb_false_iff in H. destruct H as [Hl Hi].
  rewrite <- (read_line_merged_without_oct22 oct_fixes oct_fixes' st l Hr).
  destruct (read_line_merged oct_fixes st l) as [s1|] eqn:E; auto.
  apply IH; auto.
  rewrite (read_line_merged_release _ _ _ _ E). now apply next_release_without_oct22.
Qed.

(** The table of Oct22 corrections is consulted only under the Oct22
    release: the run on a profile none of whose header lines names that
    release (a Jun23 profile, or one without header) is the same with any
    two tables, in both modes. *)
Theorem oct22_table_is_used_under_oct22_only (oct_fixes oct_fixes' : fix_table)
    (input : list string) (merged : bool) :
  existsb names_oct22 input = false ->
  fix_relab_mpa4 oct_fixes input merged = fix_relab_mpa4 oct_fixes' input merged.
Proof.
  intros H. unfold fix_relab_mpa4, fix_relab_merged, fix_relab_single.
  destruct merged.
  - now rewrite (read_lines_merged_without_oct22 oct_fixes oct_fixes' input H
                   init_mstate eq_refl).
  - now rewrite (read_lines_without_oct22 oct_fixes oct_fixes' input H
                   init_state eq_refl).
Qed.

Lemma oct22_table_is_used_under_oct22_only_witness :
  existsb names_oct22 half_profile = false
  /\ fix_relab_mpa4 twice_fixes half_profile false = fix_relab_mpa4 [] half_profile false.
Proof.
  split; [reflexivity|].
  apply (oct22_table_is_used_under_oct22_only twice_fixes [] half_profile false).
  reflexivity.
Defined.

(* ===================================================================== *)
(** * The header line *)
(* ===================================================================== *)

Lemma split_app_sep (sep : ascii) (a b : string) :
  Py.split sep (a ++ String sep b) = List.app (Py.split sep a) (Py.split sep b).
Proof.
  induction a as [|c a IH]; cbn [append Py.split].
  - now rewrite Ascii.eqb_refl.
  - destruct (Ascii.eqb c sep); rewrite IH; [reflexivity|].
    pose proof (split_not_nil sep a) as N.
    destruct (Py.split sep a) as [|w ws]; [contradiction|reflexivity].
Qed.

Lemma split_without_sep (sep : ascii) (s : string) :
  Py.contains (String sep EmptyString) s = false -> Py.split sep s = [s].
Proof.
  induction s as [|c s IH]; intros H; cbn [Py.split]; [reflexivity|].
  apply contains_false_inv in H. destruct H as [P C].
  rewrite (IH C).
  destruct (Ascii.eqb c sep) eqn:E; [|reflexivity].
  apply Ascii.eqb_eq in E. subst c.
  cbn [String.prefix] in P.
  destruct (ascii_dec sep sep); [destruct s; discriminate|contradiction].
Qed.

Lemma drop_last_segment_app (sep : ascii) (p s : string) :
  Py.contains (String sep EmptyString) s = false ->
  drop_last_segment sep (p ++ String sep s) = p.
Proof.
  intros H. unfold drop_last_segment, Py.butlast.
  rewrite split_app_sep, (split_without_sep sep s H), removelast_last.
  apply join_split.
Qed.

Lemma string_length_app (a b : string) :
  String.length (a ++ b) = String.length a + String.length b.
Proof. induction a as [|c a IH]; simpl; auto. Qed.

Lemma app_same_length_tail (a b t t' : string) :
  a ++ t = b ++ t' -> String.length t = String.length t' -> t = t'.
Proof.
  revert b. induction a as [|c a IH]; intros [|d b] E L; cbn [append] in E.
  - exact E.
  - subst t. cbn [String.length] in L. rewrite string_length_app in L. lia.
  - subst t'. cbn [String.length] in L. rewrite string_length_app in L. lia.
  - injection E as _ E. now apply (IH b).
Qed.

Lemma rstrip_app (s t : string) :
  Py.rstrip t <> EmptyString -> Py.rstrip (s ++ t) = s ++ Py.rstrip t.
Proof.
  intros H. induction s as [|c s IH]; cbn [append Py.rstrip]; [reflexivity|].
  rewrite IH.
  destruct s as [|c' s']; cbn [append]; [|reflexivity].
  destruct (Py.rstrip t); [contradiction|reflexivity].
Qed.

Lemma lstrip_app (s r : string) (c : ascii) :
  Py.isspace c = false ->
  exists y, Py.lstrip (s ++ String c r) = y ++ String c r.
Proof.
  intros H. induction s as [|d s IH]; cbn [append Py.lstrip].
  - rewrite H. now exists EmptyString.
  - destruct (Py.isspace d); [exact IH|].
    now exists (String d s).
Qed.

Lemma rewritten_release (x : string) :
  exists z, Py.drop 1 (Py.strip (x ++ "_202403" ++ Py.nl)) = z ++ "202403".
Proof.
  unfold Py.strip.
  destruct (lstrip_app x ("202403" ++ Py.nl) "_" eq_refl) as (y & E).
  change (x ++ "_202403" ++ Py.nl) with (x ++ String "_" ("202403" ++ Py.nl)).
  rewrite E, rstrip_app by (vm_compute; discriminate).
  change (Py.rstrip (String "_" ("202403" ++ Py.nl))) with "_202403".
  destruct y as [|c y]; cbn [append Py.drop].
  - now exists EmptyString.
  - exists (y ++ "_"). now rewrite string_app_assoc.
Qed.

Lemma rewritten_release_unknown (r : option string) (x : string) :
  recognised r = false ->
  recognised (next_release r (x ++ "_202403" ++ Py.nl)) = false.
Proof.
  intros H. unfold next_release.
  destruct (is_header (x ++ "_202403" ++ Py.nl)); [|exact H].
  destruct (rewritten_release x) as (z & ->).
  unfold recognised, release_is.
  apply orb_false_iff. split; apply String.eqb_neq; intros E.
  - change JUN23 with ("mpa_vJun23_CHOCOPhlAnSGB_" ++ "202307") in E.
    apply app_same_length_tail in E; [discriminate|reflexivity].
  - change OCT22 with ("mpa_vOct22_CHOCOPhlAnSGB_" ++ "202212") in E.
    apply app_same_length_tail in E; [discriminate|reflexivity].
Qed.

Lemma release_after_without_header (r : option string) (lines : list string) :
  existsb is_header lines = false -> release_after r lines = r.
Proof.
  unfold release_after.
  induction lines as [|l ls IH]; intros H; cbn [fold_left existsb] in *; auto.
  apply orb_false_iff in H. destruct H as [Hl Hs].
  unfold next_release at 2. rewrite Hl. now apply IH.
Qed.

Lemma data_line_under_unknown_release (oct_fixes : fix_table) (merged : bool)
    (pre : list string) (line : string) (post : list string) :
  is_data_line line = true ->
  recognised (release_after None pre) = false ->
  fix_relab_mpa4 oct_fixes (List.app pre (line :: post)) merged
  = match read_outcome oct_fixes merged pre with
    | inl out => {| output := out; status := Some (SystemExit RELEASE_MESSAGE) |}
    | inr (out, e) => {| output := out; status := Some e |}
    end.
Proof.
  intros Hd Hr. unfold fix_relab_mpa4, read_outcome. destruct merged.
  - unfold fix_relab_merged. rewrite read_lines_merged_app.
    destruct (read_lines_merged oct_fixes init_mstate pre) as [st|[out e]] eqn:E;
      [|reflexivity].
    apply read_lines_merged_release in E. simpl in E.
    simpl. rewrite read_line_merged_unrecognised; auto.
    now rewrite E.
  - unfold fix_relab_single. rewrite read_lines_app.
    destruct (read_lines oct_fixes init_state pre) as [st|[out e]] eqn:E;
      [|reflexivity].
    apply read_lines_release in E. simpl in E.
    simpl. rewrite read_line_unrecognised; auto.
    now rewrite E.
Qed.

(** A header line is written without its last underscore-separated
    segment, stripped and followed by [_202403]: whatever follows the
    last underscore of the line is dropped.  The release in force for the
    lines that follow is the whole stripped line without its first
    character. *)
Theorem header_is_rewritten (oct_fixes : fix_table) (merged : bool) (p s : string) :
  is_header (p ++ "_" ++ s) = true ->
  Py.contains "_" s = false ->
  read_outcome oct_fixes merged [p ++ "_" ++ s] = inl [Py.strip p ++ "_202403" ++ Py.nl]
  /\ release_after None [p ++ "_" ++ s] = Some (Py.drop 1 (Py.strip (p ++ "_" ++ s))).
Proof.
  intros H C. split.
  - unfold read_outcome, is_header in *.
    destruct merged; cbn [read_lines read_lines_merged];
      unfold read_line, read_line_merged, init_mstate; rewrite H;
      change (p ++ "_" ++ s) with (p ++ String "_" s);
      now rewrite (drop_last_segment_app "_" p s C).
  - unfold release_after. cbn [fold_left]. unfold next_release. now rewrite H.
Qed.

Lemma header_is_rewritten_witness :
  is_header ("#mpa_vOct22_CHOCOPhlAnSGB" ++ "_" ++ "202212 extra" ++ Py.nl) = true
  /\ Py.contains "_" ("202212 extra" ++ Py.nl) = false
  /\ read_outcome [] false ["#mpa_vOct22_CHOCOPhlAnSGB_202212 extra" ++ Py.nl]
     = inl ["#mpa_vOct22_CHOCOPhlAnSGB_202403" ++ Py.nl]
  /\ release_after None ["#mpa_vOct22_CHOCOPhlAnSGB_202212 extra" ++ Py.nl]
     = Some "mpa_vOct22_CHOCOPhlAnSGB_202212 extra".
Proof.
  split; [reflexivity|]. split; [reflexivity|].
  exact (header_is_rewritten [] false "#mpa_vOct22_CHOCOPhlAnSGB"
           ("202212 extra" ++ Py.nl) eq_refl eq_refl).
Defined.

(** The header the repair pipeline writes names a release ending in
    [_202403], which is neither of the two releases the script accepts:
    run on a profile that starts with a header it has written (its own
    output, for one), the script is ended by the release message at the
    first leaf row, as long as no other header line comes before that
    row. *)
Theorem repaired_header_is_not_accepted (oct_fixes : fix_table) (merged : bool)
    (h : string) (mid post : list string) (line : string) :
  existsb is_header mid = false ->
  is_data_line line = true ->
  recognised (release_after None (written_header h :: mid)) = false
  /\ fix_relab_mpa4 oct_fixes (List.app (written_header h :: mid) (line :: post)) merged
     = match read_outcome oct_fixes merged (written_header h :: mid) with
       | inl out => {| output := out; status := Some (SystemExit RELEASE_MESSAGE) |}
       | inr (out, e) => {| output := out; status := Some e |}
       end.
Proof.
  intros M D.
  assert (R : recognised (release_after None (written_header h :: mid)) = false).
  { change (written_header h :: mid) with (List.app [written_header h] mid).
    rewrite release_after_app, (release_after_without_header _ mid M).
    unfold release_after, written_header. cbn [fold_left].
    now apply rewritten_release_unknown. }
  split; [exact R|].
  now apply data_line_under_unknown_release.
Qed.

Lemma repaired_header_is_not_accepted_witness :
  let first := fix_relab_mpa4 [] half_profile false in
  status first = None
  /\ hd EmptyString (output first) = written_header jun23_header
  /\ fix_relab_mpa4 [] (output first) false
     = {| output := ["#mpa_vJun23_CHOCOPhlAnSGB_202403" ++ Py.nl; unclassified_line "10.0"];
          status := Some (SystemExit RELEASE_MESSAGE) |}.
Proof.
  cbv zeta. split; [vm_compute; reflexivity|]. split; [vm_compute; reflexivity|].
  pose (mid := [unclassified_line "10.0";
                tsv ["k__A"; "1"; "83.33333"; EmptyString];
                tsv ["k__A|p__B"; "1|2"; "83.33333"; EmptyString];
                tsv ["k__A|p__B|c__C"; "1|2|3"; "83.33333"; EmptyString];
                tsv ["k__A|p__B|c__C|o__D"; "1|2|3|4"; "83.33333"; EmptyString];
                tsv ["k__A|p__B|c__C|o__D|f__E"; "1|2|3|4|5"; "83.33333"; EmptyString];
                tsv ["k__A|p__B|c__C|o__D|f__E|g__F"; "1|2|3|4|5|6"; "83.33333"; EmptyString];
                tsv ["k__A|p__B|c__C|o__D|f__E|g__F|s__G"; "1|2|3|4|5|6|7"; "83.33333";
                     EmptyString]]).
  pose proof (proj2 (repaired_header_is_not_accepted [] false jun23_header mid []
                       (tsv [lineage_A; "1|2|3|4|5|6|7|"; "83.33333"; EmptyString])
                       eq_refl eq_refl)) as H.
  replace (output (fix_relab_mpa4 [] half_profile false))
    with (List.app (written_header jun23_header :: mid)
            [tsv [lineage_A; "1|2|3|4|5|6|7|"; "83.33333"; EmptyString]])
    by (vm_compute; reflexivity).
  rewrite H. vm_compute. reflexivity.
Defined.

(* ===================================================================== *)
(** * The rank tables and the writing loop *)
(* ===================================================================== *)

Lemma write_levels_spec (unclassified : PyFloat.float) (t : levels) :
  forall out,
    write_levels unclassified t out
    = if forallb (rank_writable unclassified) t
      then inl (List.app out (rows_of_ranks unclassified t))
      else inr (List.app out
                  (rows_of_ranks unclassified
                     (ranks_written (rank_writable unclassified) t)),
                ZeroDivisionError).
Proof.
  induction t as [|d rest IH]; intros out; cbn [write_levels forallb ranks_written].
  - unfold rows_of_ranks. cbn [flat_map]. now rewrite app_nil_r.
  - rewrite write_level_spec. fold (rank_total unclassified d).
    destruct d as [|x d].
    + cbn [rank_writable andb]. rewrite IH.
      unfold rows_of_ranks. cbn [flat_map rows_of_level map List.app]. reflexivity.
    + cbn [rank_writable].
      destruct (PyFloat.eqb (rank_total unclassified (x :: d)) PyFloat.zero);
        cbn [negb andb].
      * unfold rows_of_ranks. cbn [flat_map]. now rewrite app_nil_r.
      * rewrite IH. unfold rows_of_ranks. cbn [flat_map].
        destruct (forallb (rank_writable unclassified) rest);
          now rewrite <- app_assoc.
Qed.

Lemma gtdb_write_levels_spec (a : abundances_t) (order : list string) :
  forall out,
    gtdb_write_levels a order out
    = if forallb gtdb_rank_writable (map (level_of a) order)
      then inl (List.app out (gtdb_rows_of_ranks (map (level_of a) order)))
      else inr (List.app out
                  (gtdb_rows_of_ranks
                     (ranks_written gtdb_rank_writable (map (level_of a) order))),
                ZeroDivisionError).
Proof.
  induction order as [|x rest IH]; intros out;
    cbn [gtdb_write_levels forallb ranks_written map].
  - unfold gtdb_rows_of_ranks. cbn [flat_map]. now rewrite app_nil_r.
  - rewrite gtdb_write_level_spec.
    destruct (level_of a x) as [|y d].
    + cbn [gtdb_rank_writable andb]. rewrite IH.
      unfold gtdb_rows_of_ranks. cbn [flat_map gtdb_rows_of_level map List.app].
      reflexivity.
    + cbn [gtdb_rank_writable].
      destruct (PyFloat.eqb (total_of (y :: d)) PyFloat.zero); cbn [negb andb].
      * unfold gtdb_rows_of_ranks. cbn [flat_map]. now rewrite app_nil_r.
      * rewrite IH. unfold gtdb_rows_of_ranks. cbn [flat_map].
        destruct (forallb gtdb_rank_writable (map (level_of a) rest));
          now rewrite <- app_assoc.
Qed.

(** Once a single-column profile has been read, the run can only be
    ended by a division by zero: the ranks are written from the
    shallowest on, and the first rank that has a row and whose total
    (with the unclassified fraction in the repair pipeline, without it in
    the conversion pipeline) is zero ends the run with
    [ZeroDivisionError] at its first row; the copied lines and the rows
    of the ranks before it stay in the output.  Without such a rank the
    run returns. *)
Theorem zero_total_ends_the_run :
  (forall (oct_fixes : fix_table) (input : list string) (st : state),
      read_lines oct_fixes init_state input = inl st ->
      let u := unclassified_fraction st in
      let t := ladder 7 (leaf_table st) in
      fix_relab_mpa4 oct_fixes input false
      = {| output := List.app (flat_map passed_through input)
                       (rows_of_ranks u (ranks_written (rank_writable u) t));
           status := if forallb (rank_writable u) t then None
                     else Some ZeroDivisionError |})
  /\ (forall (sgb2gtdb : dict string) (input : list string) (st : gstate),
         gtdb_read_lines sgb2gtdb init_gstate input = inl st ->
         let t := gtdb_ladder 6 (species_table st) in
         get_gtdb_profile sgb2gtdb input
         = {| output := List.app (flat_map gtdb_passed_through input)
                          (gtdb_rows_of_ranks (ranks_written gtdb_rank_writable t));
              status := if forallb gtdb_rank_writable t then None
                        else Some ZeroDivisionError |}).
Proof.
  assert (W : forall A (f : A -> bool) (l : list A),
             forallb f l = true -> ranks_written f l = l).
  { intros A f l. induction l as [|x l IH]; cbn [forallb ranks_written]; auto.
    intros H. apply andb_prop in H as [-> H]. now rewrite IH. }
  split.
  - intros oct_fixes input st R u t.
    unfold fix_relab_mpa4, fix_relab_single. rewrite R.
    rewrite (read_lines_levels_shape _ _ _ R), assign_levels_ladder.
    rewrite write_levels_spec, (read_lines_written _ _ _ _ R).
    fold u t. cbn [wf init_state List.app].
    destruct (forallb (rank_writable u) t) eqn:F; cbn [finish]; [|reflexivity].
    now rewrite (W _ _ _ F).
  - intros sgb2gtdb input st R t.
    unfold get_gtdb_profile. rewrite R.
    rewrite gtdb_write_levels_spec, (gtdb_read_lines_written _ _ _ _ R).
    rewrite (gtdb_read_lines_shape _ _ _ R), gtdb_aggregate_ladder.
    fold t. cbn [gwf init_gstate List.app].
    destruct (forallb gtdb_rank_writable t) eqn:F; cbn [finish]; [|reflexivity].
    now rewrite (W _ _ _ F).
Qed.

Lemma zero_total_ends_the_run_witness :
  let input := [jun23_header; unclassified_line "0.0";
                species_line lineage_A "1|2|3|4|5|6|7|" "0.0"] in
  fix_relab_mpa4 [] input false
  = {| output := ["#mpa_vJun23_CHOCOPhlAnSGB_202403" ++ Py.nl; unclassified_line "0.0"];
       status := Some ZeroDivisionError |}
  /\ get_gtdb_profile gtdb_one input
     = {| output := [jun23_header; tsv ["#clade_name"; "relative_abundance"];
                     tsv ["UNCLASSIFIED"; "0.0"]];
          status := Some ZeroDivisionError |}.
Proof.
  cbv zeta.
  set (input := [jun23_header; unclassified_line "0.0";
                 species_line lineage_A "1|2|3|4|5|6|7|" "0.0"]).
  split.
  - let r := eval vm_compute in (read_lines [] init_state input) in
    match r with
    | inl ?s =>
        rewrite (proj1 zero_total_ends_the_run [] input s ltac:(vm_compute; reflexivity))
    end.
    vm_compute. reflexivity.
  - let r := eval vm_compute in (gtdb_read_lines gtdb_one init_gstate input) in
    match r with
    | inl ?s =>
        rewrite (proj2 zero_total_ends_the_run gtdb_one input s
                   ltac:(vm_compute; reflexivity))
    end.
    vm_compute. reflexivity.
Defined.















Lemma prefix_length (p s : string) :
  String.prefix p s = true -> String.length p <= String.length s.
Proof.
  revert p. induction s as [|c s IH]; intros [|a p]; cbn [String.prefix String.length];
    try discriminate; try lia.
  destruct (ascii_dec a c); [|discriminate].
  intros H. apply IH in H. lia.
Qed.

Lemma contains_longer (p s : string) :
  String.length s < String.length p -> Py.contains p s = false.
Proof.
  induction s as [|c s IH]; intros H; cbn [Py.contains].
  - destruct (String.prefix p EmptyString) eqn:E; [|reflexivity].
    apply prefix_length in E. lia.
  - destruct (String.prefix p (String c s)) eqn:E.
    + apply prefix_length in E. lia.
    + apply IH. cbn [String.length] in H. lia.
Qed.

(** A lineage without separator: in the conversion pipeline it is its
    own parent (line 79 finds nothing to remove), so it is carried
    unchanged to every shallower rank and written once per rank; in the
    repair pipeline its parent is the empty lineage.  A target lineage
    with fewer segments than the seven ranks is therefore still written
    at each of them: the SGB mapped to [x1;x2;x3] gives the rows [x1]
    (five times), [x1;x2] and [x1;x2;x3]. *)
Theorem short_lineage_written_at_every_rank :
  (forall tax : string, Py.contains ";" tax = false -> gtdb_parent tax = tax)
  /\ (forall ss : string, Py.contains "|" ss = false -> drop_last_segment "|" ss = EmptyString)
  /\ get_gtdb_profile [("SGB1", "x1;x2;x3")]
       [species_line lineage_A "1|2|3|4|5|6|7|" "50.0"]
     = {| output := [tsv ["x1"; "100.0"]; tsv ["x1"; "100.0"]; tsv ["x1"; "100.0"];
                     tsv ["x1"; "100.0"]; tsv ["x1"; "100.0"];
                     tsv ["x1;x2"; "100.0"]; tsv ["x1;x2;x3"; "100.0"]];
          status := None |}.
Proof.
  split; [|split].
  - intros tax H. unfold gtdb_parent.
    rewrite (split_without_sep ";" tax H). cbn [Py.last_str List.last].
    apply replace_absent, contains_longer.
    cbn [append String.length]. lia.
  - intros ss H. unfold drop_last_segment.
    now rewrite (split_without_sep "|" ss H).
  - vm_compute. reflexivity.
Qed.

Lemma short_lineage_written_at_every_rank_witness :
  Py.contains ";" "d__Bacteria" = false
  /\ gtdb_parent "d__Bacteria" = "d__Bacteria"
  /\ drop_last_segment "|" "k__Bacteria" = EmptyString.
Proof.
  split; [reflexivity|]. split.
  - exact (proj1 short_lineage_written_at_every_rank "d__Bacteria" eq_refl).
  - exact (proj1 (proj2 short_lineage_written_at_every_rank) "k__Bacteria" eq_refl).
Defined.

(* ===================================================================== *)
(** * Merged profiles: a row shared between ranks *)
(* ===================================================================== *)

Lemma renormalise_cells_ok (sums unclassified row : vector) :
  List.length row <= List.length sums ->
  List.length row <= List.length unclassified ->
  renormalise_cells sums unclassified row
  = Ok (renormalised_cells sums unclassified row).
Proof.
  revert sums unclassified.
  induction row as [|x row IH]; intros [|s sums] [|u us] Hs Hu;
    cbn [List.length] in *; try lia; try reflexivity.
  cbn [renormalise_cells renormalised_cells].
  rewrite IH by lia. reflexivity.
Qed.

Lemma renormalised_cells_length (sums unclassified row : vector) :
  List.length row <= List.length sums ->
  List.length row <= List.length unclassified ->
  List.length (renormalised_cells sums unclassified row) = List.length row.
Proof.
  revert sums unclassified.
  induction row as [|x row IH]; intros [|s sums] [|u us] Hs Hu;
    cbn [List.length] in *; try lia; try reflexivity.
  cbn [renormalised_cells List.length]. rewrite IH by lia. reflexivity.
Qed.

Lemma add_elementwise_length (a b : vector) :
  List.length a = List.length b ->
  List.length (add_elementwise a b) = List.length a.
Proof.
  revert b. induction a as [|x a IH]; intros [|y b] H; cbn [List.length] in *;
    try lia; try reflexivity.
  cbn [add_elementwise List.length]. rewrite IH by lia. reflexivity.
Qed.

Lemma np_add_same_length (a b : vector) :
  List.length a = List.length b -> np_add a b = Ok (add_elementwise a b).
Proof. intros H. unfold np_add. now rewrite H, Nat.eqb_refl. Qed.

Lemma assign_levels_merged_one_leaf (h : heap) (k : string) (a : nat) :
  assign_levels_merged (h, [[]; []; []; []; []; []; []; [(k, a)]])
  = Ok (h, map (fun key => [(key, a)]) (lineage_chain k)).
Proof. reflexivity. Qed.

Lemma sum_levels_merged_shared (h : heap) (n a : nat) (keys : list string) :
  List.length (load h a) = n ->
  sum_levels_merged h n (map (fun key => [(key, a)]) keys)
  = Ok (repeat (add_elementwise (repeat PyFloat.zero n) (load h a)) (List.length keys)).
Proof.
  intros L. induction keys as [|key keys IH]; cbn [map sum_levels_merged]; [reflexivity|].
  rewrite IH. unfold sum_level_merged. cbn [fold_left bind Ok snd].
  rewrite np_add_same_length by (now rewrite repeat_length).
  reflexivity.
Qed.

Lemma write_levels_merged_shared (sums u : vector) (a : nat) (keys : list string) :
  forall h out,
    a < List.length h ->
    List.length (load h a) <= List.length sums ->
    List.length (load h a) <= List.length u ->
    write_levels_merged (repeat sums (List.length keys)) u
      (map (fun key => [(key, a)]) keys) h out
    = inl (List.app out (shared_row_rows sums u keys (load h a))).
Proof.
  induction keys as [|key keys IH]; intros h out Ha Ls Lu;
    cbn [map List.length repeat write_levels_merged shared_row_rows].
  - now rewrite app_nil_r.
  - cbn [nth tl write_level_merged].
    rewrite (renormalise_cells_ok _ _ _ Ls Lu). unfold Ok.
    assert (E : load (list_set h a (renormalised_cells sums u (load h a))) a
                = renormalised_cells sums u (load h a))
      by (unfold load; now apply nth_list_set_same).
    rewrite IH.
    + rewrite E. unfold emit. now rewrite <- app_assoc.
    + now rewrite list_set_length.
    + rewrite E, renormalised_cells_length; auto.
    + rewrite E, renormalised_cells_length; auto.
Qed.

(** On a merged profile a parent created from its first child refers to
    the child's own row object (line 90) and the renormalisation updates
    rows in place (line 176), so a row shared by several ranks is
    renormalised once for each of them.  For every merged profile with a
    single leaf lineage, whose row and unclassified fraction have one
    cell per column, the eight ranks share the leaf's row: the rank
    totals are those of the row as read, the shallowest rank is written
    with the row renormalised once, the next one with that result
    renormalised again, and so on to the leaf, renormalised eight
    times. *)
Theorem merged_shared_row_renormalised_per_rank (oct_fixes : fix_table)
    (input : list string) (st : mstate) (k : string) (a n : nat) :
  read_lines_merged oct_fixes init_mstate input = inl st ->
  m_levs st = [[]; []; []; []; []; []; []; [(k, a)]] ->
  m_ncols st = Some n ->
  a < List.length (m_heap st) ->
  List.length (load (m_heap st) a) = n ->
  List.length (unclassified_row st n) = n ->
  fix_relab_mpa4 oct_fixes input true
  = {| output :=
         List.app (flat_map passed_through input)
           (shared_row_rows
              (add_elementwise (repeat PyFloat.zero n) (load (m_heap st) a))
              (unclassified_row st n)
              (lineage_chain k) (load (m_heap st) a));
       status := None |}.
Proof.
  intros R T N A Lv Lu.
  unfold fix_relab_mpa4, fix_relab_merged. rewrite R.
  unfold complete_merged. rewrite T, N, assign_levels_merged_one_leaf. unfold Ok.
  cbv zeta. fold (unclassified_row st n).
  rewrite (sum_levels_merged_shared _ _ _ _ Lv). unfold Ok.
  assert (Ls : List.length (add_elementwise (repeat PyFloat.zero n) (load (m_heap st) a)) = n)
    by (rewrite add_elementwise_length; rewrite repeat_length; auto).
  rewrite write_levels_merged_shared by lia.
  rewrite (read_lines_merged_written _ _ _ _ R). reflexivity.
Qed.

Lemma merged_shared_row_renormalised_per_rank_witness :
  fix_relab_mpa4 [] merged_profile true
  = {| output :=
         ["#mpa_vJun23_CHOCOPhlAnSGB_202403" ++ Py.nl;
          tsv ["clade_name"; "sample1"; "sample2"];
          tsv ["UNCLASSIFIED"; "0.0"; "50.0"];
          tsv ["k__A"; "100.0"; "50.0"];
          tsv ["k__A|p__B"; "200.0"; "50.0"];
          tsv ["k__A|p__B|c__C"; "400.0"; "50.0"];
          tsv ["k__A|p__B|c__C|o__D"; "800.0"; "50.0"];
          tsv ["k__A|p__B|c__C|o__D|f__E"; "1600.0"; "50.0"];
          tsv ["k__A|p__B|c__C|o__D|f__E|g__F"; "3200.0"; "50.0"];
          tsv ["k__A|p__B|c__C|o__D|f__E|g__F|s__G"; "6400.0"; "50.0"];
          tsv [lineage_A; "12800.0"; "50.0"]];
       status := None |}.
Proof.
  let r := eval vm_compute in (read_lines_merged [] init_mstate merged_profile) in
  match r with
  | inl ?s =>
      rewrite (merged_shared_row_renormalised_per_rank [] merged_profile s lineage_A 0 2
                 ltac:(vm_compute; reflexivity) ltac:(vm_compute; reflexivity)
                 ltac:(vm_compute; reflexivity)
                 ltac:(vm_compute; lia) ltac:(vm_compute; reflexivity)
                 ltac:(vm_compute; reflexivity))
  end.
  vm_compute. reflexivity.
Defined.

(* ===================================================================== *)
(** * The exceptions that can end a run *)
(* ===================================================================== *)

Lemma index_fails {A} (l : list A) (i : nat) (P : error -> Prop) :
  P IndexError -> fails_within P (index l i).
Proof. intros H. unfold index. destruct (nth_error l i); simpl; auto. Qed.

Lemma float_fails (s : string) (P : error -> Prop) :
  P ValueError -> fails_within P (float_ s).
Proof. intros H. unfold float_. destruct (PyFloat.of_string s); simpl; auto. Qed.

Lemma bind_fails {A B} (P : error -> Prop) (m : result A) (f : A -> result B) :
  fails_within P m -> (forall a, fails_within P (f a)) -> fails_within P (bind m f).
Proof. intros Hm Hf. destruct m as [a|e]; simpl in *; auto. Qed.

Lemma floats_fails (fields : list string) (P : error -> Prop) :
  P ValueError -> fails_within P (floats fields).
Proof.
  intros H. induction fields as [|f r IH]; cbn [floats]; [exact I|].
  apply bind_fails; [now apply float_fails|]. intros x.
  apply bind_fails; [exact IH|]. intros xs. exact I.
Qed.

Lemma fix_fields_fails (oct_fixes : fix_table) (merged : bool) (r : option string)
    (line : string) (P : error -> Prop) :
  P IndexError -> P (SystemExit RELEASE_MESSAGE) ->
  fails_within P (fix_fields oct_fixes merged r line).
Proof.
  intros Hi Hs. unfold fix_fields.
  destruct (release_is r JUN23); [exact I|].
  destruct (release_is r OCT22); [|exact Hs].
  cbv zeta. destruct (Py.split Py.TAB (Py.strip line)) as [|f0 rest]; [exact Hi|].
  destruct (dict_get oct_fixes f0) as [[new_tax new_tax_id]|]; [|exact I].
  destruct merged; [exact I|]. destruct rest; [exact Hi|exact I].
Qed.

Lemma leaf_assignment_fails (oct_fixes : fix_table) (r : option string) (line : string)
    (P : error -> Prop) :
  P IndexError -> P ValueError -> P (SystemExit RELEASE_MESSAGE) ->
  fails_within P (leaf_assignment oct_fixes r line).
Proof.
  intros Hi Hv Hs. unfold leaf_assignment, entry_of_fields.
  apply bind_fails; [now apply fix_fields_fails|]. intros fields.
  apply bind_fails; [|intros; exact I].
  apply bind_fails; [now apply index_fails|]. intros name.
  apply bind_fails; [now apply index_fails|]. intros text.
  apply bind_fails; [now apply float_fails|]. intros value. exact I.
Qed.

Lemma read_line_fails (oct_fixes : fix_table) (st : state) (line : string)
    (out : list string) (e : error) :
  read_line oct_fixes st line = inr (out, e) -> repair_error false e.
Proof.
  assert (Hi : repair_error false IndexError) by (unfold repair_error; auto).
  assert (Hv : repair_error false ValueError) by (unfold repair_error; auto).
  assert (Hs : repair_error false (SystemExit RELEASE_MESSAGE))
    by (unfold repair_error; auto).
  unfold read_line.
  destruct (Py.startswith line "#mpa_v"); [discriminate|].
  destruct (Py.startswith line "#" || Py.startswith line "clade_name"); [discriminate|].
  destruct (Py.startswith line "UNCLASSIFIED").
  - cbv zeta.
    assert (F : fails_within (repair_error false)
                  (text <- index (Py.split Py.TAB line) 2 ;; float_ text)).
    { apply bind_fails; [now apply index_fails|]. intros t. now apply float_fails. }
    destruct (text <- index (Py.split Py.TAB line) 2 ;; float_ text);
      [discriminate|]. now intros [= _ <-].
  - destruct (Py.contains "t__" line); [|discriminate].
    pose proof (leaf_assignment_fails oct_fixes (release st) line _ Hi Hv Hs) as F.
    destruct (leaf_assignment oct_fixes (release st) line) as [[k x]|];
      [discriminate|]. now intros [= _ <-].
Qed.

Lemma read_lines_fails (oct_fixes : fix_table) (input : list string) :
  forall st out e,
    read_lines oct_fixes st input = inr (out, e) -> repair_error false e.
Proof.
  induction input as [|l r IH]; intros st out e H; cbn [read_lines] in H; [discriminate|].
  destruct (read_line oct_fixes st l) as [s1|[o1 e1]] eqn:E.
  - now apply (IH s1 out e).
  - injection H as _ <-. now apply (read_line_fails _ _ _ _ _ E).
Qed.

Lemma read_line_merged_fails (oct_fixes : fix_table) (st : mstate) (line : string)
    (out : list string) (e : error) :
  read_line_merged oct_fixes st line = inr (out, e) -> repair_error true e.
Proof.
  assert (Hi : repair_error true IndexError) by (unfold repair_error; auto).
  assert (Hv : repair_error true ValueError) by (unfold repair_error; auto).
  assert (Hs : repair_error true (SystemExit RELEASE_MESSAGE))
    by (unfold repair_error; auto).
  unfold read_line_merged. destruct st as [h t rel u nc o].
  destruct (Py.startswith line "#mpa_v"); [discriminate|].
  destruct (Py.startswith line "#" || Py.startswith line "clade_name"); [discriminate|].
  destruct (Py.startswith line "UNCLASSIFIED").
  - pose proof (floats_fails (tl (Py.split Py.TAB line)) _ Hv) as F.
    destruct (floats (tl (Py.split Py.TAB line))); [discriminate|].
    now intros [= _ <-].
  - destruct (Py.contains "t__" line); [|discriminate].
    assert (F : fails_within (repair_error true)
                  (leaf_assignment_merged oct_fixes rel line)).
    { unfold leaf_assignment_merged.
      apply bind_fails; [now apply fix_fields_fails|]. intros fields.
      apply bind_fails; [now apply floats_fails|]. intros v. exact I. }
    destruct (leaf_assignment_merged oct_fixes rel line) as [[f v]|];
      [discriminate|]. now intros [= _ <-].
Qed.

Lemma read_lines_merged_fails (oct_fixes : fix_table) (input : list string) :
  forall st out e,
    read_lines_merged oct_fixes st input = inr (out, e) -> repair_error true e.
Proof.
  induction input as [|l r IH]; intros st out e H; cbn [read_lines_merged] in H;
    [discriminate|].
  destruct (read_line_merged oct_fixes st l) as [s1|[o1 e1]] eqn:E.
  - now apply (IH s1 out e).
  - injection H as _ <-. now apply (read_line_merged_fails _ _ _ _ _ E).
Qed.

Lemma np_add_fails (a b : vector) (P : error -> Prop) :
  P ValueError -> fails_within P (np_add a b).
Proof.
  intros H. unfold np_add.
  destruct (List.length a =? List.length b)%nat; [exact I|].
  destruct a as [|x [|x' a]]; destruct b as [|y [|y' b]]; simpl; auto.
Qed.

Lemma raise_child_merged_fails (P : error -> Prop) (acc : result (heap * dict nat))
    (child : string * nat) :
  P ValueError -> fails_within P acc -> fails_within P (raise_child_merged acc child).
Proof.
  intros H F. unfold raise_child_merged.
  apply bind_fails; [exact F|]. intros [h parent]. destruct child as [ss a].
  destruct (dict_get parent (drop_last_segment "|" ss)); [|exact I].
  apply bind_fails; [now apply np_add_fails|]. intros v. exact I.
Qed.

Lemma raise_children_merged_fails (P : error -> Prop) (children : dict nat) :
  P ValueError ->
  forall acc, fails_within P acc ->
              fails_within P (fold_left raise_child_merged children acc).
Proof.
  intros H. induction children as [|c r IH]; intros acc F; cbn [fold_left]; auto.
  apply IH. now apply raise_child_merged_fails.
Qed.

Lemma assign_ranks_merged_fails (P : error -> Prop) (ranks : list nat) :
  P ValueError -> P IndexError ->
  forall acc, fails_within P acc ->
              fails_within P (fold_left assign_rank_merged ranks acc).
Proof.
  intros H Hi. induction ranks as [|i r IH]; intros acc F; cbn [fold_left]; auto.
  apply IH. unfold assign_rank_merged.
  apply bind_fails; [exact F|]. intros [h t]. cbv zeta.
  destruct (List.length t <? i)%nat; [exact Hi|].
  destruct (List.length t <? i + 1)%nat.
  { destruct (nth (neg_index t i) t []); [exact I|exact Hi]. }
  apply bind_fails; [|intros; exact I].
  apply raise_children_merged_fails; [exact H|exact I].
Qed.

Lemma sum_levels_merged_fails (P : error -> Prop) (h : heap) (n : nat)
    (t : list (dict nat)) :
  P ValueError -> fails_within P (sum_levels_merged h n t).
Proof.
  intros H. induction t as [|d r IH]; cbn [sum_levels_merged]; [exact I|].
  apply bind_fails; [|intros s; apply bind_fails; [exact IH|intros; exact I]].
  unfold sum_level_merged.
  assert (G : forall acc, fails_within P acc ->
                fails_within P
                  (fold_left (fun acc kv => s <- acc ;; np_add s (load h (snd kv))) d acc)).
  { induction d as [|kv d' IHd]; intros acc F; cbn [fold_left]; auto.
    apply IHd. apply bind_fails; [exact F|]. intros s. now apply np_add_fails. }
  apply G. exact I.
Qed.

Lemma renormalise_cells_fails (P : error -> Prop) (sums u row : vector) :
  P IndexError -> fails_within P (renormalise_cells sums u row).
Proof.
  intros H. revert sums u.
  induction row as [|x row IH]; intros [|s sums] [|y u]; cbn [renormalise_cells];
    try exact I; try exact H.
  cbv zeta. apply bind_fails; [apply IH|intros; exact I].
Qed.

Lemma write_level_merged_fails (sums u : vector) (d : dict nat) :
  forall h out o e,
    write_level_merged sums u d h out = inr (o, e) -> e = IndexError.
Proof.
  induction d as [|[tax a] r IH]; intros h out o e H; cbn [write_level_merged] in H;
    [discriminate|].
  pose proof (renormalise_cells_fails (fun e => e = IndexError) sums u (load h a) eq_refl)
    as F.
  destruct (renormalise_cells sums u (load h a)) as [row|e1].
  - now apply (IH _ _ _ _ H).
  - injection H as _ <-. exact F.
Qed.

Lemma write_levels_merged_fails (u : vector) (t : list (dict nat)) :
  forall sums h out o e,
    write_levels_merged sums u t h out = inr (o, e) -> e = IndexError.
Proof.
  induction t as [|d r IH]; intros sums h out o e H; cbn [write_levels_merged] in H;
    [discriminate|].
  destruct (write_level_merged (nth 0 sums []) u d h out) as [[h1 o1]|[o1 e1]] eqn:E.
  - now apply (IH _ _ _ _ _ H).
  - injection H as _ <-. now apply (write_level_merged_fails _ _ _ _ _ _ _ E).
Qed.

Lemma gtdb_read_line_fails (sgb2gtdb : dict string) (st : gstate) (line : string)
    (out : list string) (e : error) :
  gtdb_read_line sgb2gtdb st line = inr (out, e) -> conversion_error e.
Proof.
  assert (Hi : conversion_error IndexError) by (unfold conversion_error; auto).
  assert (Hv : conversion_error ValueError) by (unfold conversion_error; auto).
  assert (F : forall l, fails_within conversion_error
                          (text <- index l 2 ;; float_ text)).
  { intros l. apply bind_fails; [now apply index_fails|].
    intros t. now apply float_fails. }
  unfold gtdb_read_line.
  destruct (Py.startswith line "#mpa_"); [discriminate|].
  destruct (Py.startswith line "UNCLASSIFIED").
  - specialize (F (Py.split Py.TAB (Py.strip line))).
    destruct (text <- index (Py.split Py.TAB (Py.strip line)) 2 ;; float_ text);
      [discriminate|]. now intros [= _ <-].
  - destruct (Py.contains "t__SGB" line); [|discriminate].
    cbv zeta.
    match goal with
    | |- match ?x with _ => _ end = _ -> _ =>
        assert (G : fails_within conversion_error x); [|destruct x as [[g v]|]]
    end.
    + destruct (dict_get sgb2gtdb _).
      * apply bind_fails; [now apply index_fails|]. intros t.
        apply bind_fails; [now apply float_fails|]. intros v. exact I.
      * left. eauto.
    + discriminate.
    + now intros [= _ <-].
Qed.

Lemma gtdb_read_lines_fails (sgb2gtdb : dict string) (input : list string) :
  forall st out e,
    gtdb_read_lines sgb2gtdb st input = inr (out, e) -> conversion_error e.
Proof.
  induction input as [|l r IH]; intros st out e H; cbn [gtdb_read_lines] in H;
    [discriminate|].
  destruct (gtdb_read_line sgb2gtdb st l) as [s1|[o1 e1]] eqn:E.
  - now apply (IH s1 out e).
  - injection H as _ <-. now apply (gtdb_read_line_fails _ _ _ _ _ E).
Qed.

(** A run of the repair pipeline can only be ended by the release
    message ([SystemExit]), by [IndexError] (a line with too few fields,
    or a row of a merged profile longer than the totals or the
    unclassified fraction) or by [ValueError] (a value that is not a
    number, or rows of a merged profile whose lengths do not match), and
    besides by
    [ZeroDivisionError] for a single-column profile and by
    [UnboundLocalError] on [ncols] for a merged one: a merged profile is
    never ended by a division by zero, and the repair pipeline never by a
    missing key.  A run of the conversion pipeline can only be ended by
    [KeyError], [IndexError], [ValueError] or [ZeroDivisionError]. *)
Theorem exceptions_that_end_a_run :
  (forall (oct_fixes : fix_table) (input : list string) (merged : bool) (e : error),
      status (fix_relab_mpa4 oct_fixes input merged) = Some e -> repair_error merged e)
  /\ (forall (sgb2gtdb : dict string) (input : list string) (e : error),
         status (get_gtdb_profile sgb2gtdb input) = Some e -> conversion_error e).
Proof.
  split.
  - intros oct_fixes input [|] e; unfold fix_relab_mpa4.
    + assert (Hv : repair_error true ValueError) by (unfold repair_error; auto).
      assert (Hi : repair_error true IndexError) by (unfold repair_error; auto).
      unfold fix_relab_merged.
      destruct (read_lines_merged oct_fixes init_mstate input) as [st|[o e1]] eqn:R.
      * unfold complete_merged, assign_levels_merged.
        pose proof (assign_ranks_merged_fails (repair_error true) (seq 1 7) Hv Hi
                      (Ok (m_heap st, m_levs st)) I) as F.
        destruct (fold_left assign_rank_merged (seq 1 7) (Ok (m_heap st, m_levs st)))
          as [[h t]|e1]; [|cbn [finish status]; now intros [= <-]].
        destruct (m_ncols st) as [n|];
          [|cbn [finish status]; intros [= <-]; unfold repair_error; auto].
        cbv zeta.
        match goal with
        | |- context [sum_levels_merged h n t] =>
            pose proof (sum_levels_merged_fails (repair_error true) h n t Hv) as G;
            destruct (sum_levels_merged h n t) as [sums|e2];
              [|cbn [finish status]; now intros [= <-]]
        end.
        match goal with
        | |- status (finish ?w) = _ -> _ => destruct w as [out|[out e3]] eqn:W
        end; cbn [finish status]; [discriminate|].
        intros [= <-]. apply write_levels_merged_fails in W. subst e3.
        unfold repair_error. auto.
      * cbn [finish status]. intros [= <-]. now apply (read_lines_merged_fails _ _ _ _ _ R).
    + unfold fix_relab_single.
      destruct (read_lines oct_fixes init_state input) as [st|[o e1]] eqn:R.
      * rewrite write_levels_spec.
        destruct (forallb _ _); cbn [finish status]; [discriminate|].
        intros [= <-]. unfold repair_error. auto.
      * cbn [finish status]. intros [= <-]. now apply (read_lines_fails _ _ _ _ _ R).
  - intros sgb2gtdb input e. unfold get_gtdb_profile.
    destruct (gtdb_read_lines sgb2gtdb init_gstate input) as [st|[o e1]] eqn:R.
    + rewrite gtdb_write_levels_spec.
      destruct (forallb _ _); cbn [finish status]; [discriminate|].
      intros [= <-]. unfold conversion_error. auto.
    + cbn [finish status]. intros [= <-]. now apply (gtdb_read_lines_fails _ _ _ _ _ R).
Qed.

Lemma exceptions_that_end_a_run_witness :
  let input := [jun23_header; tsv ["k__A|s__G|t__SGB1"; "1.0"; "2.0"];
                tsv ["k__A|s__G|t__SGB2"; "1.0"; "2.0"; "3.0"]] in
  status (fix_relab_mpa4 [] input true) = Some ValueError
  /\ repair_error true ValueError.
Proof.
  cbv zeta. split; [vm_compute; reflexivity|].
  apply (proj1 exceptions_that_end_a_run []
           [jun23_header; tsv ["k__A|s__G|t__SGB1"; "1.0"; "2.0"];
            tsv ["k__A|s__G|t__SGB2"; "1.0"; "2.0"; "3.0"]] true).
  vm_compute. reflexivity.
Defined.

(* ===================================================================== *)
(** * Leaf rows of a merged profile *)
(* ===================================================================== *)

Lemma floats_not_a_number (fields : list string) :
  existsb not_a_number fields = true -> floats fields = Raise ValueError.
Proof.
  induction fields as [|f r IH]; cbn [existsb floats]; [discriminate|].
  unfold not_a_number at 1, float_.
  destruct (PyFloat.of_string f); cbn [orb bind Ok Raise]; [|reflexivity].
  intros H. now rewrite (IH H).
Qed.

(** In merged mode every field of the stripped leaf row after the first
    is read as a number (line 139): a row that holds anything else there
    (the identifier column of a single-sample profile, for one) ends the
    run with [ValueError]; the output keeps what the lines before it
    wrote. *)
Theorem merged_row_needs_numbers (oct_fixes : fix_table) (pre post : list string)
    (line : string) (st : mstate) (fields : list string) :
  read_lines_merged oct_fixes init_mstate pre = inl st ->
  is_data_line line = true ->
  fix_fields oct_fixes true (m_release st) line = Ok fields ->
  existsb not_a_number (tl fields) = true ->
  fix_relab_mpa4 oct_fixes (List.app pre (line :: post)) true
  = {| output := m_wf st; status := Some ValueError |}.
Proof.
  intros R D F B.
  apply is_data_line_inv in D. destruct D as (H1 & H2 & H3 & H4).
  unfold fix_relab_mpa4, fix_relab_merged.
  rewrite read_lines_merged_app, R. cbn [read_lines_merged].
  unfold read_line_merged. destruct st as [h t rel u nc out]. mstate_simpl.
  rewrite H1, H2, H3, H4. unfold leaf_assignment_merged.
  rewrite F. cbn [bind Ok]. now rewrite (floats_not_a_number _ B).
Qed.

Lemma merged_row_needs_numbers_witness :
  fix_relab_mpa4 []
    (List.app [jun23_header] (species_line lineage_A "1|2|3|4|5|6|7|" "50.0" :: [])) true
  = {| output := ["#mpa_vJun23_CHOCOPhlAnSGB_202403" ++ Py.nl];
       status := Some ValueError |}.
Proof.
  exact (merged_row_needs_numbers [] [jun23_header] []
           (species_line lineage_A "1|2|3|4|5|6|7|" "50.0")
           (MState [] [[]; []; []; []; []; []; []; []] (Some JUN23) None None
              ["#mpa_vJun23_CHOCOPhlAnSGB_202403" ++ Py.nl])
           [lineage_A; "1|2|3|4|5|6|7|"; "50.0"]
           ltac:(vm_compute; reflexivity) ltac:(vm_compute; reflexivity)
           ltac:(vm_compute; reflexivity) ltac:(vm_compute; reflexivity)).
Defined.

(* ===================================================================== *)
(** * The eight tables *)
(* ===================================================================== *)

(** The reading loop leaves eight tables, on which the aggregation of a
    single-column profile cannot raise. *)
Lemma read_lines_assign_higher (oct_fixes : fix_table) (input : list string) (st : state) :
  read_lines oct_fixes init_state input = inl st ->
  assign_higher_taxonomic_levels false (taxa_levs st) = Ok (assign_levels (taxa_levs st)).
Proof.
  intros R. rewrite (read_lines_levels_shape _ _ _ R). reflexivity.
Qed.
